(** * Prior-authorization intake page and decision pipeline

    A shallow embedding of the browser front end ([frontend/app.js], the form
    of [frontend/index.html], and the copy of the script that is inlined in
    the page) together with the two pipeline components the specification
    describes in enough detail to be modelled (the treatment categorizer and
    the decision extractor).

    Strings are sequences of bytes, read as UTF-8. *)

From Stdlib Require Import String Ascii List ZArith Bool Arith Lia DecimalString.
Import ListNotations.
Open Scope string_scope.
Open Scope nat_scope.

(* ================================================================== *)
(** * Part I. Definitions                                              *)
(* ================================================================== *)

(** ** Text helpers *)

Module Text.

Definition dquote : ascii := "034"%char.
Definition backslash : ascii := "092"%char.
Definition newline : string := String "010"%char "".

Fixpoint spaces (n : nat) : string :=
  match n with
  | O => ""
  | S k => String " "%char (spaces k)
  end.

Fixpoint starts_with (p s : string) : bool :=
  match p, s with
  | EmptyString, _ => true
  | String a p', String b s' => Ascii.eqb a b && starts_with p' s'
  | String _ _, EmptyString => false
  end.

(** [String.prototype.includes]: does [needle] occur in [hay]? *)
Fixpoint includes (needle hay : string) : bool :=
  starts_with needle hay ||
  match hay with
  | EmptyString => false
  | String _ rest => includes needle rest
  end.

(** [String.prototype.split] with a one-character separator. *)
Fixpoint split (sep : ascii) (s : string) : list string :=
  match s with
  | EmptyString => [EmptyString]
  | String c rest =>
      if Ascii.eqb c sep then EmptyString :: split sep rest
      else match split sep rest with
           | [] => [String c EmptyString]
           | piece :: pieces => String c piece :: pieces
           end
  end.

(** Number of UTF-16 code units of a UTF-8 byte string: one per leading
    byte, two for the leading byte of a four-byte sequence. *)
Fixpoint utf16_length (s : string) : nat :=
  match s with
  | EmptyString => 0
  | String c rest =>
      let n := nat_of_ascii c in
      (if (n <? 128) || ((192 <=? n) && (n <? 240)) then 1
       else if 240 <=? n then 2 else 0) + utf16_length rest
  end.

Definition is_digit (c : ascii) : bool :=
  let n := nat_of_ascii c in (48 <=? n) && (n <=? 57).

Definition is_space (c : ascii) : bool :=
  let n := nat_of_ascii c in
  (n =? 32) || (n =? 9) || (n =? 10) || (n =? 13).

Fixpoint skip_ws (s : string) : string :=
  match s with
  | String c rest => if is_space c then skip_ws rest else s
  | EmptyString => s
  end.

(** The longest prefix of decimal digits, and what follows it. *)
Fixpoint take_digits (s : string) : string * string :=
  match s with
  | String c rest =>
      if is_digit c
      then let (ds, r) := take_digits rest in (String c ds, r)
      else (EmptyString, s)
  | EmptyString => (EmptyString, s)
  end.

Definition hex_digit (c : ascii) : option N :=
  let n := N_of_ascii c in
  (if (48 <=? n) && (n <=? 57) then Some (n - 48)
   else if (65 <=? n) && (n <=? 70) then Some (n - 55)
   else if (97 <=? n) && (n <=? 102) then Some (n - 87)
   else None)%N.

Definition hex_char (n : N) : ascii :=
  ascii_of_N (if n <? 10 then 48 + n else 87 + n)%N.

Definition byte (n : N) : string := String (ascii_of_N n) "".

(** UTF-8 encoding of a code point below 0x110000 (a lone surrogate is
    encoded like any other three-byte code point). *)
Definition utf8 (cp : N) : string :=
  (if cp <? 128 then byte cp
   else if cp <? 2048 then byte (192 + cp / 64) ++ byte (128 + cp mod 64)
   else if cp <? 65536 then
     byte (224 + cp / 4096) ++ byte (128 + (cp / 64) mod 64)
       ++ byte (128 + cp mod 64)
   else
     byte (240 + cp / 262144) ++ byte (128 + (cp / 4096) mod 64)
       ++ byte (128 + (cp / 64) mod 64) ++ byte (128 + cp mod 64))%N.

End Text.

(** ** JSON documents: syntax tree, printer and parser

    The wire format shared by the page ([JSON.stringify] on the way out,
    [response.json()] on the way in) and by the decision extractor, which
    deserializes the object it locates in the model's reply.  A number is
    kept as its literal, so the tree is independent of any number
    representation. *)

Module Json.
Import Text.

#[warnings="-register-all"]
Inductive json : Type :=
| JNull
| JBool (b : bool)
| JNumber (lexeme : string)
| JString (s : string)
| JArray (items : list json)
| JObject (members : list (string * json)).

(** *** Printer (the compact form [JSON.stringify] produces) *)

(** QuoteJSONString without the surrounding quotes. *)
Fixpoint escape (s : string) : string :=
  match s with
  | EmptyString => ""
  | String c rest =>
      let n := N_of_ascii c in
      (if Ascii.eqb c dquote then String backslash (String dquote "")
       else if Ascii.eqb c backslash then String backslash (String backslash "")
       else if (n =? 8)%N then String backslash "b"
       else if (n =? 9)%N then String backslash "t"
       else if (n =? 10)%N then String backslash "n"
       else if (n =? 12)%N then String backslash "f"
       else if (n =? 13)%N then String backslash "r"
       else if (n <? 32)%N then
         String backslash
           (String "u" (String "0" (String "0"
              (String (hex_char (n / 16)) (String (hex_char (n mod 16)) "")))))
       else String c "")
      ++ escape rest
  end.

Definition quote (s : string) : string :=
  String dquote (escape s) ++ String dquote "".

Fixpoint print (j : json) : string :=
  match j with
  | JNull => "null"
  | JBool true => "true"
  | JBool false => "false"
  | JNumber lexeme => lexeme
  | JString s => quote s
  | JArray items =>
      "[" ++ String.concat "," (map print items) ++ "]"
  | JObject members =>
      "{" ++ String.concat ","
               (map (fun kv => quote (fst kv) ++ ":" ++ print (snd kv)) members)
          ++ "}"
  end.

(** One member of an object as [print] writes it. *)
Definition member_text (kv : string * json) : string :=
  quote (fst kv) ++ ":" ++ print (snd kv).

(** Objects all of whose members are strings. *)
Definition string_member (kv : string * string) : string * json :=
  (fst kv, JString (snd kv)).

Definition flat (members : list (string * string)) : json :=
  JObject (map string_member members).

(** *** Parser *)

(** A number literal at the head of [s]: an optional minus sign, an
    integer part without a superfluous leading zero, an optional fraction
    and an optional exponent. *)
Definition scan_int (s : string) : option (string * string) :=
  match take_digits s with
  | (EmptyString, _) => None
  | (String d EmptyString, r) => Some (String d EmptyString, r)
  | (String d ds, r) =>
      if Ascii.eqb d "0" then None else Some (String d ds, r)
  end.

Definition scan_frac (s : string) : option (string * string) :=
  match s with
  | String c r =>
      if Ascii.eqb c "." then
        match take_digits r with
        | (EmptyString, _) => None
        | (ds, r') => Some (String c ds, r')
        end
      else Some ("", s)
  | EmptyString => Some ("", s)
  end.

Definition scan_exp (s : string) : option (string * string) :=
  let digits (pre r : string) :=
    match take_digits r with
    | (EmptyString, _) => None
    | (ds, r') => Some (pre ++ ds, r')
    end in
  match s with
  | String e r =>
      if Ascii.eqb e "e" || Ascii.eqb e "E" then
        match r with
        | String sg r' =>
            if Ascii.eqb sg "+" || Ascii.eqb sg "-"
            then digits (String e (String sg "")) r'
            else digits (String e "") r
        | EmptyString => None
        end
      else Some ("", s)
  | EmptyString => Some ("", s)
  end.

Definition scan_number (s : string) : option (string * string) :=
  let (sign, s1) :=
    match s with
    | String c r => if Ascii.eqb c "-" then ("-", r) else ("", s)
    | EmptyString => ("", s)
    end in
  match scan_int s1 with
  | None => None
  | Some (i, s2) =>
      match scan_frac s2 with
      | None => None
      | Some (f, s3) =>
          match scan_exp s3 with
          | None => None
          | Some (e, s4) => Some (sign ++ i ++ f ++ e, s4)
          end
      end
  end.

(** Four hexadecimal digits at the head of [s]. *)
Definition scan_hex4 (s : string) : option (N * string) :=
  match s with
  | String a (String b (String c (String d r))) =>
      match hex_digit a, hex_digit b, hex_digit c, hex_digit d with
      | Some x, Some y, Some z, Some w =>
          Some ((((x * 16 + y) * 16 + z) * 16 + w)%N, r)
      | _, _, _, _ => None
      end
  | _ => None
  end.

(** The rest of a string literal after its opening quote: the decoded
    content and what follows the closing quote.  A raw control character
    is refused; a high surrogate escape followed by a low surrogate
    escape is one code point. *)
Fixpoint scan_string (s : string) : option (string * string) :=
  match s with
  | EmptyString => None
  | String c r =>
      if Ascii.eqb c dquote then Some ("", r)
      else if Ascii.eqb c backslash then
        match r with
        | String e r1 =>
            let simple (out : N) :=
              match scan_string r1 with
              | Some (t, r') => Some (byte out ++ t, r')
              | None => None
              end in
            if Ascii.eqb e dquote then simple 34%N
            else if Ascii.eqb e backslash then simple 92%N
            else if Ascii.eqb e "/" then simple 47%N
            else if Ascii.eqb e "b" then simple 8%N
            else if Ascii.eqb e "f" then simple 12%N
            else if Ascii.eqb e "n" then simple 10%N
            else if Ascii.eqb e "r" then simple 13%N
            else if Ascii.eqb e "t" then simple 9%N
            else if Ascii.eqb e "u" then
              match r1 with
              | String a (String b (String c' (String d r2))) =>
                  match hex_digit a, hex_digit b, hex_digit c', hex_digit d with
                  | Some x, Some y, Some z, Some w =>
                      let hi := (((x * 16 + y) * 16 + z) * 16 + w)%N in
                      let single :=
                        match scan_string r2 with
                        | Some (t, r') => Some (utf8 hi ++ t, r')
                        | None => None
                        end in
                      if ((55296 <=? hi) && (hi <? 56320))%N then
                        match r2 with
                        | String b1 (String u1 r3) =>
                            if Ascii.eqb b1 backslash && Ascii.eqb u1 "u" then
                              match r3 with
                              | String a2 (String b2 (String c2 (String d2 r4))) =>
                                  match hex_digit a2, hex_digit b2,
                                        hex_digit c2, hex_digit d2 with
                                  | Some x2, Some y2, Some z2, Some w2 =>
                                      let lo :=
                                        (((x2 * 16 + y2) * 16 + z2) * 16 + w2)%N in
                                      if ((56320 <=? lo) && (lo <? 57344))%N then
                                        match scan_string r4 with
                                        | Some (t, r') =>
                                            Some (utf8 (65536 + (hi - 55296) * 1024
                                                        + (lo - 56320))%N ++ t, r')
                                        | None => None
                                        end
                                      else single
                                  | _, _, _, _ => single
                                  end
                              | _ => single
                              end
                            else single
                        | _ => single
                        end
                      else single
                  | _, _, _, _ => None
                  end
              | _ => None
              end
            else None
        | EmptyString => None
        end
      else if (N_of_ascii c <? 32)%N then None
      else
        match scan_string r with
        | Some (t, r') => Some (String c t, r')
        | None => None
        end
  end.

(** [strip_prefix p s] is what follows [p] in [s], when [s] starts with [p]. *)
Fixpoint strip_prefix (p s : string) : option string :=
  match p, s with
  | EmptyString, _ => Some s
  | String a p', String b s' => if Ascii.eqb a b then strip_prefix p' s' else None
  | String _ _, EmptyString => None
  end.

(** Recursive descent.  [parse_items] reads the elements of an array up to
    and including its closing bracket, [parse_members] the members of an
    object up to and including its closing brace.  Every call consumes a
    character before the next one at the same depth of [fuel] is made, so
    twice the length of the text is enough fuel. *)
Fixpoint parse_value (fuel : nat) (s : string) : option (json * string) :=
  match fuel with
  | O => None
  | S fuel' =>
      match skip_ws s with
      | EmptyString => None
      | String c r =>
          if Ascii.eqb c "{" then
            match skip_ws r with
            | EmptyString => None
            | String c1 r1 =>
                if Ascii.eqb c1 "}" then Some (JObject [], r1)
                else
                  match parse_members fuel' (String c1 r1) with
                  | Some (ms, r') => Some (JObject ms, r')
                  | None => None
                  end
            end
          else if Ascii.eqb c "[" then
            match skip_ws r with
            | EmptyString => None
            | String c1 r1 =>
                if Ascii.eqb c1 "]" then Some (JArray [], r1)
                else
                  match parse_items fuel' (String c1 r1) with
                  | Some (vs, r') => Some (JArray vs, r')
                  | None => None
                  end
            end
          else if Ascii.eqb c dquote then
            match scan_string r with
            | Some (t, r') => Some (JString t, r')
            | None => None
            end
          else
            match strip_prefix "true" (String c r) with
            | Some r' => Some (JBool true, r')
            | None =>
            match strip_prefix "false" (String c r) with
            | Some r' => Some (JBool false, r')
            | None =>
            match strip_prefix "null" (String c r) with
            | Some r' => Some (JNull, r')
            | None =>
            match scan_number (String c r) with
            | Some (lexeme, r') => Some (JNumber lexeme, r')
            | None => None
            end end end end
      end
  end
with parse_items (fuel : nat) (s : string) : option (list json * string) :=
  match fuel with
  | O => None
  | S fuel' =>
      match parse_value fuel' s with
      | None => None
      | Some (v, r) =>
          match skip_ws r with
          | String c r' =>
              if Ascii.eqb c "]" then Some ([v], r')
              else if Ascii.eqb c "," then
                match parse_items fuel' r' with
                | Some (vs, r'') => Some (v :: vs, r'')
                | None => None
                end
              else None
          | EmptyString => None
          end
      end
  end
with parse_members (fuel : nat) (s : string)
  : option (list (string * json) * string) :=
  match fuel with
  | O => None
  | S fuel' =>
      match skip_ws s with
      | String q r =>
          if Ascii.eqb q dquote then
            match scan_string r with
            | None => None
            | Some (k, r1) =>
                match skip_ws r1 with
                | EmptyString => None
                | String colon r2 =>
                    if Ascii.eqb colon ":" then
                      match parse_value fuel' r2 with
                      | None => None
                      | Some (v, r3) =>
                          match skip_ws r3 with
                          | String c r4 =>
                              if Ascii.eqb c "}" then Some ([(k, v)], r4)
                              else if Ascii.eqb c "," then
                                match parse_members fuel' r4 with
                                | Some (ms, r5) => Some ((k, v) :: ms, r5)
                                | None => None
                                end
                              else None
                          | EmptyString => None
                          end
                      end
                    else None
                end
            end
          else None
      | EmptyString => None
      end
  end.

(** A whole text as one JSON document, or [None] when it is not one. *)
Definition parse (s : string) : option json :=
  match parse_value (2 * String.length s + 2) s with
  | Some (v, r) =>
      match skip_ws r with
      | EmptyString => Some v
      | String _ _ => None
      end
  | None => None
  end.

(** The last binding of a key: the one a deserializer keeps. *)
Fixpoint lookup (k : string) (members : list (string * json)) : option json :=
  match members with
  | [] => None
  | (k', v) :: rest =>
      match lookup k rest with
      | Some v' => Some v'
      | None => if String.eqb k k' then Some v else None
      end
  end.

End Json.

(** ** JavaScript values as the page handles them *)

Module Js.
Import Text.

(** What the script takes from its host: IEEE numbers, which the page only
    prints, multiplies, rounds and tests for truthiness, and the wording of
    the exceptions the engine raises. *)
Class Engine : Type := {
  number : Type;
  number_of_nat : nat -> number;
  number_nan : number;
  (** [+0], [-0] and [NaN] *)
  number_is_falsy : number -> bool;
  number_is_finite : number -> bool;
  (** Number::toString *)
  number_to_string : number -> string;
  (** StringToNumber *)
  number_of_string : string -> number;
  number_mul : number -> number -> number;
  Math_round : number -> number;
  (** reading property [k] of [undefined] or [null] *)
  message_nullish_read : string -> string -> string;
  (** calling the value of expression [e], which is no function *)
  message_not_a_function : string -> string;
  (** an object with no usable [toString]/[valueOf] *)
  message_not_primitive : string;
  (** [JSON.parse] on a text that is no JSON document *)
  message_invalid_json : string -> string;
  number_of_nat_falsy : forall n, number_is_falsy (number_of_nat n) = (n =? 0)
}.

(** What a [throw], a rejected promise or the engine can raise here: an
    [Error] object (with its class name and message), or the progress event
    [reader.onerror] hands to [reject]. *)
Inductive thrown : Type :=
| JsError (name message : string)
| ReaderEvent.

Inductive completion (A : Type) : Type :=
| Normal (a : A)
| Throw (e : thrown).
Arguments Normal {A} a.
Arguments Throw {A} e.

Definition bindC {A B : Type} (c : completion A) (k : A -> completion B)
  : completion B :=
  match c with
  | Normal a => k a
  | Throw e => Throw e
  end.

Notation "'let*' x ':=' c 'in' k" := (bindC c (fun x => k))
  (at level 10, x name, c at level 100, k at level 200).

Section Values.
Context {E : Engine}.

#[warnings="-register-all"]
Inductive jsval : Type :=
| JUndefined
| JNull
| JBool (b : bool)
| JNum (n : number)
| JStr (s : string)
| JArr (items : list jsval)
| JObj (props : list (string * jsval)).

(** Own property lookup; a parsed object has each key once. *)
Fixpoint own (k : string) (props : list (string * jsval)) : option jsval :=
  match props with
  | [] => None
  | (k', v) :: rest => if String.eqb k k' then Some v else own k rest
  end.

(** [obj[k] = v] on the property list: an existing key keeps its place. *)
Fixpoint define (k : string) (v : jsval) (props : list (string * jsval))
  : list (string * jsval) :=
  match props with
  | [] => [(k, v)]
  | (k', v') :: rest =>
      if String.eqb k k' then (k', v) :: rest else (k', v') :: define k v rest
  end.

(** ToBoolean *)
Definition truthy (v : jsval) : bool :=
  match v with
  | JUndefined | JNull => false
  | JBool b => b
  | JNum n => negb (number_is_falsy n)
  | JStr s => negb (String.eqb s "")
  | JArr _ | JObj _ => true
  end.

Definition TypeError (message : string) : thrown := JsError "TypeError" message.

(** ToString, as a template literal and [new Error(message)] apply it.  An
    array joins its elements with a comma ([undefined] and [null] print as
    nothing).  A parsed object prints through [Object.prototype.toString]
    unless an own [toString] property, which is never a function, hides it:
    then the conversion throws. *)
Fixpoint ToString (v : jsval) : completion string :=
  match v with
  | JUndefined => Normal "undefined"
  | JNull => Normal "null"
  | JBool true => Normal "true"
  | JBool false => Normal "false"
  | JNum n => Normal (number_to_string n)
  | JStr s => Normal s
  | JArr items =>
      (fix join (l : list jsval) : completion string :=
         match l with
         | [] => Normal ""
         | x :: rest =>
             let* s := match x with
                       | JUndefined | JNull => Normal ""
                       | _ => ToString x
                       end in
             match rest with
             | [] => Normal s
             | _ :: _ => let* t := join rest in Normal (s ++ "," ++ t)
             end
         end) items
  | JObj props =>
      match own "toString" props with
      | Some _ => Throw (TypeError message_not_primitive)
      | None => Normal "[object Object]"
      end
  end.

(** [Array.prototype.join] *)
Fixpoint array_join (sep : string) (l : list jsval) : completion string :=
  match l with
  | [] => Normal ""
  | x :: rest =>
      let* s := match x with
                | JUndefined | JNull => Normal ""
                | _ => ToString x
                end in
      match rest with
      | [] => Normal s
      | _ :: _ => let* t := array_join sep rest in Normal (s ++ sep ++ t)
      end
  end.

(** ToNumber, as the operand of [*] undergoes it. *)
Definition ToNumber (v : jsval) : completion number :=
  match v with
  | JUndefined => Normal number_nan
  | JNull => Normal (number_of_nat 0)
  | JBool true => Normal (number_of_nat 1)
  | JBool false => Normal (number_of_nat 0)
  | JNum n => Normal n
  | JStr s => Normal (number_of_string s)
  | JArr _ | JObj _ => let* s := ToString v in Normal (number_of_string s)
  end.

(** [v.k] for the property names the page reads: data properties of parsed
    objects and [length].  (Methods are called through [call_includes],
    [call_join] and [call_map].) *)
Definition get (v : jsval) (k : string) : completion jsval :=
  match v with
  | JUndefined => Throw (TypeError (message_nullish_read "undefined" k))
  | JNull => Throw (TypeError (message_nullish_read "null" k))
  | JBool _ | JNum _ => Normal JUndefined
  | JStr s =>
      if String.eqb k "length" then Normal (JNum (number_of_nat (utf16_length s)))
      else Normal JUndefined
  | JArr items =>
      if String.eqb k "length" then Normal (JNum (number_of_nat (length items)))
      else Normal JUndefined
  | JObj props =>
      match own k props with
      | Some x => Normal x
      | None => Normal JUndefined
      end
  end.

Definition is_string (s : string) (v : jsval) : bool :=
  match v with
  | JStr t => String.eqb s t
  | _ => false
  end.

(** [recv.includes(arg)] where the source text of the callee is [expr]: a
    substring test on a string, a membership test on an array, a TypeError
    on anything else (no parsed value holds a function). *)
Definition call_includes (expr : string) (recv : jsval) (arg : string)
  : completion bool :=
  match recv with
  | JUndefined => Throw (TypeError (message_nullish_read "undefined" "includes"))
  | JNull => Throw (TypeError (message_nullish_read "null" "includes"))
  | JStr s => Normal (includes arg s)
  | JArr items => Normal (existsb (is_string arg) items)
  | JBool _ | JNum _ | JObj _ => Throw (TypeError (message_not_a_function expr))
  end.

(** [recv.join(sep)] *)
Definition call_join (expr : string) (recv : jsval) (sep : string)
  : completion string :=
  match recv with
  | JUndefined => Throw (TypeError (message_nullish_read "undefined" "join"))
  | JNull => Throw (TypeError (message_nullish_read "null" "join"))
  | JArr items => array_join sep items
  | JBool _ | JNum _ | JStr _ | JObj _ =>
      Throw (TypeError (message_not_a_function expr))
  end.

(** [recv.map(f)] for a callback that renders each element to a string. *)
Fixpoint map_completion (f : jsval -> completion string) (l : list jsval)
  : completion (list string) :=
  match l with
  | [] => Normal []
  | x :: rest =>
      let* s := f x in
      let* ss := map_completion f rest in
      Normal (s :: ss)
  end.

Definition call_map (expr : string) (recv : jsval)
  (f : jsval -> completion string) : completion (list string) :=
  match recv with
  | JUndefined => Throw (TypeError (message_nullish_read "undefined" "map"))
  | JNull => Throw (TypeError (message_nullish_read "null" "map"))
  | JArr items => map_completion f items
  | JBool _ | JNum _ | JStr _ | JObj _ =>
      Throw (TypeError (message_not_a_function expr))
  end.

(** [error.message] in the catch clause. *)
Definition message_of (e : thrown) : jsval :=
  match e with
  | JsError _ m => JStr m
  | ReaderEvent => JUndefined
  end.

(** *** Conversions to and from JSON documents *)

(** The value [JSON.parse] builds from a document: a repeated key keeps its
    first place and its last value. *)
Fixpoint of_json (j : Json.json) : jsval :=
  match j with
  | Json.JNull => JNull
  | Json.JBool b => JBool b
  | Json.JNumber lexeme => JNum (number_of_string lexeme)
  | Json.JString s => JStr s
  | Json.JArray items => JArr (map of_json items)
  | Json.JObject members =>
      JObj ((fix build (ms : list (string * Json.json))
                       (acc : list (string * jsval)) : list (string * jsval) :=
               match ms with
               | [] => acc
               | (k, v) :: rest => build rest (define k (of_json v) acc)
               end) members [])
  end.

(** SerializeJSONProperty: [None] is [undefined], which an object member
    drops and an array element prints as [null]. *)
Fixpoint to_json (v : jsval) : option Json.json :=
  match v with
  | JUndefined => None
  | JNull => Some Json.JNull
  | JBool b => Some (Json.JBool b)
  | JNum n =>
      Some (if number_is_finite n then Json.JNumber (number_to_string n)
            else Json.JNull)
  | JStr s => Some (Json.JString s)
  | JArr items =>
      Some (Json.JArray
              (map (fun x => match to_json x with
                             | Some j => j
                             | None => Json.JNull
                             end) items))
  | JObj props =>
      Some (Json.JObject
              ((fix members (ps : list (string * jsval))
                  : list (string * Json.json) :=
                  match ps with
                  | [] => []
                  | (k, x) :: rest =>
                      match to_json x with
                      | Some j => (k, j) :: members rest
                      | None => members rest
                      end
                  end) props))
  end.

Definition JSON_stringify (v : jsval) : option string :=
  option_map Json.print (to_json v).

(** [JSON.parse], and so [response.json()] on the text of a body. *)
Definition JSON_parse (text : string) : completion jsval :=
  match Json.parse text with
  | Some j => Normal (of_json j)
  | None => Throw (JsError "SyntaxError" (message_invalid_json text))
  end.

End Values.
End Js.

(** ** The intake page: [frontend/index.html] and its script *)

Module Page.
Import Text Js.

(** The script exists twice: as [frontend/app.js], loaded by
    [frontend/index.html], and inlined in a page.  The two differ in their
    class names, in the markup they write, and in the button label, which
    only the inlined script hides and shows. *)
Inductive build : Type := AppJs | Inlined.

Definition API_ENDPOINT : string :=
  "https://hkj8c4zag9.execute-api.us-east-1.amazonaws.com/prod/submit".

(** The options of [<select id=insuranceSelect>], in document order: the
    [value] attribute and the label.  The select is a drop-down list without
    [multiple], so one of its options is selected at any time, and
    [insuranceSelect.value] is that option's value. *)
Inductive insurer : Type :=
| aetna | bcbs | cigna | humana | kaiser | united | medicare | medicaid | other.

Definition insurance_options : list (string * string) :=
  [ ("aetna", "Aetna");
    ("bcbs", "Blue Cross Blue Shield");
    ("cigna", "Cigna");
    ("humana", "Humana");
    ("kaiser", "Kaiser Permanente");
    ("united", "United Healthcare");
    ("medicare", "Medicare");
    ("medicaid", "Medicaid");
    ("other", "Other") ].

Definition option_index (i : insurer) : nat :=
  match i with
  | aetna => 0 | bcbs => 1 | cigna => 2 | humana => 3 | kaiser => 4
  | united => 5 | medicare => 6 | medicaid => 7 | other => 8
  end.

Definition option_value (i : insurer) : string :=
  fst (nth (option_index i) insurance_options ("", "")).

(** A [File] the user picked: its name, and what [FileReader.readAsDataURL]
    makes of it, the data URL handed to [onload] or [None] when the reader
    fires [onerror]. *)
Record File : Type := {
  file_name : string;
  file_dataURL : option string
}.

(** What the user controls: the three inputs and the variable
    [selectedFile]. *)
Record form : Type := {
  treatmentTypeInput_value : string;
  insuranceSelect_selected : insurer;
  patientNameInput_value : string;
  selectedFile : option File
}.

(** What the script writes. *)
Record display : Type := {
  submitBtn_disabled : bool;
  btnText_style_display : string;
  loadingSpinner_style_display : string;
  resultDiv_style_display : string;
  resultDiv_className : string;
  resultDiv_innerHTML : string
}.

(** One request as [fetch] receives it. *)
Record request : Type := {
  req_url : string;
  req_method : string;
  req_headers : list (string * string);
  req_body : option string
}.

Inductive fetch_outcome : Type :=
| NetworkFailure (message : string)
| Response (status : nat) (body : string).

(** [response.ok] *)
Definition ok (status : nat) : bool := (200 <=? status) && (status <=? 299).

(** The surroundings of one run of the handler: what the user does to the
    form while the file is being read (the handler reads the inputs again
    after that await), and what the network answers. *)
Record environment : Type := {
  user_edits : form -> form;
  network : request -> fetch_outcome
}.

Section Script.
Context {E : Engine}.

(** Calls worth observing, in the order they happen. *)
Inductive event : Type :=
| Call_showResult (message type : string)
| Call_displayResults (data : jsval)
| Return_displayResults
| Call_readFileAsBase64 (file : File)
| Call_fetch (r : request)
| Call_console_error (e : thrown).

Record world : Type := {
  inputs : form;
  screen : display;
  log : list event
}.

(** Statements: a state transformer that completes normally or abruptly. *)
Definition M (A : Type) : Type := world -> completion A * world.

Definition ret {A : Type} (a : A) : M A := fun w => (Normal a, w).

Definition bind {A B : Type} (m : M A) (k : A -> M B) : M B :=
  fun w =>
    match m w with
    | (Normal a, w') => k a w'
    | (Throw e, w') => (Throw e, w')
    end.

Definition throw {A : Type} (e : thrown) : M A := fun w => (Throw e, w).

Definition lift {A : Type} (c : completion A) : M A := fun w => (c, w).

Definition emit (ev : event) : M unit :=
  fun w => (Normal tt,
            {| inputs := inputs w; screen := screen w;
               log := (log w ++ [ev])%list |}).

Definition read_inputs : M form := fun w => (Normal (inputs w), w).

Definition draw (f : display -> display) : M unit :=
  fun w => (Normal tt,
            {| inputs := inputs w; screen := f (screen w); log := log w |}).

(** [try { body } catch (error) { handler } finally { final }] *)
Definition try_catch_finally {A : Type}
  (body : M A) (handler : thrown -> M A) (final : M unit) : M A :=
  fun w =>
    let (r1, w1) := body w in
    let (r2, w2) := match r1 with
                    | Normal a => (Normal a, w1)
                    | Throw e => handler e w1
                    end in
    match final w2 with
    | (Normal _, w3) => (r2, w3)
    | (Throw e, w3) => (Throw e, w3)
    end.

Notation "x <- m ;; k" := (bind m (fun x => k))
  (at level 61, m at next level, right associativity).
Notation "m ;; k" := (bind m (fun _ => k))
  (at level 61, right associativity).

(** *** Assignments to the elements *)

Definition set_submitBtn_disabled (v : bool) (d : display) : display :=
  {| submitBtn_disabled := v;
     btnText_style_display := btnText_style_display d;
     loadingSpinner_style_display := loadingSpinner_style_display d;
     resultDiv_style_display := resultDiv_style_display d;
     resultDiv_className := resultDiv_className d;
     resultDiv_innerHTML := resultDiv_innerHTML d |}.

Definition set_btnText_style_display (v : string) (d : display) : display :=
  {| submitBtn_disabled := submitBtn_disabled d;
     btnText_style_display := v;
     loadingSpinner_style_display := loadingSpinner_style_display d;
     resultDiv_style_display := resultDiv_style_display d;
     resultDiv_className := resultDiv_className d;
     resultDiv_innerHTML := resultDiv_innerHTML d |}.

Definition set_loadingSpinner_style_display (v : string) (d : display)
  : display :=
  {| submitBtn_disabled := submitBtn_disabled d;
     btnText_style_display := btnText_style_display d;
     loadingSpinner_style_display := v;
     resultDiv_style_display := resultDiv_style_display d;
     resultDiv_className := resultDiv_className d;
     resultDiv_innerHTML := resultDiv_innerHTML d |}.

Definition set_resultDiv_style_display (v : string) (d : display) : display :=
  {| submitBtn_disabled := submitBtn_disabled d;
     btnText_style_display := btnText_style_display d;
     loadingSpinner_style_display := loadingSpinner_style_display d;
     resultDiv_style_display := v;
     resultDiv_className := resultDiv_className d;
     resultDiv_innerHTML := resultDiv_innerHTML d |}.

Definition set_resultDiv_className (v : string) (d : display) : display :=
  {| submitBtn_disabled := submitBtn_disabled d;
     btnText_style_display := btnText_style_display d;
     loadingSpinner_style_display := loadingSpinner_style_display d;
     resultDiv_style_display := resultDiv_style_display d;
     resultDiv_className := v;
     resultDiv_innerHTML := resultDiv_innerHTML d |}.

Definition set_resultDiv_innerHTML (v : string) (d : display) : display :=
  {| submitBtn_disabled := submitBtn_disabled d;
     btnText_style_display := btnText_style_display d;
     loadingSpinner_style_display := loadingSpinner_style_display d;
     resultDiv_style_display := resultDiv_style_display d;
     resultDiv_className := resultDiv_className d;
     resultDiv_innerHTML := v |}.

(** *** Markup *)

(** A line break of a template literal and the indentation that follows. *)
Definition line (indent : nat) (s : string) : string :=
  newline ++ spaces indent ++ s.

(** Column of the statement [resultDiv.innerHTML = ...] in the decision
    branches of [displayResults]; the fallback branch is one level less
    deep. *)
Definition margin (b : build) : nat :=
  match b with
  | AppJs => 12
  | Inlined => 20
  end.

Definition class (b : build) (name : string) : string :=
  match b with
  | AppJs => name
  | Inlined => "result " ++ name
  end.

Definition attr (value : string) : string :=
  String dquote value ++ String dquote "".

(** *** [showResult(message, type)] *)

Definition showResult (b : build) (message type : string) : M unit :=
  emit (Call_showResult message type) ;;
  draw (set_resultDiv_style_display "block") ;;
  draw (set_resultDiv_className
          (if String.eqb type "error" then class b "denied"
           else class b "processing")) ;;
  draw (set_resultDiv_innerHTML
          match b with
          | AppJs => message
          | Inlined =>
              "<h3>" ++ (if String.eqb type "error" then "❌" else "⚠️")
                ++ "</h3><p>" ++ message ++ "</p>"
          end).

(** *** [displayResults(data)] *)

(** [${analysis.X.length ? ... analysis.X.join(', ') ... : ''}] *)
Definition optional_list (analysis : jsval) (field : string)
  (render : string -> string) : completion string :=
  let* xs := get analysis field in
  let* len := get xs "length" in
  if truthy len then
    let* xs' := get analysis field in
    let* joined := call_join ("analysis." ++ field ++ ".join") xs' ", " in
    Normal (render joined)
  else Normal "".

Definition approved_markup (b : build) (data analysis : jsval)
  : completion string :=
  let m := margin b in
  let* confidence := get analysis "confidence_score" in
  let* confidence := ToString confidence in
  let* reason := get analysis "reason" in
  let* reason := ToString reason in
  let* request_id := get data "request_id" in
  let* request_id := ToString request_id in
  let* notes :=
    optional_list analysis "missing_documentation"
      (fun joined =>
         line (m + 4) ("<div class=" ++ attr "notes" ++ ">")
         ++ line (m + 8) ("<p><strong>Note:</strong> " ++ joined ++ "</p>")
         ++ line (m + 4) "</div>"
         ++ line (m + 4) "") in
  Normal
    (line (m + 4)
       ("<h3>✅ " ++ match b with AppJs => "Approved" | Inlined => "APPROVED" end
          ++ " (" ++ confidence ++ "% confidence)</h3>")
     ++ line (m + 4) ("<p><strong>Reason:</strong> " ++ reason ++ "</p>")
     ++ line (m + 4) ("<p><strong>Request ID:</strong> " ++ request_id ++ "</p>")
     ++ line (m + 4) notes
     ++ line m "").

Definition denied_markup (b : build) (data analysis : jsval)
  : completion string :=
  let m := margin b in
  let* confidence := get analysis "confidence_score" in
  let* confidence := ToString confidence in
  let* reason := get analysis "reason" in
  let* reason := ToString reason in
  let* alternatives :=
    optional_list analysis "alternative_treatments"
      (fun joined =>
         line (m + 4) ("<p><strong>Alternatives:</strong> " ++ joined ++ "</p>")
         ++ line (m + 4) "") in
  let* guidance := get analysis "appeal_guidance" in
  let* appeal :=
    if truthy guidance then
      let* guidance' := get analysis "appeal_guidance" in
      let* text := ToString guidance' in
      Normal (line (m + 4)
                ("<p><strong>Appeal Guidance:</strong> " ++ text ++ "</p>")
              ++ line (m + 4) "")
    else Normal "" in
  let* request_id := get data "request_id" in
  let* request_id := ToString request_id in
  Normal
    (line (m + 4)
       ("<h3>❌ " ++ match b with AppJs => "Denied" | Inlined => "DENIED" end
          ++ " (" ++ confidence ++ "% confidence)</h3>")
     ++ line (m + 4) ("<p><strong>Reason:</strong> " ++ reason ++ "</p>")
     ++ line (m + 4) alternatives
     ++ line (m + 4) appeal
     ++ line (m + 4) ("<p><strong>Request ID:</strong> " ++ request_id ++ "</p>")
     ++ line m "").

Definition processing_markup (b : build) (data : jsval) : completion string :=
  let m := margin b - 4 in
  let* probability := get data "approval_probability" in
  let* probability := ToNumber probability in
  let percent :=
    number_to_string (Math_round (number_mul probability (number_of_nat 100))) in
  let* steps := get data "next_steps" in
  let* items :=
    call_map "data.next_steps.map" steps
      (fun step => let* text := ToString step in
                   Normal ("<li>" ++ text ++ "</li>")) in
  Normal
    (line (m + 4)
       ("<h3>⏳ " ++ match b with AppJs => "Processing" | Inlined => "PROCESSING" end
          ++ "</h3>")
     ++ line (m + 4) "<p>Initial analysis complete. AI review pending.</p>"
     ++ line (m + 4)
          ("<p><strong>Approval Probability:</strong> " ++ percent ++ "%</p>")
     ++ line (m + 4) "<p><strong>Next Steps:</strong></p>"
     ++ line (m + 4) ("<ul>" ++ String.concat "" items ++ "</ul>")
     ++ line m "").

(** [data.ai_analysis && data.ai_analysis.decision] *)
Definition has_decision (data : jsval) : completion jsval :=
  let* analysis := get data "ai_analysis" in
  if truthy analysis then
    let* analysis' := get data "ai_analysis" in
    get analysis' "decision"
  else Normal analysis.

Definition displayResults (b : build) (data : jsval) : M unit :=
  emit (Call_displayResults data) ;;
  draw (set_resultDiv_style_display "block") ;;
  decided <- lift (has_decision data) ;;
  (if truthy decided then
     analysis <- lift (get data "ai_analysis") ;;
     decision <- lift (get analysis "decision") ;;
     approved <- lift (call_includes "analysis.decision.includes"
                         decision "APPROVED") ;;
     if approved : bool then
       draw (set_resultDiv_className (class b "approved")) ;;
       markup <- lift (approved_markup b data analysis) ;;
       draw (set_resultDiv_innerHTML markup)
     else
       draw (set_resultDiv_className (class b "denied")) ;;
       markup <- lift (denied_markup b data analysis) ;;
       draw (set_resultDiv_innerHTML markup)
   else
     draw (set_resultDiv_className (class b "processing")) ;;
     markup <- lift (processing_markup b data) ;;
     draw (set_resultDiv_innerHTML markup)) ;;
  emit Return_displayResults.

(** *** [readFileAsBase64(file)] *)

(** [event.target.result.split(',')[1]] *)
Definition after_first_comma (dataURL : string) : jsval :=
  match nth_error (split "," dataURL) 1 with
  | Some piece => JStr piece
  | None => JUndefined
  end.

Definition readFileAsBase64 (file : File) : M jsval :=
  emit (Call_readFileAsBase64 file) ;;
  match file_dataURL file with
  | Some dataURL => ret (after_first_comma dataURL)
  | None => throw ReaderEvent
  end.

(** *** [submitForApproval()] *)

(** [s || undefined] for a string [s] *)
Definition or_undefined (s : string) : jsval :=
  if truthy (JStr s) then JStr s else JUndefined.

Definition payload (base64Data : jsval) (f : form) : jsval :=
  JObj [ ("document", base64Data);
         ("insurance_type", JStr (option_value (insuranceSelect_selected f)));
         ("treatment_type", JStr (treatmentTypeInput_value f));
         ("patient_name", or_undefined (patientNameInput_value f)) ].

Definition loading (b : build) : M unit :=
  draw (set_submitBtn_disabled true) ;;
  match b with
  | AppJs => ret tt
  | Inlined => draw (set_btnText_style_display "none")
  end ;;
  draw (set_loadingSpinner_style_display "block") ;;
  draw (set_resultDiv_style_display "none").

Definition restore (b : build) : M unit :=
  draw (set_submitBtn_disabled false) ;;
  match b with
  | AppJs => ret tt
  | Inlined => draw (set_btnText_style_display "inline")
  end ;;
  draw (set_loadingSpinner_style_display "none").

(** [await m] for the first await of the handler: by the time the promise
    is settled, either way, the user may have edited the form.  (The inputs
    are not read after the later awaits.) *)
Definition await_editable {A : Type} (env : environment) (m : M A) : M A :=
  fun w =>
    let (r, w') := m w in
    (r, {| inputs := user_edits env (inputs w');
           screen := screen w'; log := log w' |}).

(** The arguments of [fetch]. *)
Definition request_for (base64Data : jsval) (f : form) : request :=
  {| req_url := API_ENDPOINT;
     req_method := "POST";
     req_headers := [("Content-Type", "application/json")];
     req_body := JSON_stringify (payload base64Data f) |}.

(** [throw new Error(data.error || 'Failed to process request')]: the
    constructor converts its argument to a string, and evaluating the
    argument can itself throw. *)
Definition rejection (data : jsval) : completion unit :=
  let* error := get data "error" in
  let* message := ToString (if truthy error then error
                            else JStr "Failed to process request") in
  Throw (JsError "Error" message).

(** The body of the [try] block. *)
Definition submit_body (b : build) (env : environment) (file : File) : M unit :=
  base64Data <- await_editable env (readFileAsBase64 file) ;;
  f <- read_inputs ;;
  let r := request_for base64Data f in
  emit (Call_fetch r) ;;
  match network env r with
  | NetworkFailure message => throw (TypeError message)
  | Response status body =>
      data <- lift (JSON_parse body) ;;
      if ok status then displayResults b data
      else lift (rejection data)
  end.

(** The [catch] clause. *)
Definition submit_catch (b : build) (error : thrown) : M unit :=
  emit (Call_console_error error) ;;
  message <- lift (ToString (message_of error)) ;;
  showResult b ("Error: " ++ message) "error".

Definition submitForApproval (b : build) (env : environment) : M unit :=
  f <- read_inputs ;;
  if negb (truthy (JStr (treatmentTypeInput_value f))) then
    showResult b "Please specify the treatment type" "error"
  else
    match selectedFile f with
    | None => showResult b "Please select a medical document" "error"
    | Some file =>
        loading b ;;
        try_catch_finally (submit_body b env file) (submit_catch b) (restore b)
    end.

(** *** The worlds a run goes through *)

Definition add_log (events : list event) (w : world) : world :=
  {| inputs := inputs w; screen := screen w;
     log := (log w ++ events)%list |}.

Definition with_screen (f : display -> display) (w : world) : world :=
  {| inputs := inputs w; screen := f (screen w); log := log w |}.

Definition edited (env : environment) (w : world) : world :=
  {| inputs := user_edits env (inputs w); screen := screen w; log := log w |}.

(** The screen after [loading] and after [restore]. *)
Definition loaded (b : build) (d : display) : display :=
  set_resultDiv_style_display "none"
    (set_loadingSpinner_style_display "block"
       (match b with
        | AppJs => fun d => d
        | Inlined => set_btnText_style_display "none"
        end (set_submitBtn_disabled true d))).

Definition restored (b : build) (d : display) : display :=
  set_loadingSpinner_style_display "none"
    (match b with
     | AppJs => fun d => d
     | Inlined => set_btnText_style_display "inline"
     end (set_submitBtn_disabled false d)).

(** [${error.message}] *)
Definition error_text (e : thrown) : string :=
  match e with
  | JsError _ m => m
  | ReaderEvent => "undefined"
  end.

(** The request made for a file whose data URL is [dataURL], from the form
    as the user left it while the file was read. *)
Definition sent (env : environment) (f : form) (dataURL : string) : request :=
  request_for (after_first_comma dataURL) (user_edits env f).

(** The members of the body of that request. *)
Definition body_members (base64Data : jsval) (f : form)
  : list (string * string) :=
  (match base64Data with
   | JStr document => [("document", document)]
   | _ => []
   end
   ++ [ ("insurance_type", option_value (insuranceSelect_selected f));
        ("treatment_type", treatmentTypeInput_value f) ]
   ++ (if String.eqb (patientNameInput_value f) "" then []
       else [("patient_name", patientNameInput_value f)]))%list.

(** *** What a run shows *)

(** The two ways the handler answers the user: [displayResults] ran to
    its end, or [showResult] was called. *)
Definition is_output (ev : event) : bool :=
  match ev with
  | Return_displayResults | Call_showResult _ _ => true
  | _ => false
  end.

Definition outputs (events : list event) : list event :=
  filter is_output events.

Definition is_displayResults (ev : event) : bool :=
  match ev with
  | Call_displayResults _ => true
  | _ => false
  end.

(** The controls of [d'] are those of [d]: what [displayResults] and
    [showResult] leave alone. *)
Definition same_controls (d d' : display) : Prop :=
  submitBtn_disabled d' = submitBtn_disabled d /\
  btnText_style_display d' = btnText_style_display d /\
  loadingSpinner_style_display d' = loadingSpinner_style_display d.

(** The form passes the two checks at the head of the handler. *)
Definition valid (f : form) (file : File) : Prop :=
  treatmentTypeInput_value f <> "" /\ selectedFile f = Some file.

End Script.
End Page.

(** ** The decision pipeline

    The pipeline itself ([lambda_function.py]) is not part of the sources at
    hand; its two components below follow the specification's description
    of them. *)

Module Pipeline.
Import Text.

(** *** Treatment categorizer *)

Inductive TreatmentCategory : Type :=
| mri
| diabetes_medication
| physical_therapy
| surgery
| oncology
| mental_health
| other.

Definition categories : list TreatmentCategory :=
  [mri; diabetes_medication; physical_therapy; surgery; oncology;
   mental_health; other].

(** Blank characters, as a trim removes them: space, tab, line feed,
    vertical tab, form feed, carriage return. *)
Definition is_blank (c : ascii) : bool :=
  let n := nat_of_ascii c in
  (n =? 32) || ((9 <=? n) && (n <=? 13)).

Fixpoint trim_left (s : string) : string :=
  match s with
  | String c rest => if is_blank c then trim_left rest else s
  | EmptyString => s
  end.

Fixpoint trim_right (s : string) : string :=
  match s with
  | EmptyString => EmptyString
  | String c rest =>
      match trim_right rest with
      | EmptyString => if is_blank c then EmptyString else String c EmptyString
      | kept => String c kept
      end
  end.

Definition trim (s : string) : string := trim_right (trim_left s).

Definition lower_char (c : ascii) : ascii :=
  let n := nat_of_ascii c in
  if (65 <=? n) && (n <=? 90) then ascii_of_nat (n + 32) else c.

Fixpoint lower (s : string) : string :=
  match s with
  | EmptyString => EmptyString
  | String c rest => String (lower_char c) (lower rest)
  end.

Definition normalize (text : string) : string := lower (trim text).

(** Modelled from the spec: the categorizer of section 4.1, which is not in
    the sources.  The ordered list of (category, keyword set) pairs, most
    specific category first, is its parameter [table]; the normalized text
    is scanned for any keyword of each set in that order, the first
    category with a match wins, and [other] is the answer when none
    matches. *)
Fixpoint first_match (table : list (TreatmentCategory * list string))
  (normalized : string) : TreatmentCategory :=
  match table with
  | [] => other
  | (category, keywords) :: rest =>
      if existsb (fun keyword => includes keyword normalized) keywords
      then category
      else first_match rest normalized
  end.

(** Modelled from the spec: [categorize(text)] of section 4.1, which trims
    and case-normalizes its input before matching. *)
Definition categorize (table : list (TreatmentCategory * list string))
  (text : string) : TreatmentCategory :=
  first_match table (normalize text).

(** A keyword is a word: never the empty text. *)
Definition keywords_nonempty (table : list (TreatmentCategory * list string))
  : Prop :=
  forall category keywords keyword,
    In (category, keywords) table -> In keyword keywords ->
    keyword <> EmptyString.

Fixpoint all_blank (s : string) : bool :=
  match s with
  | EmptyString => true
  | String c rest => is_blank c && all_blank rest
  end.

(** *** Decision extractor *)

Inductive Decision : Type := APPROVED | DENIED | PENDING.

(** The part of a DecisionRecord the extractor fills in. *)
Record DecisionRecord : Type := {
  decision : Decision;
  reason : string;
  confidenceScore : Z;
  missingDocumentation : list string;
  alternativeTreatments : list string;
  appealGuidance : string
}.

Definition fallback_reason : string :=
  "automated analysis incomplete, manual review required".

(** Modelled from the spec: the record the Fallback state of section 4.4
    synthesizes. *)
Definition fallback : DecisionRecord := {|
  decision := PENDING;
  reason := fallback_reason;
  confidenceScore := 0;
  missingDocumentation := [];
  alternativeTreatments := [];
  appealGuidance := ""
|}.

(** The text from the head of [s] up to and including the brace that
    closes [depth] open ones. *)
Fixpoint closing (depth : nat) (s : string) : option string :=
  match s with
  | EmptyString => None
  | String c rest =>
      if Ascii.eqb c "{" then option_map (String c) (closing (S depth) rest)
      else if Ascii.eqb c "}" then
        match depth with
        | O => None
        | S O => Some (String c EmptyString)
        | S d => option_map (String c) (closing d rest)
        end
      else option_map (String c) (closing depth rest)
  end.

(** Modelled from the spec: the Locate step of section 4.4, a permissive
    scan for the first span of the reply that opens with a brace and
    closes with the brace balancing it. *)
Fixpoint locate (raw : string) : option string :=
  match raw with
  | EmptyString => None
  | String c rest =>
      if Ascii.eqb c "{" then
        match closing 1 rest with
        | Some span => Some (String c span)
        | None => locate rest
        end
      else locate rest
  end.

Definition decision_of_string (s : string) : option Decision :=
  if String.eqb s "APPROVED" then Some APPROVED
  else if String.eqb s "DENIED" then Some DENIED
  else if String.eqb s "PENDING" then Some PENDING
  else None.

(** The value of an integer literal; a literal with a fraction or an
    exponent is no integer. *)
Definition integer_of_lexeme (lexeme : string) : option Z :=
  let value (ds : string) : option Z :=
    match take_digits ds with
    | (EmptyString, _) => None
    | (digits, EmptyString) =>
        Some ((fix go (acc : Z) (s : string) : Z :=
                 match s with
                 | EmptyString => acc
                 | String c rest =>
                     go (acc * 10 + Z.of_nat (nat_of_ascii c - 48))%Z rest
                 end) 0%Z digits)
    | (_, String _ _) => None
    end in
  match lexeme with
  | String c ds =>
      if Ascii.eqb c "-" then option_map Z.opp (value ds) else value lexeme
  | EmptyString => None
  end.

Definition clamp (z : Z) : Z := Z.max 0 (Z.min 100 z).

Fixpoint strings_of (items : list Json.json) : option (list string) :=
  match items with
  | [] => Some []
  | Json.JString s :: rest => option_map (cons s) (strings_of rest)
  | _ :: _ => None
  end.

(** An array field: the empty sequence when absent, its strings when it is
    an array of strings. *)
Definition sequence_field (k : string) (members : list (string * Json.json))
  : option (list string) :=
  match Json.lookup k members with
  | None => Some []
  | Some (Json.JArray items) => strings_of items
  | Some _ => None
  end.

Definition text_field (k : string) (members : list (string * Json.json))
  : option string :=
  match Json.lookup k members with
  | None => Some ""
  | Some (Json.JString s) => Some s
  | Some _ => None
  end.

(** Modelled from the spec: the Validate step of section 4.4.  [decision]
    must be one of the three values, [reason] a non-empty string,
    [confidence_score] an integer, which is clamped into the range 0 to
    100; the three optional fields default to empty.  [None] is the
    transition to Fallback. *)
Definition validate (j : Json.json) : option DecisionRecord :=
  match j with
  | Json.JObject members =>
      match Json.lookup "decision" members,
            Json.lookup "reason" members,
            Json.lookup "confidence_score" members with
      | Some (Json.JString d), Some (Json.JString r), Some (Json.JNumber n) =>
          match decision_of_string d, integer_of_lexeme n,
                sequence_field "missing_documentation" members,
                sequence_field "alternative_treatments" members,
                text_field "appeal_guidance" members with
          | Some d', Some score, Some missing, Some alternatives, Some appeal =>
              if String.eqb r "" then None
              else Some {| decision := d';
                           reason := r;
                           confidenceScore := clamp score;
                           missingDocumentation := missing;
                           alternativeTreatments := alternatives;
                           appealGuidance := appeal |}
          | _, _, _, _, _ => None
          end
      | _, _, _ => None
      end
  | _ => None
  end.

(** The states of the extractor. *)
Inductive state : Type :=
| Invoke (promptText : string)
| Locate (raw : string)
| Parse (span : string)
| Validate (object : Json.json)
| Accept (record : DecisionRecord)
| Fallback.

Section Extractor.

(** The model-serving collaborator: the raw text of the reply, or [None]
    for a transport failure or a timeout. *)
Variable complete : string -> option string.

(** Modelled from the spec: one transition of the linear state machine of
    section 4.4. *)
Definition step (s : state) : state :=
  match s with
  | Invoke promptText =>
      match complete promptText with
      | Some raw => Locate raw
      | None => Fallback
      end
  | Locate raw =>
      match locate raw with
      | Some span => Parse span
      | None => Fallback
      end
  | Parse span =>
      match Json.parse span with
      | Some object => Validate object
      | None => Fallback
      end
  | Validate object =>
      match validate object with
      | Some record => Accept record
      | None => Fallback
      end
  | Accept record => Accept record
  | Fallback => Fallback
  end.

(** Modelled from the spec: [extract(promptText)] of section 4.4.  Four
    transitions lead from Invoke to one of the two terminal states. *)
Definition extract (promptText : string) : DecisionRecord :=
  match step (step (step (step (Invoke promptText)))) with
  | Accept record => record
  | _ => fallback
  end.

End Extractor.

Definition well_formed (r : DecisionRecord) : Prop :=
  reason r <> "" /\ (0 <= confidenceScore r <= 100)%Z.

(** [span] is a part of [raw]. *)
Definition occurs (span raw : string) : Prop :=
  exists before after, raw = before ++ span ++ after.

(** Modelled from the spec: a reply that contains a JSON object, in the
    words of section 4.4 and of the fallback triggers.  One of its parts
    is the text of one. *)
Definition contains_object (raw : string) : Prop :=
  exists span members,
    occurs span raw /\ Json.parse span = Some (Json.JObject members).

(** Modelled from the spec: the failures of the model path that lead to
    Fallback.  The invocation fails or times out;
    the reply yields no JSON object, that is, no brace-balanced span is
    found in it or the first one is not the text of a JSON object (which
    is so whenever the reply contains no JSON object at all); the object
    has no [decision]; its [decision] is none of the three values. *)
Inductive model_failure (complete : string -> option string)
  (promptText : string) : Prop :=
| invocation_failed :
    complete promptText = None -> model_failure complete promptText
| no_json_object raw :
    complete promptText = Some raw ->
    (forall span members,
       locate raw = Some span ->
       Json.parse span <> Some (Json.JObject members)) ->
    model_failure complete promptText
| decision_missing raw span members :
    complete promptText = Some raw -> locate raw = Some span ->
    Json.parse span = Some (Json.JObject members) ->
    Json.lookup "decision" members = None ->
    model_failure complete promptText
| decision_invalid raw span members value :
    complete promptText = Some raw -> locate raw = Some span ->
    Json.parse span = Some (Json.JObject members) ->
    Json.lookup "decision" members = Some value ->
    value <> Json.JString "APPROVED" ->
    value <> Json.JString "DENIED" ->
    value <> Json.JString "PENDING" ->
    model_failure complete promptText.

End Pipeline.

(** ** A sample engine

    Integers and [NaN] for numbers, and the wording of V8's TypeErrors.  It
    serves to run the script on concrete inputs. *)

Module Sample.
Import Text Js.

Definition digits_value (ds : string) : Z :=
  (fix go (acc : Z) (s : string) : Z :=
     match s with
     | EmptyString => acc
     | String c rest => go (acc * 10 + Z.of_nat (nat_of_ascii c - 48))%Z rest
     end) 0%Z ds.

(** An optionally signed run of digits between blanks is its value, the
    empty text is zero, anything else is [NaN]. *)
Definition integer_of_string (s : string) : option Z :=
  let body (negative : bool) (r : string) :=
    match take_digits r with
    | (EmptyString, _) => None
    | (ds, r') =>
        match skip_ws r' with
        | EmptyString =>
            Some (if negative then (- digits_value ds)%Z else digits_value ds)
        | String _ _ => None
        end
    end in
  match skip_ws s with
  | EmptyString => Some 0%Z
  | String c r =>
      if Ascii.eqb c "-" then body true r
      else if Ascii.eqb c "+" then body false r
      else body false (String c r)
  end.

Definition integer_to_string (n : option Z) : string :=
  match n with
  | Some z => NilZero.string_of_int (Z.to_int z)
  | None => "NaN"
  end.

Definition integer_is_falsy (n : option Z) : bool :=
  match n with
  | Some z => (z =? 0)%Z
  | None => true
  end.

Definition engine : Engine := {|
  number := option Z;
  number_of_nat := fun n => Some (Z.of_nat n);
  number_nan := None;
  number_is_falsy := integer_is_falsy;
  number_is_finite := fun n => match n with Some _ => true | None => false end;
  number_to_string := integer_to_string;
  number_of_string := integer_of_string;
  number_mul := fun x y =>
    match x, y with
    | Some a, Some b => Some (a * b)%Z
    | _, _ => None
    end;
  Math_round := fun x => x;
  message_nullish_read := fun base k =>
    "Cannot read properties of " ++ base ++ " (reading '" ++ k ++ "')";
  message_not_a_function := fun e => e ++ " is not a function";
  message_not_primitive := "Cannot convert object to primitive value";
  message_invalid_json := fun _ => "Unexpected token in JSON";
  number_of_nat_falsy := fun n =>
    match n with
    | O => eq_refl
    | S _ => eq_refl
    end
|}.

(** *** Sample data *)

Import Pipeline.

Definition sample_table : list (TreatmentCategory * list string) :=
  [ (oncology, ["chemotherapy"; "tumor"]);
    (mri, ["mri"; "magnetic resonance"]);
    (physical_therapy, ["physical therapy"]) ].

(** Blanks only, with a tab and a line feed among them. *)
Definition blank_text : string :=
  String " " (String "009" (String "010" (String " " EmptyString))).

Definition member (k : string) (v : string) : string :=
  Json.quote k ++ ":" ++ v.

(** A reply whose decision is no value of the enumeration. *)
Definition reply_maybe : string :=
  "{" ++ member "decision" (Json.quote "MAYBE") ++ ","
      ++ member "reason" (Json.quote "unclear") ++ ","
      ++ member "confidence_score" "50" ++ "}".

Definition reply_without_decision : string :=
  "Result: {" ++ member "reason" (Json.quote "ok") ++ ","
              ++ member "confidence_score" "91" ++ "}".

Definition reply_approved : string :=
  "{" ++ member "decision" (Json.quote "APPROVED") ++ ","
      ++ member "reason" (Json.quote "ok") ++ ","
      ++ member "confidence_score" "91" ++ ","
      ++ member "missing_documentation" "[]" ++ ","
      ++ member "alternative_treatments" "[]" ++ ","
      ++ member "appeal_guidance" (Json.quote "") ++ "}".

Definition reply_overconfident : string :=
  "{" ++ member "decision" (Json.quote "DENIED") ++ ","
      ++ member "reason" (Json.quote "not covered") ++ ","
      ++ member "confidence_score" "150" ++ "}".

#[local] Existing Instance engine.

Definition sample_dataURL : string :=
  "data:application/pdf;base64,JVBERi0xLjQ=".

Definition sample_file : Page.File :=
  {| Page.file_name := "referral.pdf";
     Page.file_dataURL := Some sample_dataURL |}.

(** A response whose analysis is the conservative fallback. *)
Definition pending_analysis : list (string * Js.jsval) :=
  [("decision", Js.JStr "PENDING"); ("reason", Js.JStr "manual review")].

Definition pending_data : Js.jsval :=
  Js.JObj [("request_id", Js.JStr "req_123");
           ("ai_analysis", Js.JObj pending_analysis)].

Definition sample_form : Page.form :=
  {| Page.treatmentTypeInput_value := "MRI Knee";
     Page.insuranceSelect_selected := Page.bcbs;
     Page.patientNameInput_value := "";
     Page.selectedFile := Some sample_file |}.

Definition blank_display : Page.display :=
  {| Page.submitBtn_disabled := false;
     Page.btnText_style_display := "";
     Page.loadingSpinner_style_display := "";
     Page.resultDiv_style_display := "";
     Page.resultDiv_className := "result";
     Page.resultDiv_innerHTML := "" |}.

Definition sample_world : Page.world :=
  {| Page.inputs := sample_form; Page.screen := blank_display;
     Page.log := [] |}.

(** The same page with the name of the patient filled in. *)
Definition named_world : Page.world :=
  {| Page.inputs :=
       {| Page.treatmentTypeInput_value := "MRI Knee";
          Page.insuranceSelect_selected := Page.bcbs;
          Page.patientNameInput_value := "Jane Doe";
          Page.selectedFile := Some sample_file |};
     Page.screen := blank_display;
     Page.log := [] |}.

(** The same page before a treatment is typed in. *)
Definition untouched_world : Page.world :=
  {| Page.inputs :=
       {| Page.treatmentTypeInput_value := "";
          Page.insuranceSelect_selected := Page.aetna;
          Page.patientNameInput_value := "";
          Page.selectedFile := Some sample_file |};
     Page.screen := blank_display;
     Page.log := [] |}.

(** A user who leaves the form alone, and a network that answers every
    request with the given status and body. *)
Definition answering (status : nat) (body : string) : Page.environment :=
  {| Page.user_edits := fun f => f;
     Page.network := fun _ => Page.Response status body |}.

(** The error page of a gateway. *)
Definition bad_gateway : string :=
  "<html><body><h1>502 Bad Gateway</h1></body></html>".

(** An approval as the pipeline reports it. *)
Definition approval : string :=
  "{" ++ member "request_id" (Json.quote "req_123") ++ ","
      ++ member "ai_analysis"
           ("{" ++ member "decision" (Json.quote "APPROVED") ++ ","
                ++ member "reason" (Json.quote "ok") ++ ","
                ++ member "confidence_score" "91" ++ ","
                ++ member "missing_documentation" "[]" ++ "}")
      ++ "}".

(** A refusal of the request by the service. *)
Definition refusal : string :=
  "{" ++ member "error" (Json.quote "Missing document") ++ "}".

End Sample.

(** ** What a run is asked about *)

Module Outcome.
Import Text Js Page.

Section Observations.
Context {E : Engine}.

Definition is_fetch (ev : event) : bool :=
  match ev with
  | Call_fetch _ => true
  | _ => false
  end.

(** Values a template literal prints without calling into them. *)
Definition primitive (v : jsval) : bool :=
  match v with
  | JArr _ | JObj _ => false
  | _ => true
  end.

Definition is_text (v : jsval) : bool :=
  match v with
  | JStr _ => true
  | _ => false
  end.

(** Arrays of strings. *)
Definition texts (v : jsval) : bool :=
  match v with
  | JArr items => forallb is_text items
  | _ => false
  end.

(** The list the branch of [displayResults] for a textual decision joins. *)
Definition list_field (decision : string) : string :=
  if includes "APPROVED" decision then "missing_documentation"
  else "alternative_treatments".

(** Two completions end alike: both normally, or both with the same
    exception. *)
Definition alike {A B : Type} (x : completion A) (y : completion B) : Prop :=
  match x, y with
  | Normal _, Normal _ => True
  | Throw e, Throw e' => e = e'
  | _, _ => False
  end.

(** The classes [displayResults] and [showResult] choose from. *)
Definition result_classes (b : build) : list string :=
  [class b "approved"; class b "denied"; class b "processing"].

End Observations.
End Outcome.

(** ** The file picker

    The part of the script around the drop zone and the file input:
    [preventDefaults], [highlightDropZone], [handleFileSelect],
    [updateDropZoneUI], the listener of [drop], and the registrations that
    tie them and [submitForApproval] to the page. *)

Module Picker.
Import Text Js Page.

(** The elements the script registers listeners on. *)
Inductive element : Type := FileInput | DropZone | SubmitBtn.

(** An event as the listeners see it: its [type], the files of its
    [dataTransfer], and the two flags [preventDefault] and
    [stopPropagation] act on. *)
Record Event : Type := {
  type : string;
  cancelable : bool;
  dataTransfer_files : list File;
  defaultPrevented : bool;
  propagationStopped : bool
}.

(** The functions the script registers, by name where they have one. *)
Inductive listener : Type :=
  | HandleFileSelect
  | ClickFileInput
  | SubmitForApproval
  | PreventDefaults
  | HighlightDropZone
  | HandleDrop.

Definition element_eqb (x y : element) : bool :=
  match x, y with
  | FileInput, FileInput | DropZone, DropZone | SubmitBtn, SubmitBtn => true
  | _, _ => false
  end.

(** The calls of [addEventListener], in the order the script makes them. *)
Definition registrations : list (element * string * listener) :=
  ([(FileInput, "change", HandleFileSelect);
    (DropZone, "click", ClickFileInput);
    (SubmitBtn, "click", SubmitForApproval)]
   ++ flat_map (fun eventName =>
                  [(DropZone, eventName, PreventDefaults);
                   (DropZone, eventName, HighlightDropZone)])
        ["dragenter"; "dragover"; "dragleave"; "drop"]
   ++ [(DropZone, "drop", HandleDrop)])%list.

(** The listeners an event of the given type reaches on its target, in
    the order of their registration. *)
Definition listeners (target : element) (type : string) : list listener :=
  map snd
    (filter (fun r => element_eqb (fst (fst r)) target
                      && String.eqb (snd (fst r)) type)
       registrations).

(** [function preventDefaults(e)] *)
Definition preventDefaults (e : Event) : Event :=
  {| type := type e;
     cancelable := cancelable e;
     dataTransfer_files := dataTransfer_files e;
     defaultPrevented := defaultPrevented e || cancelable e;
     propagationStopped := true |}.

(** [`<p>Selected: ${selectedFile.name}</p>`] and its counterpart of the
    inlined script. *)
Definition selected_markup (b : build) (name : string) : string :=
  match b with
  | AppJs => "<p>Selected: " ++ name ++ "</p>"
  | Inlined =>
      line 20 ("<span style="
               ++ attr "font-size: 32px; margin-bottom: 12px; display: block;"
               ++ ">✅</span>")
      ++ line 20 ("<p style=" ++ attr "color: #4facfe; font-weight: 600;"
                  ++ ">Selected: " ++ name ++ "</p>")
      ++ line 16 ""
  end.

Definition prompt_markup (b : build) : string :=
  match b with
  | AppJs => "<p>Drag & drop medical documents here or click to browse</p>"
  | Inlined =>
      line 20 ("<span style="
               ++ attr "font-size: 48px; margin-bottom: 16px; display: block;"
               ++ ">📄</span>")
      ++ line 20 "<p>Drag & drop medical documents here or click to browse</p>"
      ++ line 16 ""
  end.

Section Handlers.
Context {E : Engine}.

(** The page: what [submitForApproval] works on, the files of the file
    input, the calls of [fileInput.click()], and what the script last
    assigned to the drop zone. *)
Record page : Type := {
  site : world;
  fileInput_files : list File;
  fileInput_click_calls : nat;
  dropZone_innerHTML : string;
  dropZone_style_borderColor : string;
  dropZone_style_backgroundColor : string;
  dropZone_style_background : string
}.

Definition set_site (w : world) (p : page) : page :=
  {| site := w;
     fileInput_files := fileInput_files p;
     fileInput_click_calls := fileInput_click_calls p;
     dropZone_innerHTML := dropZone_innerHTML p;
     dropZone_style_borderColor := dropZone_style_borderColor p;
     dropZone_style_backgroundColor := dropZone_style_backgroundColor p;
     dropZone_style_background := dropZone_style_background p |}.

(** [selectedFile = file] *)
Definition set_selectedFile (file : option File) (p : page) : page :=
  set_site
    {| inputs :=
         {| treatmentTypeInput_value :=
              treatmentTypeInput_value (inputs (site p));
            insuranceSelect_selected :=
              insuranceSelect_selected (inputs (site p));
            patientNameInput_value := patientNameInput_value (inputs (site p));
            selectedFile := file |};
       screen := screen (site p);
       log := log (site p) |} p.

Definition set_fileInput_files (files : list File) (p : page) : page :=
  {| site := site p;
     fileInput_files := files;
     fileInput_click_calls := fileInput_click_calls p;
     dropZone_innerHTML := dropZone_innerHTML p;
     dropZone_style_borderColor := dropZone_style_borderColor p;
     dropZone_style_backgroundColor := dropZone_style_backgroundColor p;
     dropZone_style_background := dropZone_style_background p |}.

Definition set_dropZone_innerHTML (v : string) (p : page) : page :=
  {| site := site p;
     fileInput_files := fileInput_files p;
     fileInput_click_calls := fileInput_click_calls p;
     dropZone_innerHTML := v;
     dropZone_style_borderColor := dropZone_style_borderColor p;
     dropZone_style_backgroundColor := dropZone_style_backgroundColor p;
     dropZone_style_background := dropZone_style_background p |}.

(** The two assignments of a branch of [highlightDropZone]: the second goes
    to [style.backgroundColor] in [app.js] and to [style.background] in the
    inlined script. *)
Definition set_dropZone_style (b : build) (borderColor fill : string)
  (p : page) : page :=
  {| site := site p;
     fileInput_files := fileInput_files p;
     fileInput_click_calls := fileInput_click_calls p;
     dropZone_innerHTML := dropZone_innerHTML p;
     dropZone_style_borderColor := borderColor;
     dropZone_style_backgroundColor :=
       match b with
       | AppJs => fill
       | Inlined => dropZone_style_backgroundColor p
       end;
     dropZone_style_background :=
       match b with
       | AppJs => dropZone_style_background p
       | Inlined => fill
       end |}.

(** [() => fileInput.click()] *)
Definition click_fileInput (p : page) : page :=
  {| site := site p;
     fileInput_files := fileInput_files p;
     fileInput_click_calls := S (fileInput_click_calls p);
     dropZone_innerHTML := dropZone_innerHTML p;
     dropZone_style_borderColor := dropZone_style_borderColor p;
     dropZone_style_backgroundColor := dropZone_style_backgroundColor p;
     dropZone_style_background := dropZone_style_background p |}.

(** The colours of the drop zone while something is dragged over it, and
    otherwise. *)
Definition highlighted (b : build) : string * string :=
  match b with
  | AppJs => ("#007bff", "#f0f8ff")
  | Inlined => ("#4facfe", "linear-gradient(135deg, #ebf8ff 0%, #bee3f8 100%)")
  end.

Definition resting (b : build) : string * string :=
  match b with
  | AppJs => ("#ccc", "")
  | Inlined => ("#cbd5e0", "linear-gradient(135deg, #f7fafc 0%, #edf2f7 100%)")
  end.

(** [function highlightDropZone(e)] *)
Definition highlightDropZone (b : build) (e : Event) (p : page) : page :=
  if String.eqb (type e) "dragenter" || String.eqb (type e) "dragover" then
    set_dropZone_style b (fst (highlighted b)) (snd (highlighted b)) p
  else
    set_dropZone_style b (fst (resting b)) (snd (resting b)) p.

(** [function updateDropZoneUI()] *)
Definition updateDropZoneUI (b : build) (p : page) : page :=
  match selectedFile (inputs (site p)) with
  | Some file => set_dropZone_innerHTML (selected_markup b (file_name file)) p
  | None => set_dropZone_innerHTML (prompt_markup b) p
  end.

(** [function handleFileSelect(e)]: the listener is registered on the file
    input only, which is then [e.target]. *)
Definition handleFileSelect (b : build) (p : page) : page :=
  updateDropZoneUI b (set_selectedFile (nth_error (fileInput_files p) 0) p).

(** The listener of [drop] that takes the files over. *)
Definition handle_drop (b : build) (e : Event) (p : page) : page :=
  let dt_files := dataTransfer_files e in
  if 0 <? length dt_files then
    updateDropZoneUI b
      (set_fileInput_files dt_files
         (set_selectedFile (nth_error dt_files 0) p))
  else p.

(** One listener called with the event.  [submitForApproval] runs to the
    end of its [finally] block; what the user and the network do in the
    meantime is the environment's. *)
Definition call (b : build) (env : environment) (l : listener)
  (s : Event * page) : Event * page :=
  let (e, p) := s in
  match l with
  | HandleFileSelect => (e, handleFileSelect b p)
  | ClickFileInput => (e, click_fileInput p)
  | SubmitForApproval =>
      (e, set_site (snd (submitForApproval b env (site p))) p)
  | PreventDefaults => (preventDefaults e, p)
  | HighlightDropZone => (e, highlightDropZone b e p)
  | HandleDrop => (e, handle_drop b e p)
  end.

(** An event on one of the three elements: every listener registered for
    its type is called, [stopPropagation] notwithstanding. *)
Definition dispatch (b : build) (env : environment) (target : element)
  (e : Event) (p : page) : Event * page :=
  fold_left (fun s l => call b env l s) (listeners target (type e)) (e, p).

(** What happens to the page: the file dialog closes with a choice of
    files, which the browser stores in the file input before it fires
    [change]; or an event arrives at one of the elements. *)
Inductive action : Type :=
  | Choose (files : list File)
  | Fire (target : element) (e : Event).

Definition change : Event :=
  {| type := "change"; cancelable := false; dataTransfer_files := [];
     defaultPrevented := false; propagationStopped := false |}.

Definition act (b : build) (env : environment) (p : page) (a : action)
  : page :=
  match a with
  | Choose files =>
      snd (dispatch b env FileInput change (set_fileInput_files files p))
  | Fire target e => snd (dispatch b env target e p)
  end.

Definition run (b : build) (env : environment) (actions : list action)
  (p : page) : page :=
  fold_left (act b env) actions p.

(** The variable [selectedFile] is the first file of the file input. *)
Definition in_sync (p : page) : Prop :=
  selectedFile (inputs (site p)) = nth_error (fileInput_files p) 0.

(** While a submission is pending the user leaves the choice of file
    alone. *)
Definition keeps_file (env : environment) : Prop :=
  forall f, selectedFile (user_edits env f) = selectedFile f.

(** The listeners that write neither the selection nor the label. *)
Definition quiet (l : listener) : bool :=
  match l with
  | ClickFileInput | PreventDefaults | HighlightDropZone => true
  | _ => false
  end.

(** What the drop zone shows, given what it showed when the script
    started. *)
Definition labelled (b : build) (original : string) (p : page) : Prop :=
  match selectedFile (inputs (site p)) with
  | Some file => dropZone_innerHTML p = selected_markup b (file_name file)
  | None =>
      dropZone_innerHTML p = original \/ dropZone_innerHTML p = prompt_markup b
  end.

End Handlers.
End Picker.

(** ** Further sample data *)

Module Scenario.
Import Text Js Page Picker.
#[local] Existing Instance Sample.engine.

Definition form_without_file : form :=
  {| treatmentTypeInput_value := "MRI Knee";
     insuranceSelect_selected := bcbs;
     patientNameInput_value := "";
     selectedFile := None |}.

Definition world_of (f : form) : world :=
  {| inputs := f; screen := Sample.blank_display; log := [] |}.

Definition with_file (file : File) : world :=
  world_of
    {| treatmentTypeInput_value := "MRI Knee";
       insuranceSelect_selected := bcbs;
       patientNameInput_value := "";
       selectedFile := Some file |}.

(** A file the reader fails on. *)
Definition unreadable_file : File :=
  {| file_name := "scan.tiff"; file_dataURL := None |}.

(** A file of no bytes, whose data URL has no comma. *)
Definition empty_file : File :=
  {| file_name := "empty.pdf"; file_dataURL := Some "data:" |}.

Definition offline : environment :=
  {| user_edits := fun f => f;
     network := fun _ => NetworkFailure "Failed to fetch" |}.

(** A refusal whose text is markup. *)
Definition scripted : string := "<img src=x onerror=alert(1)>".

Definition scripted_refusal : string :=
  "{" ++ Sample.member "error" (Json.quote scripted) ++ "}".

(** An approval without the list of missing documentation. *)
Definition bare_analysis : list (string * jsval) :=
  [("decision", JStr "APPROVED")].

Definition bare_data : jsval := JObj [("ai_analysis", JObj bare_analysis)].

Definition bare_approval : string :=
  "{" ++ Sample.member "ai_analysis"
           ("{" ++ Sample.member "decision" (Json.quote "APPROVED") ++ "}")
      ++ "}".

(** Decisions outside the enumeration. *)
Definition disapproved : jsval :=
  JObj [("ai_analysis", JObj [("decision", JStr "DISAPPROVED")])].

Definition flagged : jsval :=
  JObj [("ai_analysis", JObj [("decision", JBool true)])].

(** A response with neither analysis nor next steps. *)
Definition receipt : jsval := JObj [("request_id", JStr "req_123")].

(** A denial as the pipeline reports it. *)
Definition denial_analysis : list (string * jsval) :=
  [("decision", JStr "DENIED");
   ("reason", JStr "not medically necessary");
   ("confidence_score", JNum (Some 85%Z));
   ("alternative_treatments", JArr [JStr "physical therapy"; JStr "ultrasound"])].

Definition denial : list (string * jsval) :=
  [("request_id", JStr "req_123"); ("ai_analysis", JObj denial_analysis)].

(** The page as [index.html] and the script leave it. *)
Definition fresh_page : page :=
  {| site := world_of form_without_file;
     fileInput_files := [];
     fileInput_click_calls := 0;
     dropZone_innerHTML :=
       line 20 "<p>Drag & drop medical documents here or click to browse</p>"
       ++ line 16 "";
     dropZone_style_borderColor := "";
     dropZone_style_backgroundColor := "";
     dropZone_style_background := "" |}.

(** The same page with a file chosen earlier. *)
Definition used_page : page :=
  {| site := with_file Sample.sample_file;
     fileInput_files := [Sample.sample_file];
     fileInput_click_calls := 1;
     dropZone_innerHTML := selected_markup AppJs "referral.pdf";
     dropZone_style_borderColor := "";
     dropZone_style_backgroundColor := "";
     dropZone_style_background := "" |}.

Definition drag (type : string) (files : list File) : Event :=
  {| type := type; cancelable := true; dataTransfer_files := files;
     defaultPrevented := false; propagationStopped := false |}.

Definition click : Event := drag "click" [].

(** Dragging a file over the zone, dropping it, opening the dialog and
    closing it empty, and submitting. *)
Definition session : list action :=
  [Fire DropZone (drag "dragenter" []);
   Fire DropZone (drag "dragover" []);
   Fire DropZone (drag "drop" [Sample.sample_file; empty_file]);
   Fire DropZone click;
   Choose [];
   Fire SubmitBtn click].

End Scenario.

(* ================================================================== *)
(** * Part II. Properties                                              *)
(* ================================================================== *)

(** ** The treatment categorizer *)

Section Categorizer.
Import Text Pipeline Sample.

Lemma trim_left_all_blank (s : string) :
  all_blank s = true -> trim_left s = EmptyString.
Proof.
  induction s as [|c rest IH]; simpl; [reflexivity|].
  intros H. apply andb_true_iff in H as [Hc Hrest].
  rewrite Hc. now apply IH.
Qed.

Lemma normalize_all_blank (s : string) :
  all_blank s = true -> normalize s = EmptyString.
Proof.
  intros H. unfold normalize, trim.
  now rewrite (trim_left_all_blank s H).
Qed.

Lemma includes_in_empty (keyword : string) :
  keyword <> EmptyString -> includes keyword EmptyString = false.
Proof.
  destruct keyword as [|c k]; [congruence|reflexivity].
Qed.

Lemma first_match_empty (table : list (TreatmentCategory * list string)) :
  keywords_nonempty table -> first_match table EmptyString = other.
Proof.
  induction table as [|[category keywords] rest IH]; intros Hne;
    cbn [first_match].
  - reflexivity.
  - assert (Hnone :
      existsb (fun keyword => includes keyword EmptyString) keywords = false).
    { apply not_true_is_false. intros Hex.
      apply existsb_exists in Hex as (keyword & Hin & Hinc).
      rewrite includes_in_empty in Hinc; [discriminate|].
      apply (Hne category keywords keyword); [now left|exact Hin]. }
    rewrite Hnone. apply IH.
    intros c ks k Hin. apply (Hne c ks k). now right.
Qed.

(** What [first_match] answers is [other], or the category of an entry of
    the table one of whose keywords occurs in the text. *)
Lemma first_match_sound (table : list (TreatmentCategory * list string))
  (normalized : string) :
  first_match table normalized = other \/
  exists keywords keyword,
    In (first_match table normalized, keywords) table /\
    In keyword keywords /\ includes keyword normalized = true.
Proof.
  induction table as [|[category keywords] rest IH]; cbn [first_match].
  - now left.
  - destruct (existsb _ keywords) eqn:Hex.
    + apply existsb_exists in Hex as (keyword & Hin & Hinc).
      right. exists keywords, keyword.
      split; [now left | split; assumption].
    + destruct IH as [IH | (ks & k & Hin & Hk & Hinc)]; [now left|].
      right. exists ks, k.
      split; [now right | split; assumption].
Qed.

(** C6.  [categorize] is a total function into the closed enumeration of
    categories: for every input text it answers one category, which is
    [other] or the category of a table entry with a keyword occurring in
    the normalized text; and for the empty text and for every text made of
    blanks only the answer is [other].  (The keyword table is the
    parameter of the model; its keywords are not empty.) *)
Theorem categorize_total (table : list (TreatmentCategory * list string))
  (text : string) :
  keywords_nonempty table ->
  In (categorize table text) categories /\
  (categorize table text = other \/
   exists keywords keyword,
     In (categorize table text, keywords) table /\
     In keyword keywords /\ includes keyword (normalize text) = true) /\
  (all_blank text = true -> categorize table text = other).
Proof.
  intros Hne. split; [|split].
  - unfold categories. destruct (categorize table text); simpl; tauto.
  - apply first_match_sound.
  - intros Hblank. unfold categorize.
    rewrite (normalize_all_blank text Hblank).
    now apply first_match_empty.
Qed.

Lemma sample_table_nonempty : keywords_nonempty sample_table.
Proof.
  intros category keywords keyword Hin Hk.
  unfold sample_table in Hin. simpl in Hin.
  repeat match goal with
         | H : _ \/ _ |- _ => destruct H
         | H : (_, _) = (_, _) |- _ => injection H as <- <-
         | H : In _ (_ :: _) |- _ => simpl in H
         | H : In _ [] |- _ => destruct H
         | H : False |- _ => destruct H
         | H : _ = keyword |- _ => subst keyword; discriminate
         end.
Qed.

Lemma categorize_total_witness :
  keywords_nonempty sample_table /\
  all_blank blank_text = true /\
  In (categorize sample_table blank_text) categories /\
  categorize sample_table blank_text = other.
Proof.
  split; [exact sample_table_nonempty|].
  split; [reflexivity|].
  destruct (categorize_total sample_table blank_text sample_table_nonempty)
    as (Hin & _ & Hother).
  split; [exact Hin | exact (Hother eq_refl)].
Defined.

Example categorize_mri :
  categorize sample_table "  MRI of the right knee " = mri.
Proof. reflexivity. Qed.

Example categorize_priority :
  categorize sample_table "MRI to stage a tumor" = oncology.
Proof. reflexivity. Qed.

End Categorizer.

(** ** The decision extractor *)

Section ExtractorFacts.
Import Text Pipeline.

Variable complete : string -> option string.

(** The four transitions, unfolded. *)
Lemma extract_unfold (promptText : string) :
  extract complete promptText =
  match complete promptText with
  | None => fallback
  | Some raw =>
      match locate raw with
      | None => fallback
      | Some span =>
          match Json.parse span with
          | None => fallback
          | Some object =>
              match validate object with
              | Some record => record
              | None => fallback
              end
          end
      end
  end.
Proof.
  unfold extract. cbn [step].
  destruct (complete promptText) as [raw|]; cbn [step]; [|reflexivity].
  destruct (locate raw) as [span|]; cbn [step]; [|reflexivity].
  destruct (Json.parse span) as [object|]; cbn [step]; [|reflexivity].
  destruct (validate object); reflexivity.
Qed.

Lemma clamp_range (z : Z) : (0 <= clamp z <= 100)%Z.
Proof. unfold clamp. lia. Qed.

Lemma fallback_well_formed : well_formed fallback.
Proof.
  split; [discriminate | cbn; lia].
Qed.

Lemma validate_well_formed (j : Json.json) (r : DecisionRecord) :
  validate j = Some r -> well_formed r.
Proof.
  unfold validate. intros H.
  repeat match type of H with
         | match ?x with _ => _ end = _ => destruct x eqn:?; try discriminate
         | (if ?x then _ else _) = _ => destruct x eqn:?; try discriminate
         end.
  injection H as Hr. subst r. split; cbn.
  - intros Hs. subst. discriminate.
  - apply clamp_range.
Qed.

Lemma validate_without_decision (members : list (string * Json.json)) :
  Json.lookup "decision" members = None ->
  validate (Json.JObject members) = None.
Proof.
  intros H. unfold validate. now rewrite H.
Qed.

Lemma decision_of_string_none (s : string) :
  s <> "APPROVED" -> s <> "DENIED" -> s <> "PENDING" ->
  decision_of_string s = None.
Proof.
  intros Ha Hd Hp. unfold decision_of_string.
  apply String.eqb_neq in Ha, Hd, Hp. now rewrite Ha, Hd, Hp.
Qed.

Lemma validate_invalid_decision (members : list (string * Json.json))
  (value : Json.json) :
  Json.lookup "decision" members = Some value ->
  value <> Json.JString "APPROVED" ->
  value <> Json.JString "DENIED" ->
  value <> Json.JString "PENDING" ->
  validate (Json.JObject members) = None.
Proof.
  intros H Ha Hd Hp. unfold validate. rewrite H.
  destruct value as [| | |d| |]; try reflexivity.
  rewrite decision_of_string_none by congruence.
  destruct (Json.lookup "reason" members) as [[]|]; try reflexivity.
  destruct (Json.lookup "confidence_score" members) as [[]|]; reflexivity.
Qed.

(** A reply without an opening brace holds no object. *)
Lemma locate_without_brace (raw : string) :
  includes "{" raw = false -> locate raw = None.
Proof.
  induction raw as [|c rest IH]; [reflexivity|].
  cbn [includes locate]. intros H.
  apply orb_false_iff in H as [Hhead Hrest].
  destruct (Ascii.eqb c "{") eqn:Hc.
  - apply Ascii.eqb_eq in Hc. subst c. discriminate.
  - now apply IH.
Qed.

(** What [closing] returns is the head of the text it scanned. *)
Lemma closing_head (depth : nat) (s span : string) :
  closing depth s = Some span -> exists after, s = span ++ after.
Proof.
  revert depth span.
  induction s as [|c rest IH]; intros depth span H; [discriminate|].
  cbn [closing] in H.
  assert (Hmap : forall d,
            option_map (String c) (closing d rest) = Some span ->
            exists after, String c rest = span ++ after).
  { intros d Hd. destruct (closing d rest) as [inner|] eqn:Hinner;
      [|discriminate].
    injection Hd as <-. destruct (IH d inner Hinner) as (after & ->).
    now exists after. }
  destruct (Ascii.eqb c "{"); [exact (Hmap _ H)|].
  destruct (Ascii.eqb c "}"); [|exact (Hmap _ H)].
  destruct depth as [|[|d]]; [discriminate| |exact (Hmap _ H)].
  injection H as <-. now exists rest.
Qed.

(** The span Locate finds is a part of the reply. *)
Lemma locate_occurs (raw span : string) :
  locate raw = Some span -> occurs span raw.
Proof.
  revert span. induction raw as [|c rest IH]; intros span H; [discriminate|].
  cbn [locate] in H.
  assert (Hrest : locate rest = Some span -> occurs span (String c rest)).
  { intros Hl. destruct (IH span Hl) as (before & after & ->).
    now exists (String c before), after. }
  destruct (Ascii.eqb c "{"); [|exact (Hrest H)].
  destruct (closing 1 rest) as [inner|] eqn:Hinner; [|exact (Hrest H)].
  injection H as <-. destruct (closing_head 1 rest inner Hinner) as (after & ->).
  now exists "", after.
Qed.

Lemma starts_with_append (p s t : string) :
  starts_with p s = true -> starts_with p (s ++ t) = true.
Proof.
  revert s. induction p as [|a p IH]; intros s H; [reflexivity|].
  destruct s as [|b s]; [discriminate|].
  cbn [starts_with append] in *.
  apply andb_true_iff in H as [Hab Hrest].
  now rewrite Hab, (IH s Hrest).
Qed.

(** What occurs in a part of a text occurs in the text. *)
Lemma includes_occurs (needle span raw : string) :
  occurs span raw -> includes needle span = true ->
  includes needle raw = true.
Proof.
  intros (before & after & ->) Hspan.
  assert (Htail : includes needle (span ++ after) = true).
  { clear before. induction span as [|c span IH].
    - destruct needle; [destruct after; reflexivity | discriminate].
    - cbn [includes append] in *.
      apply orb_true_iff in Hspan as [Hhead | Hrest].
      + pose proof (starts_with_append needle (String c span) after Hhead)
          as Hstarts.
        cbn [append] in Hstarts. now rewrite Hstarts.
      + rewrite (IH Hrest). apply orb_true_r. }
  induction before as [|c before IH]; [exact Htail|].
  cbn [append includes]. rewrite IH. apply orb_true_r.
Qed.

Lemma skip_ws_includes (s r : string) (c : ascii) :
  skip_ws s = String c r -> includes (String c "") s = true.
Proof.
  induction s as [|a s IH]; [discriminate|].
  cbn [skip_ws includes starts_with]. destruct (is_space a).
  - intros H. rewrite (IH H). apply orb_true_r.
  - intros H. injection H as -> _. now rewrite Ascii.eqb_refl.
Qed.

(** The text of a JSON object has an opening brace. *)
Lemma parse_object_brace (span : string) (members : list (string * Json.json)) :
  Json.parse span = Some (Json.JObject members) ->
  includes "{" span = true.
Proof.
  unfold Json.parse.
  generalize (2 * String.length span + 2). intros fuel H.
  destruct fuel as [|fuel]; [discriminate|].
  cbn [Json.parse_value] in H.
  destruct (skip_ws span) as [|c r] eqn:Hskip; [discriminate|].
  destruct (Ascii.eqb c "{") eqn:Hc.
  - apply Ascii.eqb_eq in Hc. subst c.
    exact (skip_ws_includes span r "{" Hskip).
  - exfalso.
    repeat match type of H with
           | match (if ?x then _ else _) with _ => _ end = _ =>
               destruct x
           | match (match ?x with _ => _ end) with _ => _ end = _ =>
               destruct x
           | match ?x with _ => _ end = _ => destruct x
           end; try discriminate.
Qed.

(** A reply without an opening brace contains no JSON object. *)
Lemma prose_without_object (raw : string) :
  includes "{" raw = false -> ~ contains_object raw.
Proof.
  intros Hraw (span & members & Hoccurs & Hparse).
  rewrite (includes_occurs "{" span raw Hoccurs
             (parse_object_brace span members Hparse)) in Hraw.
  discriminate.
Qed.

(** A reply that contains no JSON object is a failure of the model
    path. *)
Lemma reply_without_object (promptText raw : string) :
  complete promptText = Some raw -> ~ contains_object raw ->
  model_failure complete promptText.
Proof.
  intros Hc Hnone. apply (no_json_object _ _ raw Hc).
  intros span members Hl Hp. apply Hnone.
  exists span, members. split; [exact (locate_occurs raw span Hl) | exact Hp].
Qed.

(** C1.  Whatever the model does, [extract] ends with a well-formed
    record; and on every failure of the model path (the invocation fails
    or times out; the reply yields no JSON object, because no balanced
    span is found in it or because the span found is not the text of a
    JSON object, as for every reply that contains no JSON object; the
    parsed object has no [decision] field; or its [decision] is none of
    APPROVED, DENIED and PENDING) that record is the fallback: decision
    PENDING, confidence 0, the fixed reason, no documentation, no
    alternatives and no appeal guidance. *)
Theorem extract_fallback (promptText : string) :
  well_formed (extract complete promptText) /\
  (model_failure complete promptText ->
   extract complete promptText = fallback) /\
  (forall raw, complete promptText = Some raw -> ~ contains_object raw ->
   extract complete promptText = fallback) /\
  decision fallback = PENDING /\
  confidenceScore fallback = 0%Z /\
  reason fallback = fallback_reason /\
  missingDocumentation fallback = [] /\
  alternativeTreatments fallback = [] /\
  appealGuidance fallback = "".
Proof.
  assert (Hfallback : model_failure complete promptText ->
                      extract complete promptText = fallback).
  { intros Hfail. rewrite extract_unfold.
    destruct Hfail as [Hc | raw Hc Hnone | raw span members Hc Hl Hp Hd
                      | raw span members value Hc Hl Hp Hd Ha Hn Hg];
      rewrite Hc; try reflexivity.
    - destruct (locate raw) as [span|]; [|reflexivity].
      destruct (Json.parse span) as [object|] eqn:Hp; [|reflexivity].
      destruct object as [| | | | |members]; try reflexivity.
      now destruct (Hnone span members eq_refl Hp).
    - rewrite Hl, Hp. now rewrite validate_without_decision.
    - rewrite Hl, Hp. now rewrite (validate_invalid_decision members value). }
  split; [|split; [exact Hfallback|split; [|repeat split]]].
  - rewrite extract_unfold.
    destruct (complete promptText) as [raw|];
      [|exact fallback_well_formed].
    destruct (locate raw) as [span|]; [|exact fallback_well_formed].
    destruct (Json.parse span) as [object|]; [|exact fallback_well_formed].
    destruct (validate object) as [record|] eqn:Hv;
      [|exact fallback_well_formed].
    exact (validate_well_formed object record Hv).
  - intros raw Hc Hnone.
    exact (Hfallback (reply_without_object promptText raw Hc Hnone)).
Qed.

End ExtractorFacts.

Section ExtractorExamples.
Import Text Pipeline Sample.

Lemma extract_fallback_witness :
  model_failure (fun _ => Some reply_maybe) "prompt" /\
  extract (fun _ => Some reply_maybe) "prompt" = fallback.
Proof.
  assert (Hfail : model_failure (fun _ => Some reply_maybe) "prompt").
  { apply (decision_invalid _ _ reply_maybe reply_maybe
             [("decision", Json.JString "MAYBE");
              ("reason", Json.JString "unclear");
              ("confidence_score", Json.JNumber "50")]
             (Json.JString "MAYBE"));
      solve [reflexivity | discriminate]. }
  split; [exact Hfail|].
  exact (proj1 (proj2 (extract_fallback (fun _ => Some reply_maybe) "prompt"))
           Hfail).
Defined.

(** Braces around what is no JSON: a span is found, and it cannot be
    parsed. *)
Example extract_malformed :
  locate "{oops}" = Some "{oops}" /\
  Json.parse "{oops}" = None /\
  model_failure (fun _ => Some "{oops}") "prompt" /\
  extract (fun _ => Some "{oops}") "prompt" = fallback.
Proof.
  assert (Hl : locate "{oops}" = Some "{oops}") by reflexivity.
  assert (Hp : Json.parse "{oops}" = None) by reflexivity.
  split; [exact Hl|]. split; [exact Hp|]. split; [|reflexivity].
  apply (no_json_object (fun _ => Some "{oops}") "prompt" "{oops}" eq_refl).
  intros span members Hspan. rewrite Hl in Hspan. injection Hspan as <-.
  rewrite Hp. discriminate.
Qed.

Example extract_timeout : extract (fun _ => None) "prompt" = fallback.
Proof. reflexivity. Qed.

Example extract_no_object :
  ~ contains_object "I cannot decide this request." /\
  extract (fun _ => Some "I cannot decide this request.") "prompt" = fallback.
Proof.
  split; [|reflexivity]. apply prose_without_object. reflexivity.
Qed.

Example extract_missing_decision :
  extract (fun _ => Some reply_without_decision) "prompt" = fallback.
Proof. reflexivity. Qed.

Example extract_round_trip :
  extract (fun _ => Some reply_approved) "prompt" =
  {| decision := APPROVED; reason := "ok"; confidenceScore := 91;
     missingDocumentation := []; alternativeTreatments := [];
     appealGuidance := "" |}.
Proof. reflexivity. Qed.

Example extract_clamps :
  confidenceScore (extract (fun _ => Some reply_overconfident) "prompt")
  = 100%Z.
Proof. reflexivity. Qed.

End ExtractorExamples.

(** ** Strings and JSON documents *)

Section JsonFacts.
Import Text Json.

Lemma append_assoc (a b c : string) : (a ++ b) ++ c = a ++ (b ++ c).
Proof. induction a as [|x a IH]; cbn; [reflexivity | now rewrite IH]. Qed.

Lemma length_append (a b : string) :
  String.length (a ++ b) = String.length a + String.length b.
Proof. induction a as [|x a IH]; cbn; [reflexivity | now rewrite IH]. Qed.

(** Reading back an escaped text up to its closing quote gives the text:
    by cases on each byte, which [escape] either keeps or writes as one of
    its escapes. *)
Lemma scan_string_escape (s rest : string) :
  scan_string (escape s ++ String dquote rest) = Some (s, rest).
Proof.
  induction s as [|c s IH].
  - reflexivity.
  - cbn [escape].
    destruct c as [[|] [|] [|] [|] [|] [|] [|] [|]];
      cbn; rewrite IH; reflexivity.
Qed.

Lemma quote_append (s t : string) :
  quote s ++ t = String dquote (escape s ++ String dquote t).
Proof.
  unfold quote. cbn [append]. now rewrite append_assoc.
Qed.

Lemma parse_quoted (fuel : nat) (v rest : string) :
  parse_value (S fuel) (quote v ++ rest) = Some (JString v, rest).
Proof.
  rewrite quote_append. cbn [parse_value].
  change (skip_ws (String dquote ?x)) with (String dquote x).
  cbv iota. change (Ascii.eqb dquote "{") with false.
  change (Ascii.eqb dquote "[") with false.
  change (Ascii.eqb dquote dquote) with true. cbv iota.
  now rewrite scan_string_escape.
Qed.

(** One string member, followed by a character that is no blank. *)
Lemma parse_member (fuel : nat) (k v : string) (c : ascii) (rest : string) :
  is_space c = false ->
  parse_members (S (S fuel)) (member_text (k, JString v) ++ String c rest) =
  if Ascii.eqb c "}" then Some ([(k, JString v)], rest)
  else if Ascii.eqb c "," then
    match parse_members (S fuel) rest with
    | Some (ms, r) => Some ((k, JString v) :: ms, r)
    | None => None
    end
  else None.
Proof.
  intros Hc. unfold member_text. cbn [fst snd print].
  rewrite !append_assoc, quote_append.
  cbn [parse_members].
  change (skip_ws (String dquote ?x)) with (String dquote x).
  cbv iota. change (Ascii.eqb dquote dquote) with true. cbv iota.
  rewrite scan_string_escape. cbn [append].
  change (skip_ws (String ":" ?x)) with (String ":" x).
  cbv iota. change (Ascii.eqb ":" ":") with true. cbv iota.
  rewrite parse_quoted.
  cbn [skip_ws]. rewrite Hc. reflexivity.
Qed.

Lemma parse_members_flat (ms : list (string * string)) :
  forall (fuel : nat) (rest : string),
    ms <> [] -> length ms < fuel ->
    parse_members fuel
      (String.concat "," (map member_text (map string_member ms))
         ++ String "}" rest)
    = Some (map string_member ms, rest).
Proof.
  induction ms as [|[k v] ms IH]; intros fuel rest Hne Hfuel; [congruence|].
  destruct fuel as [|[|fuel]]; cbn [length] in Hfuel; try lia.
  destruct ms as [|kv ms].
  - cbn [map String.concat]. unfold string_member. cbn [fst snd].
    now rewrite parse_member.
  - specialize (IH (S fuel) rest).
    change (String.concat ","
              (map member_text (map string_member ((k, v) :: kv :: ms))))
      with (member_text (k, JString v) ++ "," ++
            String.concat "," (map member_text (map string_member (kv :: ms)))).
    rewrite !append_assoc. cbn [append].
    rewrite parse_member by reflexivity.
    change (Ascii.eqb "," "}") with false.
    change (Ascii.eqb "," ",") with true. cbv iota.
    rewrite IH; [reflexivity|congruence|cbn [length] in *; lia].
Qed.

Lemma length_members_text (ms : list (string * json)) :
  length ms <= String.length (String.concat "," (map member_text ms)) + 1.
Proof.
  induction ms as [|kv ms IH]; [cbn; lia|].
  cbn [map String.concat length].
  destruct ms as [|kv' ms]; [cbn; lia|].
  cbn [map] in *. rewrite !length_append. cbn [String.length length] in *. lia.
Qed.

(** Printing an object of strings and parsing the text gives the object
    back: the fuel [parse] starts with is enough, whatever the strings. *)
Lemma parse_print_flat (ms : list (string * string)) :
  parse (print (flat ms)) = Some (flat ms).
Proof.
  unfold parse, flat. cbn [print].
  change (fun kv : string * json => quote (fst kv) ++ ":" ++ print (snd kv))
    with member_text.
  set (text := String.concat "," (map member_text (map string_member ms))).
  assert (Hfuel : exists fuel,
             2 * String.length ("{" ++ text ++ "}") + 2 = S fuel /\
             length ms < fuel).
  { exists (2 * String.length ("{" ++ text ++ "}") + 1).
    split; [lia|].
    pose proof (length_members_text (map string_member ms)) as Hlen.
    rewrite length_map in Hlen. fold text in Hlen.
    cbn [append String.length]. rewrite length_append. lia. }
  destruct Hfuel as (fuel & -> & Hfuel).
  cbn [append parse_value].
  change (skip_ws (String "{" ?x)) with (String "{" x).
  cbv iota. change (Ascii.eqb "{" "{") with true. cbv iota.
  destruct ms as [|kv ms].
  - reflexivity.
  - assert (Hhead : exists r, text ++ "}" = String dquote r).
    { subst text. destruct kv as [k v]. cbn [map String.concat].
      destruct ms; unfold member_text at 1, quote; cbn [fst snd append];
        eexists; reflexivity. }
    destruct Hhead as (r & Hr). rewrite Hr.
    change (skip_ws (String dquote ?x)) with (String dquote x).
    cbv iota. change (Ascii.eqb dquote "}") with false. cbv iota.
    rewrite <- Hr. subst text.
    rewrite parse_members_flat; [reflexivity|discriminate|exact Hfuel].
Qed.

(** A text that opens with an angle bracket, as markup does, is no JSON
    document. *)
Lemma parse_markup (rest : string) : parse (String "<" rest) = None.
Proof.
  unfold parse.
  replace (2 * String.length (String "<" rest) + 2)
    with (S (2 * String.length (String "<" rest) + 1)) by lia.
  reflexivity.
Qed.

End JsonFacts.

(** ** The intake page *)

Section PageFacts.
Import Text Js Page.
Context {E : Engine}.

(** *** The handler, run symbolically *)

Lemma showResult_run (b : build) (message type : string) (w : world) :
  showResult b message type w =
  (Normal tt,
   add_log [Call_showResult message type]
     (with_screen
        (fun d =>
           set_resultDiv_innerHTML
             match b with
             | AppJs => message
             | Inlined =>
                 "<h3>" ++ (if String.eqb type "error" then "❌" else "⚠️")
                   ++ "</h3><p>" ++ message ++ "</p>"
             end
             (set_resultDiv_className
                (if String.eqb type "error" then class b "denied"
                 else class b "processing")
                (set_resultDiv_style_display "block" d)))
        w)).
Proof. reflexivity. Qed.

Ltac abrupt e :=
  exists (Throw e); eexists; cbn [inputs screen log];
  split; [reflexivity | repeat split].

Ltac finished :=
  exists (Normal tt); eexists; cbn [inputs screen log];
  split; [rewrite <- ?app_assoc; reflexivity | repeat split].

(** [displayResults] writes to the result element and to the log only; it
    logs its return exactly when it completes normally. *)
Lemma displayResults_frame (b : build) (data : jsval) (w : world) :
  exists r d,
    displayResults b data w =
    (r, {| inputs := inputs w; screen := d;
           log := (log w ++ Call_displayResults data ::
                     match r with
                     | Normal _ => [Return_displayResults]
                     | Throw _ => []
                     end)%list |}) /\
    same_controls (screen w) d.
Proof.
  unfold displayResults, bind, lift, draw, emit. cbn [inputs screen log].
  destruct (has_decision data) as [decided|e]; [|abrupt e].
  destruct (truthy decided).
  - destruct (get data "ai_analysis") as [analysis|e]; [|abrupt e].
    destruct (get analysis "decision") as [decision|e]; [|abrupt e].
    destruct (call_includes _ decision "APPROVED") as [[|]|e]; [| |abrupt e].
    + destruct (approved_markup b data analysis) as [markup|e];
        [finished|abrupt e].
    + destruct (denied_markup b data analysis) as [markup|e];
        [finished|abrupt e].
  - destruct (processing_markup b data) as [markup|e]; [finished|abrupt e].
Qed.

Lemma loading_run (b : build) (w : world) :
  loading b w = (Normal tt, with_screen (loaded b) w).
Proof. destruct b; reflexivity. Qed.

Lemma restore_run (b : build) (w : world) :
  restore b w = (Normal tt, with_screen (restored b) w).
Proof. destruct b; reflexivity. Qed.

Lemma submit_catch_run (b : build) (e : thrown) (w : world) :
  submit_catch b e w =
  showResult b ("Error: " ++ error_text e) "error"
    (add_log [Call_console_error e] w).
Proof. destruct e; reflexivity. Qed.

Lemma submit_body_run (b : build) (env : environment) (file : File)
  (w : world) :
  submit_body b env file w =
  let w1 := add_log [Call_readFileAsBase64 file] (edited env w) in
  match file_dataURL file with
  | None => (Throw ReaderEvent, w1)
  | Some dataURL =>
      let q := sent env (inputs w) dataURL in
      let w2 := add_log [Call_fetch q] w1 in
      match network env q with
      | NetworkFailure message => (Throw (TypeError message), w2)
      | Response status body =>
          match JSON_parse body with
          | Throw e => (Throw e, w2)
          | Normal data =>
              if ok status then displayResults b data w2
              else (rejection data, w2)
          end
      end
  end.
Proof.
  unfold submit_body, await_editable, readFileAsBase64, bind, emit, ret,
    throw, read_inputs, lift, sent, edited, add_log.
  cbn [inputs screen log].
  destruct (file_dataURL file) as [dataURL|]; [|reflexivity].
  cbn [inputs screen log].
  destruct (network env _) as [message|status body]; [reflexivity|].
  destruct (JSON_parse body) as [data|e]; [|reflexivity].
  destruct (ok status); reflexivity.
Qed.

(** The handler when the form passes its two checks. *)
Lemma submit_valid_run (b : build) (env : environment) (w : world)
  (file : File) :
  valid (inputs w) file ->
  submitForApproval b env w =
  let (r, w1) := submit_body b env file (with_screen (loaded b) w) in
  match r with
  | Normal _ => (Normal tt, with_screen (restored b) w1)
  | Throw e =>
      (Normal tt,
       with_screen (restored b)
         (snd (showResult b ("Error: " ++ error_text e) "error"
                 (add_log [Call_console_error e] w1))))
  end.
Proof.
  intros [Htreatment Hfile].
  unfold submitForApproval, bind at 1. unfold read_inputs at 1.
  cbn [truthy]. apply String.eqb_neq in Htreatment.
  rewrite Htreatment, Hfile. cbn [negb].
  unfold bind. rewrite loading_run.
  unfold try_catch_finally.
  destruct (submit_body b env file _) as [[[]|e] w1].
  - now rewrite restore_run.
  - rewrite submit_catch_run, showResult_run, restore_run. reflexivity.
Qed.

(** *** Validation *)

(** C2.  When the treatment field is empty the handler shows the
    validation message and returns: the call of [showResult] is the only
    thing it does (no file is read, no request is made), and the message
    is on the page. *)
Theorem submit_empty_treatment (b : build) (env : environment) (w : world) :
  treatmentTypeInput_value (inputs w) = "" ->
  let run := submitForApproval b env w in
  fst run = Normal tt /\
  log (snd run) =
    (log w ++ [Call_showResult "Please specify the treatment type" "error"])%list /\
  (forall q, In (Call_fetch q) (log (snd run)) -> In (Call_fetch q) (log w)) /\
  resultDiv_style_display (screen (snd run)) = "block" /\
  resultDiv_className (screen (snd run)) = class b "denied" /\
  resultDiv_innerHTML (screen (snd run)) =
    match b with
    | AppJs => "Please specify the treatment type"
    | Inlined => "<h3>❌</h3><p>Please specify the treatment type</p>"
    end /\
  submitBtn_disabled (screen (snd run)) = submitBtn_disabled (screen w).
Proof.
  intros Hempty.
  assert (Hrun : submitForApproval b env w =
                 showResult b "Please specify the treatment type" "error" w).
  { unfold submitForApproval, bind, read_inputs. cbn [truthy].
    now rewrite Hempty. }
  cbv zeta. rewrite Hrun, showResult_run. cbn [fst snd log screen add_log with_screen].
  repeat split.
  intros q Hin. apply in_app_or in Hin as [Hin|Hin]; [exact Hin|].
  destruct Hin as [Hin|[]]. discriminate.
Qed.


(** *** The finally block *)

(** C10.  Once the form has passed its checks, whatever the file reader
    and the network do, the handler returns normally with the submit
    button enabled and the spinner hidden (and, in the inlined script,
    the button label shown again). *)
Theorem finally_restores (b : build) (env : environment) (w : world)
  (file : File) :
  valid (inputs w) file ->
  let run := submitForApproval b env w in
  fst run = Normal tt /\
  submitBtn_disabled (screen (snd run)) = false /\
  loadingSpinner_style_display (screen (snd run)) = "none" /\
  (b = Inlined -> btnText_style_display (screen (snd run)) = "inline").
Proof.
  intros Hvalid. cbv zeta. rewrite (submit_valid_run b env w file Hvalid).
  destruct (submit_body b env file _) as [[[]|e] w1];
    cbn [fst snd screen with_screen]; destruct b;
    (repeat split; try reflexivity; intros; discriminate).
Qed.

(** The loading state the checks lead to, for comparison: button disabled,
    spinner shown. *)
Lemma loading_state (b : build) (w : world) :
  submitBtn_disabled (screen (snd (loading b w))) = true /\
  loadingSpinner_style_display (screen (snd (loading b w))) = "block".
Proof. rewrite loading_run. destruct b; split; reflexivity. Qed.


(** *** One answer per submission *)

Lemma rejection_throws (data : jsval) : exists e, rejection data = Throw e.
Proof.
  unfold rejection.
  destruct (get data "error") as [error|e]; cbn [bindC]; [|now exists e].
  destruct (ToString _) as [message|e]; cbn [bindC]; eexists; reflexivity.
Qed.

Ltac log_shape :=
  cbn [fst snd log screen inputs add_log with_screen edited];
  rewrite <- ?app_assoc; cbn [app].

(** The events of a submission that passed the checks and threw [e] in the
    [try] block after logging [before]. *)
Lemma caught_log (b : build) (e : thrown) (w1 : world) :
  log (with_screen (restored b)
         (snd (showResult b ("Error: " ++ error_text e) "error"
                 (add_log [Call_console_error e] w1)))) =
  (log w1 ++ [Call_console_error e;
              Call_showResult ("Error: " ++ error_text e) "error"])%list.
Proof. rewrite showResult_run. log_shape. reflexivity. Qed.





(** *** Responses that are not ok *)

(** What the [throw] of the handler raises for a parsed body. *)
Lemma rejection_of_message (members : list (string * jsval))
  (message : string) :
  own "error" members = Some (JStr message) -> message <> "" ->
  rejection (JObj members) = Throw (JsError "Error" message).
Proof.
  intros Hown Hne. unfold rejection. cbn [get]. rewrite Hown.
  cbn [bindC truthy]. apply String.eqb_neq in Hne. now rewrite Hne.
Qed.

Lemma rejection_default (members : list (string * jsval)) :
  (own "error" members = None \/
   exists error, own "error" members = Some error /\ truthy error = false) ->
  rejection (JObj members) =
  Throw (JsError "Error" "Failed to process request").
Proof.
  intros [Hown | (error & Hown & Hfalsy)]; unfold rejection; cbn [get];
    rewrite Hown; cbn [bindC truthy]; [reflexivity|].
  now rewrite Hfalsy.
Qed.

(** A non-ok response leads to the catch clause with the exception that
    parsing or the [throw] raised. *)
Lemma non_ok_run (b : build) (env : environment) (w : world) (file : File)
  (dataURL : string) (status : nat) (body : string) :
  valid (inputs w) file ->
  file_dataURL file = Some dataURL ->
  network env (sent env (inputs w) dataURL) = Response status body ->
  ok status = false ->
  exists e,
    match JSON_parse body with
    | Throw e' => e = e'
    | Normal data => rejection data = Throw e
    end /\
    log (snd (submitForApproval b env w)) =
    (log w ++ [Call_readFileAsBase64 file;
               Call_fetch (sent env (inputs w) dataURL);
               Call_console_error e;
               Call_showResult ("Error: " ++ error_text e) "error"])%list.
Proof.
  intros Hvalid Hfile Hnet Hok.
  rewrite (submit_valid_run b env w file Hvalid), submit_body_run.
  cbv zeta. cbn [inputs with_screen]. rewrite Hfile, Hnet, Hok.
  destruct (JSON_parse body) as [data|e].
  - destruct (rejection_throws data) as (e & He). rewrite He.
    exists e. split; [reflexivity|].
    cbv beta iota. cbn [fst snd]. rewrite caught_log. log_shape. reflexivity.
  - exists e. split; [reflexivity|].
    cbv beta iota. cbn [fst snd]. rewrite caught_log. log_shape. reflexivity.
Qed.

(** Whatever its status, a response whose body is markup ends in the
    catch clause with the engine's SyntaxError, and that message is
    shown. *)
Lemma markup_response (b : build) (env : environment) (w : world)
  (file : File) (dataURL : string) (status : nat) (rest : string) :
  valid (inputs w) file ->
  file_dataURL file = Some dataURL ->
  network env (sent env (inputs w) dataURL) =
    Response status (String "<" rest) ->
  log (snd (submitForApproval b env w)) =
  (log w ++
     [Call_readFileAsBase64 file;
      Call_fetch (sent env (inputs w) dataURL);
      Call_console_error
        (JsError "SyntaxError" (message_invalid_json (String "<" rest)));
      Call_showResult
        ("Error: " ++ message_invalid_json (String "<" rest)) "error"])%list.
Proof.
  intros Hvalid Hfile Hnet.
  rewrite (submit_valid_run b env w file Hvalid), submit_body_run.
  cbv zeta. cbn [inputs with_screen]. rewrite Hfile, Hnet.
  unfold JSON_parse. rewrite parse_markup.
  cbv beta iota. cbn [fst snd]. rewrite caught_log. log_shape. reflexivity.
Qed.

(** The message of the exception the [throw] raises, case by case. *)
Lemma rejection_message (data : jsval) (e : thrown) :
  rejection data = Throw e ->
  match get data "error" with
  | Throw e' => error_text e = error_text e'
  | Normal error =>
      if truthy error then
        match ToString error with
        | Normal text => error_text e = text
        | Throw e' => error_text e = error_text e'
        end
      else error_text e = "Failed to process request"
  end.
Proof.
  unfold rejection.
  destruct (get data "error") as [error|e']; cbn [bindC].
  - destruct (truthy error).
    + destruct (ToString error) as [text|e']; cbn [bindC];
        intros H; injection H as <-; reflexivity.
    + cbn [ToString bindC]. intros H. injection H as <-. reflexivity.
  - intros H. injection H as <-. reflexivity.
Qed.

(** C4, as the code has it.  For every response that is not ok,
    [displayResults] is never called and exactly one message is shown:
    [Error: ] followed by a text that the body determines in every case.
    If the body is no JSON document, the text is the message of the
    engine's exception.  If it is one, [data.error] is read: for [null]
    that raises the engine's TypeError, whose message is the text; a
    truthy [error] (a non-empty string, but also a number such as 404, an
    array or an object) is converted to a string as [new Error] does, and
    that string is the text, or the message of the exception the
    conversion raises; for an [error] that is absent or falsy the text is
    [Failed to process request].  In particular a non-empty string is
    shown as it is. *)
Theorem non_ok_response (b : build) (env : environment) (w : world)
  (file : File) (dataURL : string) (status : nat) (body : string) :
  valid (inputs w) file ->
  file_dataURL file = Some dataURL ->
  network env (sent env (inputs w) dataURL) = Response status body ->
  ok status = false ->
  exists new message,
    log (snd (submitForApproval b env w)) = (log w ++ new)%list /\
    filter is_displayResults new = [] /\
    outputs new = [Call_showResult ("Error: " ++ message) "error"] /\
    match JSON_parse body with
    | Throw e => message = error_text e
    | Normal data =>
        match get data "error" with
        | Throw e => message = error_text e
        | Normal error =>
            if truthy error then
              match ToString error with
              | Normal text => message = text
              | Throw e => message = error_text e
              end
            else message = "Failed to process request"
        end
    end /\
    (forall members text,
       JSON_parse body = Normal (JObj members) ->
       own "error" members = Some (JStr text) -> text <> "" ->
       message = text) /\
    (forall members,
       JSON_parse body = Normal (JObj members) ->
       (own "error" members = None \/
        exists error,
          own "error" members = Some error /\ truthy error = false) ->
       message = "Failed to process request").
Proof.
  intros Hvalid Hfile Hnet Hok.
  destruct (non_ok_run b env w file dataURL status body Hvalid Hfile Hnet Hok)
    as (e & He & Hlog).
  eexists. exists (error_text e). split; [exact Hlog|].
  split; [reflexivity|]. split; [reflexivity|].
  split; [|split].
  - destruct (JSON_parse body) as [data|e']; [|now subst e'].
    exact (rejection_message data e He).
  - intros members text Hparse Hown Hne. rewrite Hparse in He.
    rewrite (rejection_of_message members text Hown Hne) in He.
    injection He as <-. reflexivity.
  - intros members Hparse Hown. rewrite Hparse in He.
    rewrite (rejection_default members Hown) in He.
    injection He as <-. reflexivity.
Qed.


(** *** The branch [displayResults] takes *)

Lemma includes_APPROVED (decision : string) :
  In decision ["APPROVED"; "DENIED"; "PENDING"] ->
  (includes "APPROVED" decision = true <-> decision = "APPROVED") /\
  truthy (JStr decision) = true.
Proof.
  intros [<-|[<-|[<-|[]]]]; (split; [split; intros H|]);
    solve [reflexivity | discriminate].
Qed.

(** Only an object has a [decision] that is a string. *)
Lemma analysis_truthy (analysis : jsval) (decision : string) :
  get analysis "decision" = Normal (JStr decision) -> truthy analysis = true.
Proof.
  destruct analysis; cbn; try discriminate; try reflexivity.
Qed.

(** C8.  When [ai_analysis.decision] is one of APPROVED, DENIED and
    PENDING, [displayResults] gives the result element the class
    [approved] if the decision contains [APPROVED], and the class [denied]
    otherwise; the former holds for APPROVED only, so DENIED and PENDING
    alike go through the denied branch.  The markup written is that of
    the branch taken, and an exception raised while composing it is the
    outcome of the call. *)
Theorem displayResults_branch (b : build) (data analysis : jsval)
  (decision : string) (w : world) :
  get data "ai_analysis" = Normal analysis ->
  get analysis "decision" = Normal (JStr decision) ->
  In decision ["APPROVED"; "DENIED"; "PENDING"] ->
  let run := displayResults b data w in
  let approved := includes "APPROVED" decision in
  (approved = true <-> decision = "APPROVED") /\
  resultDiv_className (screen (snd run)) =
    class b (if approved then "approved" else "denied") /\
  match (if approved then approved_markup b data analysis
         else denied_markup b data analysis) with
  | Normal markup =>
      fst run = Normal tt /\ resultDiv_innerHTML (screen (snd run)) = markup
  | Throw e => fst run = Throw e
  end.
Proof.
  intros Hanalysis Hdecision Henum. cbv zeta.
  destruct (includes_APPROVED decision Henum) as [Hiff Htruthy].
  split; [exact Hiff|].
  unfold displayResults, bind, lift, draw, emit, has_decision.
  cbn [inputs screen log]. rewrite Hanalysis. cbn [bindC].
  rewrite (analysis_truthy analysis decision Hdecision).
  cbn [bindC]. rewrite Hdecision, Htruthy. cbn [call_includes].
  destruct (includes "APPROVED" decision).
  - destruct (approved_markup b data analysis) as [markup|e];
      cbn [fst snd screen]; repeat split.
  - destruct (denied_markup b data analysis) as [markup|e];
      cbn [fst snd screen]; repeat split.
Qed.

(** *** The request *)

Lemma after_first_comma_cases (dataURL : string) :
  after_first_comma dataURL = JUndefined \/
  exists document, after_first_comma dataURL = JStr document.
Proof.
  unfold after_first_comma.
  destruct (nth_error _ 1) as [piece|]; [right; now exists piece|now left].
Qed.

(** The body of the request is the print of an object of strings. *)
Lemma sent_body (env : environment) (f : form) (dataURL : string) :
  req_body (sent env f dataURL) =
  Some (Json.print
          (Json.flat (body_members (after_first_comma dataURL)
                        (user_edits env f)))).
Proof.
  unfold sent, request_for, JSON_stringify, payload, body_members,
    or_undefined, Json.flat.
  cbn [req_body truthy].
  destruct (after_first_comma_cases dataURL) as [-> | (document & ->)];
    destruct (String.eqb (patientNameInput_value (user_edits env f)) "");
    reflexivity.
Qed.

(** Every request the handler makes is the one [sent] describes, for a
    form that passed the checks and a file that could be read. *)
Lemma submit_fetches (b : build) (env : environment) (w : world) :
  exists new,
    log (snd (submitForApproval b env w)) = (log w ++ new)%list /\
    forall q, In (Call_fetch q) new ->
      exists file dataURL,
        valid (inputs w) file /\ file_dataURL file = Some dataURL /\
        q = sent env (inputs w) dataURL.
Proof.
  destruct (String.eqb (treatmentTypeInput_value (inputs w)) "") eqn:Htreatment.
  { exists [Call_showResult "Please specify the treatment type" "error"].
    unfold submitForApproval, bind, read_inputs. cbn [truthy].
    rewrite Htreatment. cbn [negb]. rewrite showResult_run.
    split; [reflexivity|]. intros q [Hq|[]]. discriminate. }
  destruct (selectedFile (inputs w)) as [file|] eqn:Hfile.
  2:{ exists [Call_showResult "Please select a medical document" "error"].
      unfold submitForApproval, bind, read_inputs. cbn [truthy].
      rewrite Htreatment, Hfile. cbn [negb]. rewrite showResult_run.
      split; [reflexivity|]. intros q [Hq|[]]. discriminate. }
  assert (Hvalid : valid (inputs w) file).
  { split; [now apply String.eqb_neq|exact Hfile]. }
  rewrite (submit_valid_run b env w file Hvalid), submit_body_run.
  cbv zeta. cbn [inputs with_screen].
  destruct (file_dataURL file) as [dataURL|] eqn:Hurl.
  2:{ cbv beta iota. cbn [fst snd]. rewrite caught_log. log_shape.
      eexists. split; [reflexivity|].
      intros q Hq. cbn [In] in Hq.
      repeat destruct Hq as [Hq|Hq]; try discriminate; destruct Hq. }
  assert (Hsent : forall q tail,
             (forall q', ~ In (Call_fetch q') tail) ->
             In (Call_fetch q)
               (Call_readFileAsBase64 file
                  :: Call_fetch (sent env (inputs w) dataURL) :: tail) ->
             exists file' dataURL',
               valid (inputs w) file' /\ file_dataURL file' = Some dataURL' /\
               q = sent env (inputs w) dataURL').
  { intros q tail Htail [Hq|[Hq|Hq]]; [discriminate| |now apply Htail in Hq].
    injection Hq as <-. now exists file, dataURL. }
  assert (Hcaught : forall e q',
             ~ In (Call_fetch q')
                 [Call_console_error e;
                  Call_showResult ("Error: " ++ error_text e) "error"]).
  { intros e q' [Hq|[Hq|[]]]; discriminate. }
  destruct (network env _) as [message|status body].
  { cbv beta iota. cbn [fst snd]. rewrite caught_log. log_shape.
    eexists. split; [reflexivity|]. intros q. apply Hsent, Hcaught. }
  destruct (JSON_parse body) as [data|e].
  2:{ cbv beta iota. cbn [fst snd]. rewrite caught_log. log_shape.
      eexists. split; [reflexivity|]. intros q. apply Hsent, Hcaught. }
  destruct (ok status).
  - match goal with
    | |- context [displayResults b data ?w2] =>
        destruct (displayResults_frame b data w2) as (r & d & Hrun & _)
    end.
    rewrite Hrun. destruct r as [[]|e]; cbv beta iota; cbn [fst snd].
    + log_shape. eexists. split; [reflexivity|]. intros q. apply Hsent.
      intros q' [Hq|[Hq|[]]]; discriminate.
    + rewrite caught_log. log_shape.
      eexists. split; [reflexivity|]. intros q. apply Hsent.
      intros q' [Hq|[Hq|[Hq|[]]]]; discriminate.
  - destruct (rejection_throws data) as (e & ->).
    cbv beta iota. cbn [fst snd]. rewrite caught_log. log_shape.
    eexists. split; [reflexivity|]. intros q. apply Hsent, Hcaught.
Qed.


(** The members of a body, looked up. *)
Lemma body_members_lookup (base64Data : jsval) (f : form) :
  base64Data = JUndefined \/ (exists document, base64Data = JStr document) ->
  let members := map Json.string_member (body_members base64Data f) in
  (forall k, In k (map fst members) ->
     In k ["document"; "insurance_type"; "treatment_type"; "patient_name"]) /\
  Json.lookup "insurance_type" members =
    Some (Json.JString (option_value (insuranceSelect_selected f))) /\
  Json.lookup "treatment_type" members =
    Some (Json.JString (treatmentTypeInput_value f)) /\
  Json.lookup "patient_name" members =
    (if String.eqb (patientNameInput_value f) "" then None
     else Some (Json.JString (patientNameInput_value f))) /\
  (In "patient_name" (map fst members) <-> patientNameInput_value f <> "").
Proof.
  intros Hbase. cbv zeta. unfold body_members.
  destruct (String.eqb (patientNameInput_value f) "") eqn:Hname;
    [apply String.eqb_eq in Hname | apply String.eqb_neq in Hname];
    destruct Hbase as [-> | (document & ->)];
    cbn [app map fst snd Json.string_member].
  all: split; [intros k Hk; cbn [In] in *; tauto|].
  all: do 3 (split; [reflexivity|]).
  all: cbn [In]; split; [intros Hin | tauto].
  all: repeat destruct Hin as [Hin|Hin]; solve [discriminate | tauto].
Qed.

(** Every request of a run, with its body parsed back. *)
Lemma fetched_body (b : build) (env : environment) (w : world) :
  exists new,
    log (snd (submitForApproval b env w)) = (log w ++ new)%list /\
    forall q, In (Call_fetch q) new ->
      exists file dataURL,
        valid (inputs w) file /\ file_dataURL file = Some dataURL /\
        let members :=
          body_members (after_first_comma dataURL) (user_edits env (inputs w)) in
        req_body q = Some (Json.print (Json.flat members)) /\
        Json.parse (Json.print (Json.flat members)) = Some (Json.flat members).
Proof.
  destruct (submit_fetches b env w) as (new & Hlog & Hnew).
  exists new. split; [exact Hlog|].
  intros q Hq. destruct (Hnew q Hq) as (file & dataURL & Hvalid & Hurl & ->).
  exists file, dataURL. split; [exact Hvalid|]. split; [exact Hurl|].
  cbv zeta. split; [apply sent_body | apply parse_print_flat].
Qed.

(** A form that passed the checks and a file the reader delivers: the
    file is read and the request is made, whatever comes after. *)
Lemma request_logged (b : build) (env : environment) (w : world)
  (file : File) (dataURL : string) :
  valid (inputs w) file ->
  file_dataURL file = Some dataURL ->
  exists tail,
    log (snd (submitForApproval b env w)) =
    (log w ++ Call_readFileAsBase64 file
           :: Call_fetch (sent env (inputs w) dataURL) :: tail)%list.
Proof.
  intros Hvalid Hurl.
  rewrite (submit_valid_run b env w file Hvalid), submit_body_run.
  cbv zeta. cbn [inputs with_screen]. rewrite Hurl.
  destruct (network env _) as [message|status body].
  { cbv beta iota. cbn [fst snd]. rewrite caught_log. log_shape.
    eexists. reflexivity. }
  destruct (JSON_parse body) as [data|e].
  2:{ cbv beta iota. cbn [fst snd]. rewrite caught_log. log_shape.
      eexists. reflexivity. }
  destruct (ok status).
  - match goal with
    | |- context [displayResults b data ?w2] =>
        destruct (displayResults_frame b data w2) as (r & d & Hrun & _)
    end.
    rewrite Hrun. destruct r as [[]|e]; cbv beta iota; cbn [fst snd].
    + log_shape. eexists. reflexivity.
    + rewrite caught_log. log_shape. eexists. reflexivity.
  - destruct (rejection_throws data) as (e & ->).
    cbv beta iota. cbn [fst snd]. rewrite caught_log. log_shape.
    eexists. reflexivity.
Qed.

(** C9.  A submission whose form passed the checks and whose file the
    reader delivers makes a request; and in the body of every request the
    handler makes, read back as a JSON document, the member
    [patient_name] is present if and only if the patient-name input is
    not empty, and then it is that input's value. *)
Theorem patient_name_serialized (b : build) (env : environment) (w : world) :
  let name := patientNameInput_value (user_edits env (inputs w)) in
  exists new,
    log (snd (submitForApproval b env w)) = (log w ++ new)%list /\
    (forall file dataURL,
       valid (inputs w) file -> file_dataURL file = Some dataURL ->
       exists q, In (Call_fetch q) new) /\
    forall q, In (Call_fetch q) new ->
      exists text members,
        req_body q = Some text /\
        Json.parse text = Some (Json.JObject members) /\
        (In "patient_name" (map fst members) <-> name <> "") /\
        Json.lookup "patient_name" members =
          (if String.eqb name "" then None else Some (Json.JString name)).
Proof.
  cbv zeta. destruct (fetched_body b env w) as (new & Hlog & Hnew).
  exists new. split; [exact Hlog|]. split.
  - intros file dataURL Hvalid Hurl.
    destruct (request_logged b env w file dataURL Hvalid Hurl)
      as (tail & Hrun).
    rewrite Hlog in Hrun. apply app_inv_head in Hrun. subst new.
    eexists. right. left. reflexivity.
  - intros q Hq.
    destruct (Hnew q Hq) as (file & dataURL & _ & _ & Hbody & Hparse).
    destruct (body_members_lookup (after_first_comma dataURL)
                (user_edits env (inputs w)) (after_first_comma_cases dataURL))
      as (_ & _ & _ & Hname & Hin).
    eexists _, _. split; [exact Hbody|]. split; [exact Hparse|].
    split; [exact Hin | exact Hname].
Qed.

Lemma option_value_offered (i : insurer) :
  In (option_value i) (map fst insurance_options).
Proof. destruct i; cbn; tauto. Qed.

(** C7.  The selector offers exactly the nine values, and the
    [insurance_type] member of the body of every request the handler
    makes is one of them. *)
Theorem insurance_type_offered (b : build) (env : environment) (w : world) :
  map fst insurance_options =
    ["aetna"; "bcbs"; "cigna"; "humana"; "kaiser"; "united"; "medicare";
     "medicaid"; "other"] /\
  exists new,
    log (snd (submitForApproval b env w)) = (log w ++ new)%list /\
    forall q, In (Call_fetch q) new ->
      exists text members value,
        req_body q = Some text /\
        Json.parse text = Some (Json.JObject members) /\
        Json.lookup "insurance_type" members = Some (Json.JString value) /\
        In value (map fst insurance_options).
Proof.
  split; [reflexivity|].
  destruct (fetched_body b env w) as (new & Hlog & Hnew).
  exists new. split; [exact Hlog|].
  intros q Hq.
  destruct (Hnew q Hq) as (file & dataURL & _ & _ & Hbody & Hparse).
  destruct (body_members_lookup (after_first_comma dataURL)
              (user_edits env (inputs w)) (after_first_comma_cases dataURL))
    as (_ & Hinsurance & _).
  eexists _, _, _. split; [exact Hbody|]. split; [exact Hparse|].
  split; [exact Hinsurance | apply option_value_offered].
Qed.

(** C5, as the code has it.  The body of every request the handler makes
    is a JSON object whose members are among [document], [insurance_type],
    [treatment_type] and [patient_name]; [insurance_type] is the value of
    the selected option and [treatment_type] the text of the treatment
    input, which is not empty unless the user emptied it while the file
    was read. *)
Theorem request_body_fields (b : build) (env : environment) (w : world) :
  let f := user_edits env (inputs w) in
  exists new,
    log (snd (submitForApproval b env w)) = (log w ++ new)%list /\
    forall q, In (Call_fetch q) new ->
      exists text members,
        req_body q = Some text /\
        Json.parse text = Some (Json.JObject members) /\
        (forall k, In k (map fst members) ->
           In k ["document"; "insurance_type"; "treatment_type";
                 "patient_name"]) /\
        Json.lookup "insurance_type" members =
          Some (Json.JString (option_value (insuranceSelect_selected f))) /\
        Json.lookup "treatment_type" members =
          Some (Json.JString (treatmentTypeInput_value f)) /\
        (treatmentTypeInput_value f = treatmentTypeInput_value (inputs w) ->
         treatmentTypeInput_value f <> "").
Proof.
  cbv zeta. destruct (fetched_body b env w) as (new & Hlog & Hnew).
  exists new. split; [exact Hlog|].
  intros q Hq.
  destruct (Hnew q Hq) as (file & dataURL & [Hne _] & _ & Hbody & Hparse).
  destruct (body_members_lookup (after_first_comma dataURL)
              (user_edits env (inputs w)) (after_first_comma_cases dataURL))
    as (Hkeys & Hinsurance & Htreatment & _).
  eexists _, _. split; [exact Hbody|]. split; [exact Hparse|].
  split; [exact Hkeys|]. split; [exact Hinsurance|].
  split; [exact Htreatment|].
  intros Hsame. now rewrite Hsame.
Qed.

End PageFacts.

(** ** The page on the sample data *)

Section PageExamples.
Import Text Js Page Sample.
#[local] Existing Instance Sample.engine.

Lemma sample_valid : valid (inputs sample_world) sample_file.
Proof. split; [discriminate | reflexivity]. Defined.

Lemma submit_empty_treatment_witness :
  treatmentTypeInput_value (inputs untouched_world) = "" /\
  log (snd (submitForApproval AppJs (answering 200 approval) untouched_world)) =
    [Call_showResult "Please specify the treatment type" "error"].
Proof.
  split; [reflexivity|].
  exact (proj1 (proj2 (submit_empty_treatment AppJs (answering 200 approval)
                         untouched_world eq_refl))).
Defined.

Lemma finally_restores_witness :
  valid (inputs sample_world) sample_file /\
  submitBtn_disabled
    (screen (snd (submitForApproval Inlined (answering 502 bad_gateway)
                    sample_world))) = false.
Proof.
  split; [exact sample_valid|].
  exact (proj1 (proj2 (finally_restores Inlined (answering 502 bad_gateway)
                         sample_world sample_file sample_valid))).
Defined.


Example approval_displayed :
  outputs (log (snd (submitForApproval AppJs (answering 200 approval)
                       sample_world))) = [Return_displayResults] /\
  resultDiv_className
    (screen (snd (submitForApproval AppJs (answering 200 approval)
                    sample_world))) = "approved".
Proof. split; reflexivity. Qed.

Lemma non_ok_response_witness :
  valid (inputs sample_world) sample_file /\
  file_dataURL sample_file = Some sample_dataURL /\
  network (answering 400 refusal)
    (sent (answering 400 refusal) (inputs sample_world) sample_dataURL)
  = Response 400 refusal /\
  ok 400 = false /\
  outputs (log (snd (submitForApproval AppJs (answering 400 refusal)
                       sample_world)))
  = [Call_showResult "Error: Missing document" "error"].
Proof.
  split; [exact sample_valid|]. do 3 (split; [reflexivity|]).
  destruct (non_ok_response AppJs (answering 400 refusal) sample_world
              sample_file sample_dataURL 400 refusal
              sample_valid eq_refl eq_refl eq_refl)
    as (new & message & Hlog & _ & Hshown & _ & Hmessage & _).
  rewrite Hlog. cbn [log sample_world app]. rewrite Hshown.
  rewrite (Hmessage [("error", JStr "Missing document")] "Missing document");
    [reflexivity | reflexivity | reflexivity | discriminate].
Defined.

(** Bodies that are JSON and no object with a text for [error]: the
    number is printed, [null] makes the read of [error] fail, and an
    object prints as every object does. *)
Example non_ok_other_bodies :
  outputs (log (snd (submitForApproval AppJs
                       (answering 404 ("{" ++ member "error" "404" ++ "}"))
                       sample_world)))
  = [Call_showResult "Error: 404" "error"] /\
  outputs (log (snd (submitForApproval AppJs (answering 500 "null")
                       sample_world)))
  = [Call_showResult
       "Error: Cannot read properties of null (reading 'error')" "error"] /\
  outputs (log (snd (submitForApproval AppJs
                       (answering 422
                          ("{" ++ member "error"
                                    ("{" ++ member "code" "1" ++ "}") ++ "}"))
                       sample_world)))
  = [Call_showResult "Error: [object Object]" "error"] /\
  outputs (log (snd (submitForApproval AppJs
                       (answering 400 ("{" ++ member "error" "0" ++ "}"))
                       sample_world)))
  = [Call_showResult "Error: Failed to process request" "error"].
Proof. repeat split. Qed.

(** C4 as stated fails: the gateway's error page comes with status 502
    and is no JSON document, and the message shown is neither an [error]
    member of the body nor the fixed text. *)
Lemma non_ok_response_counterexample :
  let run := submitForApproval AppJs (answering 502 bad_gateway) sample_world in
  valid (inputs sample_world) sample_file /\
  network (answering 502 bad_gateway)
    (sent (answering 502 bad_gateway) (inputs sample_world)
       sample_dataURL)
  = Response 502 bad_gateway /\
  ok 502 = false /\
  outputs (log (snd run)) =
    [Call_showResult "Error: Unexpected token in JSON" "error"] /\
  ~ (exists message,
       In (Call_showResult ("Error: " ++ message) "error") (log (snd run)) /\
       (message = "Failed to process request" \/
        exists members,
          JSON_parse bad_gateway = Normal (JObj members) /\
          own "error" members = Some (JStr message))).
Proof.
  cbv zeta. split; [exact sample_valid|].
  split; [reflexivity|]. split; [reflexivity|].
  assert (Hlog :
    log (snd (submitForApproval AppJs (answering 502 bad_gateway)
                sample_world)) =
    [Call_readFileAsBase64 sample_file;
     Call_fetch (sent (answering 502 bad_gateway) (inputs sample_world)
                   sample_dataURL);
     Call_console_error (JsError "SyntaxError" "Unexpected token in JSON");
     Call_showResult "Error: Unexpected token in JSON" "error"])
    by reflexivity.
  assert (Hparse :
    JSON_parse bad_gateway =
    Throw (JsError "SyntaxError" "Unexpected token in JSON")) by reflexivity.
  rewrite Hlog. split; [reflexivity|].
  intros (message & Hin & Hmessage).
  destruct Hin as [Hin|[Hin|[Hin|[Hin|[]]]]]; try discriminate.
  cbn [append] in Hin. injection Hin as Hin.
  destruct Hmessage as [Hfixed | (members & Hobject & _)].
  - rewrite Hfixed in Hin. discriminate.
  - rewrite Hparse in Hobject. discriminate.
Qed.

(** A name that is provided is carried by the one request of the run. *)
Lemma patient_name_serialized_witness :
  valid (inputs named_world) sample_file /\
  file_dataURL sample_file = Some sample_dataURL /\
  exists q text members,
    In (Call_fetch q)
       (log (snd (submitForApproval AppJs (answering 200 approval)
                    named_world))) /\
    req_body q = Some text /\
    Json.parse text = Some (Json.JObject members) /\
    Json.lookup "patient_name" members = Some (Json.JString "Jane Doe").
Proof.
  assert (Hvalid : valid (inputs named_world) sample_file).
  { split; [discriminate | reflexivity]. }
  split; [exact Hvalid|]. split; [reflexivity|].
  destruct (patient_name_serialized AppJs (answering 200 approval)
              named_world) as (new & Hlog & Hmade & Hbody).
  destruct (Hmade sample_file sample_dataURL Hvalid eq_refl) as (q & Hq).
  destruct (Hbody q Hq) as (text & members & Htext & Hparse & _ & Hname).
  exists q, text, members.
  split; [rewrite Hlog; apply in_or_app; now right|].
  split; [exact Htext|]. split; [exact Hparse | exact Hname].
Defined.

Lemma displayResults_branch_witness :
  get pending_data "ai_analysis" = Normal (JObj pending_analysis) /\
  get (JObj pending_analysis) "decision" = Normal (JStr "PENDING") /\
  In "PENDING" ["APPROVED"; "DENIED"; "PENDING"] /\
  resultDiv_className
    (screen (snd (displayResults AppJs pending_data sample_world)))
  = "denied".
Proof.
  do 2 (split; [reflexivity|]).
  split; [right; right; left; reflexivity|].
  exact (proj1 (proj2 (displayResults_branch AppJs pending_data
                         (JObj pending_analysis) "PENDING" sample_world
                         eq_refl eq_refl
                         (or_intror (or_intror (or_introl eq_refl)))))).
Defined.

(** C5 as stated fails: the body of the request made for the sample form
    has the three members [document], [insurance_type] and
    [treatment_type], and so no request identifier under either
    spelling. *)
Lemma request_body_counterexample :
  let run := submitForApproval AppJs (answering 200 approval) sample_world in
  exists q text members,
    In (Call_fetch q) (log (snd run)) /\
    req_body q = Some text /\
    Json.parse text = Some (Json.JObject members) /\
    map fst members = ["document"; "insurance_type"; "treatment_type"] /\
    Json.lookup "requestId" members = None /\
    Json.lookup "request_id" members = None.
Proof.
  cbv zeta.
  exists (sent (answering 200 approval) (inputs sample_world)
            sample_dataURL).
  exists ("{" ++ member "document" (Json.quote "JVBERi0xLjQ=") ++ ","
              ++ member "insurance_type" (Json.quote "bcbs") ++ ","
              ++ member "treatment_type" (Json.quote "MRI Knee") ++ "}").
  exists [("document", Json.JString "JVBERi0xLjQ=");
          ("insurance_type", Json.JString "bcbs");
          ("treatment_type", Json.JString "MRI Knee")].
  split; [right; left; reflexivity|].
  repeat split; reflexivity.
Qed.

Example sample_request_body :
  req_body (sent (answering 200 approval) (inputs sample_world)
              sample_dataURL) =
  Some ("{" ++ member "document" (Json.quote "JVBERi0xLjQ=") ++ ","
            ++ member "insurance_type" (Json.quote "bcbs") ++ ","
            ++ member "treatment_type" (Json.quote "MRI Knee") ++ "}").
Proof. reflexivity. Qed.

End PageExamples.

(** ** The runs of the handler beyond its happy path *)

Section RunFacts.
Import Text Js Page Outcome.
Context {E : Engine}.

Ltac lay_out :=
  cbv beta iota zeta;
  unfold add_log, with_screen, edited;
  cbn [fst snd log screen inputs];
  rewrite <- ?app_assoc; cbn [app].

(** X1: With a treatment typed in and no file selected, [submitForApproval]
    stops at its second check: it calls
    [showResult('Please select a medical document', 'error')] and nothing
    else, so no file is read and no request is sent; the form, the button
    and the spinner are left as they were, and the result element gets the
    class of a denial and the message as its markup. *)
Theorem submit_without_file (b : build) (env : environment) (w : world) :
  treatmentTypeInput_value (inputs w) <> "" ->
  selectedFile (inputs w) = None ->
  let run := submitForApproval b env w in
  fst run = Normal tt /\
  log (snd run) =
    (log w ++ [Call_showResult "Please select a medical document" "error"])%list /\
  inputs (snd run) = inputs w /\
  same_controls (screen w) (screen (snd run)) /\
  resultDiv_className (screen (snd run)) = class b "denied" /\
  resultDiv_innerHTML (screen (snd run)) =
    match b with
    | AppJs => "Please select a medical document"
    | Inlined => "<h3>❌</h3><p>Please select a medical document</p>"
    end.
Proof.
  intros Htreatment Hfile. cbv zeta.
  assert (Hrun : submitForApproval b env w =
                 showResult b "Please select a medical document" "error" w).
  { unfold submitForApproval, bind, read_inputs. cbn [truthy].
    apply String.eqb_neq in Htreatment. now rewrite Htreatment, Hfile. }
  rewrite Hrun, showResult_run. repeat split.
Qed.

(** The screen once the catch clause and the finally block have run. *)
Lemma caught_screen (b : build) (e : thrown) (w1 : world) :
  let d := screen (with_screen (restored b)
                     (snd (showResult b ("Error: " ++ error_text e) "error"
                             (add_log [Call_console_error e] w1)))) in
  resultDiv_style_display d = "block" /\
  resultDiv_className d = class b "denied" /\
  resultDiv_innerHTML d =
    match b with
    | AppJs => "Error: " ++ error_text e
    | Inlined => "<h3>❌</h3><p>" ++ ("Error: " ++ error_text e) ++ "</p>"
    end.
Proof. rewrite showResult_run. destruct b; repeat split. Qed.

(** What a run that throws [e] in the try block leaves behind. *)
Lemma thrown_run (b : build) (env : environment) (w : world) (file : File)
  (e : thrown) (before : list event) :
  valid (inputs w) file ->
  (exists d,
     submit_body b env file (with_screen (loaded b) w) =
     (Throw e, {| inputs := user_edits env (inputs w); screen := d;
                  log := (log w ++ before)%list |})) ->
  let run := submitForApproval b env w in
  fst run = Normal tt /\
  log (snd run) =
    (log w ++ before ++
       [Call_console_error e;
        Call_showResult ("Error: " ++ error_text e) "error"])%list /\
  resultDiv_style_display (screen (snd run)) = "block" /\
  resultDiv_className (screen (snd run)) = class b "denied" /\
  resultDiv_innerHTML (screen (snd run)) =
    match b with
    | AppJs => "Error: " ++ error_text e
    | Inlined => "<h3>❌</h3><p>" ++ ("Error: " ++ error_text e) ++ "</p>"
    end.
Proof.
  intros Hvalid (d & Hbody). cbv zeta.
  rewrite (submit_valid_run b env w file Hvalid), Hbody.
  cbv beta iota. cbn [fst snd].
  destruct (caught_screen b e
              {| inputs := user_edits env (inputs w); screen := d;
                 log := (log w ++ before)%list |}) as (Hshow & Hclass & Hhtml).
  rewrite caught_log. cbn [log]. rewrite <- app_assoc.
  repeat split; assumption.
Qed.


(** X2: When the file reader fires [onerror], the promise of
    [readFileAsBase64] is rejected with the reader's event, which has no
    [message]: the catch clause logs the event and the page shows
    [Error: undefined].  No request is sent. *)
Theorem reader_error_shown (b : build) (env : environment) (w : world)
  (file : File) :
  valid (inputs w) file ->
  file_dataURL file = None ->
  let run := submitForApproval b env w in
  fst run = Normal tt /\
  log (snd run) =
    (log w ++ [Call_readFileAsBase64 file;
               Call_console_error ReaderEvent;
               Call_showResult "Error: undefined" "error"])%list /\
  resultDiv_innerHTML (screen (snd run)) =
    match b with
    | AppJs => "Error: undefined"
    | Inlined => "<h3>❌</h3><p>Error: undefined</p>"
    end.
Proof.
  intros Hvalid Hfile.
  destruct (thrown_run b env w file ReaderEvent [Call_readFileAsBase64 file]
              Hvalid) as (Hr & Hlog & _ & _ & Hhtml).
  { rewrite submit_body_run, Hfile. eexists. reflexivity. }
  cbv zeta. split; [exact Hr|]. split; [exact Hlog|].
  rewrite Hhtml. destruct b; reflexivity.
Qed.

(** X3: When [fetch] rejects (the network is down, or the browser blocks
    the request), the run still completes normally: after the read and the
    one request, the catch clause logs the [TypeError] and the page shows
    [Error: ] followed by its message, with the class of a denial. *)
Theorem network_failure_shown (b : build) (env : environment) (w : world)
  (file : File) (dataURL message : string) :
  valid (inputs w) file ->
  file_dataURL file = Some dataURL ->
  network env (sent env (inputs w) dataURL) = NetworkFailure message ->
  let run := submitForApproval b env w in
  fst run = Normal tt /\
  log (snd run) =
    (log w ++ [Call_readFileAsBase64 file;
               Call_fetch (sent env (inputs w) dataURL);
               Call_console_error (TypeError message);
               Call_showResult ("Error: " ++ message) "error"])%list /\
  resultDiv_className (screen (snd run)) = class b "denied" /\
  resultDiv_innerHTML (screen (snd run)) =
    match b with
    | AppJs => "Error: " ++ message
    | Inlined => "<h3>❌</h3><p>" ++ ("Error: " ++ message) ++ "</p>"
    end.
Proof.
  intros Hvalid Hfile Hnet.
  destruct (thrown_run b env w file (TypeError message)
              [Call_readFileAsBase64 file;
               Call_fetch (sent env (inputs w) dataURL)]
              Hvalid) as (Hr & Hlog & _ & Hclass & Hhtml).
  { rewrite submit_body_run, Hfile. cbv zeta. cbn [inputs with_screen].
    rewrite Hnet. lay_out. eexists. reflexivity. }
  cbv zeta. repeat split; assumption.
Qed.

(** X4: The [error] text of a refused request is written to
    [resultDiv.innerHTML] as it came from the service, behind [Error: ]:
    the script escapes nothing, so markup in that text becomes markup of
    the page. *)
Theorem error_member_is_markup (b : build) (env : environment) (w : world)
  (file : File) (dataURL : string) (status : nat) (body : string)
  (members : list (string * jsval)) (message : string) :
  valid (inputs w) file ->
  file_dataURL file = Some dataURL ->
  network env (sent env (inputs w) dataURL) = Response status body ->
  ok status = false ->
  JSON_parse body = Normal (JObj members) ->
  own "error" members = Some (JStr message) ->
  message <> "" ->
  resultDiv_innerHTML (screen (snd (submitForApproval b env w))) =
    match b with
    | AppJs => "Error: " ++ message
    | Inlined => "<h3>❌</h3><p>" ++ ("Error: " ++ message) ++ "</p>"
    end.
Proof.
  intros Hvalid Hfile Hnet Hok Hparse Hown Hne.
  destruct (thrown_run b env w file (JsError "Error" message)
              [Call_readFileAsBase64 file;
               Call_fetch (sent env (inputs w) dataURL)]
              Hvalid) as (_ & _ & _ & _ & Hhtml).
  { rewrite submit_body_run, Hfile. cbv zeta. cbn [inputs with_screen].
    rewrite Hnet, Hparse, Hok.
    rewrite (rejection_of_message members message Hown Hne).
    lay_out. eexists. reflexivity. }
  exact Hhtml.
Qed.


(** *** Markup in the two builds *)

Lemma alike_bind {A A' B B' : Type} (x : completion A) (x' : completion A')
  (k : A -> completion B) (k' : A' -> completion B') :
  alike x x' -> (forall a a', alike (k a) (k' a')) ->
  alike (bindC x k) (bindC x' k').
Proof.
  destruct x, x'; cbn; intros H Hk; try contradiction; [apply Hk|exact H].
Qed.

Lemma alike_refl {A : Type} (x : completion A) : alike x x.
Proof. destruct x; cbn; auto. Qed.

Lemma alike_same {A B C : Type} (x : completion A)
  (k : A -> completion B) (k' : A -> completion C) :
  (forall a, alike (k a) (k' a)) -> alike (bindC x k) (bindC x k').
Proof. destruct x; cbn; intros Hk; [apply Hk|reflexivity]. Qed.

Lemma optional_list_alike (analysis : jsval) (field : string)
  (render render' : string -> string) :
  alike (optional_list analysis field render)
        (optional_list analysis field render').
Proof.
  unfold optional_list.
  apply alike_same; intros xs. apply alike_same; intros len.
  destruct (truthy len); [|exact I].
  apply alike_same; intros xs'. apply alike_same; intros joined. exact I.
Qed.

(** The markup of the two builds is composed from the same reads and the
    same conversions, so both compose it or both stop at the same
    exception. *)
Lemma markup_alike (data analysis : jsval) :
  alike (approved_markup AppJs data analysis)
        (approved_markup Inlined data analysis) /\
  alike (denied_markup AppJs data analysis)
        (denied_markup Inlined data analysis) /\
  alike (processing_markup AppJs data) (processing_markup Inlined data).
Proof.
  split; [|split].
  - unfold approved_markup. cbv zeta.
    do 6 (apply alike_same; intros ?).
    apply alike_bind; [apply optional_list_alike|]. intros; exact I.
  - unfold denied_markup. cbv zeta.
    do 4 (apply alike_same; intros ?).
    apply alike_bind; [apply optional_list_alike|]. intros ? ?.
    apply alike_same; intros guidance.
    apply alike_bind.
    { destruct (truthy guidance); [|exact I].
      do 2 (apply alike_same; intros ?). exact I. }
    intros ? ?. do 2 (apply alike_same; intros ?). exact I.
  - unfold processing_markup. cbv zeta.
    do 4 (apply alike_same; intros ?). exact I.
Qed.

(** *** [displayResults] and the try block, whatever the page looked like *)

Ltac unfold_display :=
  unfold displayResults, bind, lift, draw, emit;
  cbn [inputs screen log];
  repeat (match goal with H : _ = _ |- _ => rewrite H end; cbv beta iota);
  cbn [inputs screen log]; rewrite <- ?app_assoc.

Ltac stops e :=
  exists (@Throw unit e), (fun _ => ("", ""));
  intros b w; unfold_display; eexists;
  split; [reflexivity | split; [repeat split | split; [reflexivity|discriminate]]].

Ltac draws name m m' :=
  exists (Normal tt),
    (fun b => (class b name, match b with AppJs => m | Inlined => m' end));
  intros b w; destruct b; unfold_display; eexists;
  (split; [reflexivity
          | split; [repeat split
                   | split; [reflexivity
                            | intros _ _; cbn; repeat split; tauto]]]).

Ltac stops_after e :=
  exists (@Throw unit e), (fun _ => ("", ""));
  intros b w; destruct b; unfold_display; eexists;
  (split; [reflexivity
          | split; [repeat split | split; [reflexivity|discriminate]]]).

(** The outcome of [displayResults] depends on the data alone, and what it
    writes on the data and the build; the controls stay as they are. *)
Lemma displayResults_outcome (data : jsval) :
  exists r (look : build -> string * string),
    forall b w,
      exists d,
        displayResults b data w =
        (r, {| inputs := inputs w; screen := d;
               log := (log w ++ Call_displayResults data ::
                         match r with
                         | Normal _ => [Return_displayResults]
                         | Throw _ => []
                         end)%list |}) /\
        same_controls (screen w) d /\
        resultDiv_style_display d = "block" /\
        (forall u, r = Normal u ->
           resultDiv_className d = fst (look b) /\
           resultDiv_innerHTML d = snd (look b) /\
           In (fst (look b)) (result_classes b)).
Proof.
  destruct (markup_alike data
              match get data "ai_analysis" with
              | Normal analysis => analysis
              | Throw _ => JUndefined
              end) as (Happroved & Hdenied & Hprocessing).
  destruct (has_decision data) as [decided|e] eqn:Hdecided; [|stops e].
  destruct (truthy decided) eqn:Htruthy.
  - destruct (get data "ai_analysis") as [analysis|e] eqn:Hanalysis;
      [|stops e].
    destruct (get analysis "decision") as [decision|e] eqn:Hdecision;
      [|stops e].
    destruct (call_includes "analysis.decision.includes" decision "APPROVED")
      as [[|]|e] eqn:Hincludes; [| |stops e].
    + destruct (approved_markup AppJs data analysis) as [m|e] eqn:Hm,
               (approved_markup Inlined data analysis) as [m'|e'] eqn:Hm';
        cbn in Happroved; try contradiction.
      * draws "approved" m m'.
      * subst e'. stops_after e.
    + destruct (denied_markup AppJs data analysis) as [m|e] eqn:Hm,
               (denied_markup Inlined data analysis) as [m'|e'] eqn:Hm';
        cbn in Hdenied; try contradiction.
      * draws "denied" m m'.
      * subst e'. stops_after e.
  - destruct (processing_markup AppJs data) as [m|e] eqn:Hm,
             (processing_markup Inlined data) as [m'|e'] eqn:Hm';
      cbn in Hprocessing; try contradiction.
    + draws "processing" m m'.
    + subst e'. stops_after e.
Qed.

(** The try block for a form [f]: its outcome, the events it adds and the
    one request among them do not depend on the build or on what the page
    showed before. *)
Lemma body_outcome (env : environment) (file : File) (f : form) :
  exists r before (look : build -> string * string),
    filter is_fetch before =
      match file_dataURL file with
      | Some dataURL => [Call_fetch (sent env f dataURL)]
      | None => []
      end /\
    forall b w, inputs w = f ->
      exists d,
        submit_body b env file w =
        (r, {| inputs := user_edits env f; screen := d;
               log := (log w ++ before)%list |}) /\
        same_controls (screen w) d /\
        (forall u, r = Normal u ->
           resultDiv_style_display d = "block" /\
           resultDiv_className d = fst (look b) /\
           resultDiv_innerHTML d = snd (look b) /\
           In (fst (look b)) (result_classes b)).
Proof.
  destruct (file_dataURL file) as [dataURL|] eqn:Hfile.
  2:{ exists (@Throw unit ReaderEvent), [Call_readFileAsBase64 file],
        (fun _ => ("", "")).
      split; [reflexivity|]. intros b w <-.
      rewrite submit_body_run, Hfile. lay_out. eexists.
      split; [reflexivity|]. split; [repeat split|discriminate]. }
  destruct (network env (sent env f dataURL)) as [message|status body] eqn:Hnet.
  { exists (@Throw unit (TypeError message)),
      [Call_readFileAsBase64 file; Call_fetch (sent env f dataURL)],
      (fun _ => ("", "")).
    split; [reflexivity|]. intros b w <-.
    rewrite submit_body_run, Hfile. cbv zeta. rewrite Hnet. lay_out. eexists.
    split; [reflexivity|]. split; [repeat split|discriminate]. }
  destruct (JSON_parse body) as [data|e] eqn:Hparse.
  2:{ exists (@Throw unit e),
        [Call_readFileAsBase64 file; Call_fetch (sent env f dataURL)],
        (fun _ => ("", "")).
      split; [reflexivity|]. intros b w <-.
      rewrite submit_body_run, Hfile. cbv zeta. rewrite Hnet, Hparse.
      lay_out. eexists.
      split; [reflexivity|]. split; [repeat split|discriminate]. }
  destruct (ok status) eqn:Hok.
  - destruct (displayResults_outcome data) as (r & look & Hrun).
    exists r,
      (Call_readFileAsBase64 file :: Call_fetch (sent env f dataURL)
         :: Call_displayResults data
         :: match r with
            | Normal _ => [Return_displayResults]
            | Throw _ => []
            end), look.
    split; [destruct r; reflexivity|]. intros b w <-.
    rewrite submit_body_run, Hfile. cbv zeta. rewrite Hnet, Hparse, Hok.
    match goal with
    | |- context [displayResults b data ?w2] =>
        destruct (Hrun b w2) as (d & Hd & Hcontrols & Hblock & Hlook)
    end.
    rewrite Hd. lay_out. exists d.
    split; [reflexivity|]. split; [exact Hcontrols|].
    intros u Hu. split; [exact Hblock | exact (Hlook u Hu)].
  - destruct (rejection_throws data) as (e & He).
    exists (@Throw unit e),
      [Call_readFileAsBase64 file; Call_fetch (sent env f dataURL)],
      (fun _ => ("", "")).
    split; [reflexivity|]. intros b w <-.
    rewrite submit_body_run, Hfile. cbv zeta. rewrite Hnet, Hparse, Hok, He.
    lay_out. eexists.
    split; [reflexivity|]. split; [repeat split|discriminate].
Qed.

(** X6: Whatever the form holds and whatever the reader and the network do,
    a run of [submitForApproval] ends with the result element visible
    ([style.display] is [block]) and with one of the three classes
    approved, denied and processing of the build. *)
Theorem result_always_shown (b : build) (env : environment) (w : world) :
  let d := screen (snd (submitForApproval b env w)) in
  resultDiv_style_display d = "block" /\
  In (resultDiv_className d) (result_classes b).
Proof.
  cbv zeta.
  destruct (String.eqb (treatmentTypeInput_value (inputs w)) "") eqn:Htreatment.
  { unfold submitForApproval, bind, read_inputs. cbn [truthy].
    rewrite Htreatment. cbn [negb]. rewrite showResult_run.
    split; [reflexivity | right; now left]. }
  destruct (selectedFile (inputs w)) as [file|] eqn:Hfile.
  2:{ unfold submitForApproval, bind, read_inputs. cbn [truthy].
      rewrite Htreatment, Hfile. cbn [negb]. rewrite showResult_run.
      split; [reflexivity | right; now left]. }
  assert (Hvalid : valid (inputs w) file).
  { split; [now apply String.eqb_neq|exact Hfile]. }
  rewrite (submit_valid_run b env w file Hvalid).
  destruct (body_outcome env file (inputs w)) as (r & before & look & _ & Hbody).
  destruct (Hbody b (with_screen (loaded b) w) eq_refl)
    as (d & -> & _ & Hshown).
  destruct r as [u|e]; cbv beta iota; cbn [snd].
  - destruct (Hshown u eq_refl) as (Hblock & Hclass & _ & Hin).
    rewrite <- Hclass in Hin. destruct b; split; assumption.
  - match goal with
    | |- context [add_log _ ?w1] =>
        destruct (caught_screen b e w1) as (Hblock & Hclass & _)
    end.
    cbv zeta in Hblock, Hclass. rewrite Hblock, Hclass.
    split; [reflexivity | right; now left].
Qed.

(** X7: A run of [submitForApproval] only appends to the record of calls,
    and it calls [fetch] at most once: exactly once when the treatment is
    not empty, a file is selected and the reader delivers its data URL,
    and not at all otherwise.  The request is a [POST] to [API_ENDPOINT]
    with the one header [Content-Type: application/json]. *)
Theorem one_request_at_most (b : build) (env : environment) (w : world) :
  exists new,
    log (snd (submitForApproval b env w)) = (log w ++ new)%list /\
    filter is_fetch new =
      (if String.eqb (treatmentTypeInput_value (inputs w)) "" then []
       else match selectedFile (inputs w) with
            | None => []
            | Some file =>
                match file_dataURL file with
                | Some dataURL => [Call_fetch (sent env (inputs w) dataURL)]
                | None => []
                end
            end) /\
    forall q, In (Call_fetch q) new ->
      req_url q = API_ENDPOINT /\ req_method q = "POST" /\
      req_headers q = [("Content-Type", "application/json")].
Proof.
  assert (Hrequest : forall new q,
            (exists f dataURL,
               filter is_fetch new = [] \/
               filter is_fetch new = [Call_fetch (sent env f dataURL)]) ->
            In (Call_fetch q) new ->
            req_url q = API_ENDPOINT /\ req_method q = "POST" /\
            req_headers q = [("Content-Type", "application/json")]).
  { intros new q (f & dataURL & Hnew) Hq.
    assert (Hin : In (Call_fetch q) (filter is_fetch new))
      by (apply filter_In; split; [exact Hq|reflexivity]).
    destruct Hnew as [Hnew|Hnew]; rewrite Hnew in Hin;
      [destruct Hin|destruct Hin as [Hin|[]]].
    injection Hin as <-. repeat split. }
  destruct (String.eqb (treatmentTypeInput_value (inputs w)) "") eqn:Htreatment.
  { exists [Call_showResult "Please specify the treatment type" "error"].
    unfold submitForApproval, bind, read_inputs. cbn [truthy].
    rewrite Htreatment. cbn [negb]. rewrite showResult_run.
    split; [reflexivity|]. split; [reflexivity|].
    intros q [Hq|[]]. discriminate. }
  destruct (selectedFile (inputs w)) as [file|] eqn:Hfile.
  2:{ exists [Call_showResult "Please select a medical document" "error"].
      unfold submitForApproval, bind, read_inputs. cbn [truthy].
      rewrite Htreatment, Hfile. cbn [negb]. rewrite showResult_run.
      split; [reflexivity|]. split; [reflexivity|].
      intros q [Hq|[]]. discriminate. }
  assert (Hvalid : valid (inputs w) file).
  { split; [now apply String.eqb_neq|exact Hfile]. }
  rewrite (submit_valid_run b env w file Hvalid).
  destruct (body_outcome env file (inputs w))
    as (r & before & look & Hfetch & Hbody).
  destruct (Hbody b (with_screen (loaded b) w) eq_refl) as (d & -> & _).
  destruct r as [u|e]; cbv beta iota; cbn [snd].
  - exists before. split; [reflexivity|]. split; [exact Hfetch|].
    intros q. apply Hrequest. exists (inputs w).
    destruct (file_dataURL file) as [dataURL|];
      [exists dataURL; now right | exists ""; now left].
  - rewrite caught_log. cbn [log with_screen]. rewrite <- app_assoc.
    eexists. split; [reflexivity|].
    assert (Hall : filter is_fetch
              (before ++ [Call_console_error e;
                          Call_showResult ("Error: " ++ error_text e) "error"])
            = filter is_fetch before).
    { rewrite filter_app. cbn. apply app_nil_r. }
    split; [now rewrite Hall|].
    intros q. apply Hrequest. exists (inputs w). rewrite Hall.
    destruct (file_dataURL file) as [dataURL|];
      [exists dataURL; now right | exists ""; now left].
Qed.

(** X8: [frontend/app.js] and the inlined script differ in what they draw
    only: on the same form and in the same environment they complete the
    same way, make the same calls with the same arguments in the same
    order, and leave the form, the button and the spinner in the same
    state. *)
Theorem builds_agree (env : environment) (w : world) :
  let a := submitForApproval AppJs env w in
  let i := submitForApproval Inlined env w in
  fst a = fst i /\
  log (snd a) = log (snd i) /\
  inputs (snd a) = inputs (snd i) /\
  submitBtn_disabled (screen (snd a)) = submitBtn_disabled (screen (snd i)) /\
  loadingSpinner_style_display (screen (snd a)) =
    loadingSpinner_style_display (screen (snd i)).
Proof.
  cbv zeta.
  destruct (String.eqb (treatmentTypeInput_value (inputs w)) "") eqn:Htreatment.
  { unfold submitForApproval, bind, read_inputs. cbn [truthy].
    rewrite Htreatment. cbn [negb]. rewrite !showResult_run. repeat split. }
  destruct (selectedFile (inputs w)) as [file|] eqn:Hfile.
  2:{ unfold submitForApproval, bind, read_inputs. cbn [truthy].
      rewrite Htreatment, Hfile. cbn [negb]. rewrite !showResult_run.
      repeat split. }
  assert (Hvalid : valid (inputs w) file).
  { split; [now apply String.eqb_neq|exact Hfile]. }
  rewrite !(submit_valid_run _ env w file Hvalid).
  destruct (body_outcome env file (inputs w)) as (r & before & look & _ & Hbody).
  destruct (Hbody AppJs (with_screen (loaded AppJs) w) eq_refl)
    as (d & -> & _).
  destruct (Hbody Inlined (with_screen (loaded Inlined) w) eq_refl)
    as (d' & -> & _).
  destruct r as [u|e]; cbv beta iota; cbn [fst snd].
  - repeat split.
  - rewrite !caught_log, !showResult_run. repeat split.
Qed.

(** The handler stops at the second check. *)
Lemma no_file_run (b : build) (env : environment) (w : world) :
  treatmentTypeInput_value (inputs w) <> "" ->
  selectedFile (inputs w) = None ->
  submitForApproval b env w =
  showResult b "Please select a medical document" "error" w.
Proof.
  intros Htreatment Hfile.
  unfold submitForApproval, bind, read_inputs. cbn [truthy].
  apply String.eqb_neq in Htreatment. now rewrite Htreatment, Hfile.
Qed.

(** The form after a run: as it was, or as the user left it meanwhile. *)
Lemma submit_inputs (b : build) (env : environment) (w : world) :
  inputs (snd (submitForApproval b env w)) = inputs w \/
  inputs (snd (submitForApproval b env w)) = user_edits env (inputs w).
Proof.
  destruct (String.eqb (treatmentTypeInput_value (inputs w)) "") eqn:Htreatment.
  { left. unfold submitForApproval, bind, read_inputs. cbn [truthy].
    rewrite Htreatment. cbn [negb]. now rewrite showResult_run. }
  destruct (selectedFile (inputs w)) as [file|] eqn:Hfile.
  2:{ left. unfold submitForApproval, bind, read_inputs. cbn [truthy].
      rewrite Htreatment, Hfile. cbn [negb]. now rewrite showResult_run. }
  right.
  assert (Hvalid : valid (inputs w) file).
  { split; [now apply String.eqb_neq|exact Hfile]. }
  rewrite (submit_valid_run b env w file Hvalid).
  destruct (body_outcome env file (inputs w)) as (r & before & look & _ & Hbody).
  destruct (Hbody b (with_screen (loaded b) w) eq_refl) as (d & -> & _).
  destruct r as [u|e]; cbv beta iota; cbn [snd]; [reflexivity|].
  now rewrite showResult_run.
Qed.

Lemma display_ext (d d' : display) :
  submitBtn_disabled d = submitBtn_disabled d' ->
  btnText_style_display d = btnText_style_display d' ->
  loadingSpinner_style_display d = loadingSpinner_style_display d' ->
  resultDiv_style_display d = resultDiv_style_display d' ->
  resultDiv_className d = resultDiv_className d' ->
  resultDiv_innerHTML d = resultDiv_innerHTML d' ->
  d = d'.
Proof. destruct d, d'; cbn; intros; subst; reflexivity. Qed.

(** A second run in the same environment, with the form left alone,
    repeats the first. *)
Lemma resubmission_same (b : build) (env : environment) (w : world) :
  user_edits env (inputs w) = inputs w ->
  let first := submitForApproval b env w in
  let second := submitForApproval b env (snd first) in
  fst second = fst first /\
  screen (snd second) = screen (snd first) /\
  inputs (snd second) = inputs (snd first) /\
  exists new,
    log (snd first) = (log w ++ new)%list /\
    log (snd second) = (log (snd first) ++ new)%list.
Proof.
  intros Hquiet. cbv zeta.
  destruct (String.eqb (treatmentTypeInput_value (inputs w)) "") eqn:Htreatment.
  { assert (Hrun : forall w', inputs w' = inputs w ->
              submitForApproval b env w' =
              showResult b "Please specify the treatment type" "error" w').
    { intros w' Hw'. unfold submitForApproval, bind, read_inputs.
      cbn [truthy]. now rewrite Hw', Htreatment. }
    rewrite (Hrun w eq_refl), showResult_run. cbn [snd].
    match goal with
    | |- context [submitForApproval b env ?w1] => rewrite (Hrun w1 eq_refl)
    end.
    rewrite showResult_run. cbn [fst snd].
    repeat split. eexists. split; reflexivity. }
  destruct (selectedFile (inputs w)) as [file|] eqn:Hfile.
  2:{ assert (Hrun : forall w', inputs w' = inputs w ->
                submitForApproval b env w' =
                showResult b "Please select a medical document" "error" w').
      { intros w' Hw'. unfold submitForApproval, bind, read_inputs.
        cbn [truthy]. now rewrite Hw', Htreatment, Hfile. }
      rewrite (Hrun w eq_refl), showResult_run. cbn [snd].
      match goal with
    | |- context [submitForApproval b env ?w1] => rewrite (Hrun w1 eq_refl)
    end.
    rewrite showResult_run. cbn [fst snd].
      repeat split. eexists. split; reflexivity. }
  assert (Hvalid : valid (inputs w) file).
  { split; [now apply String.eqb_neq|exact Hfile]. }
  rewrite (submit_valid_run b env w file Hvalid).
  destruct (body_outcome env file (inputs w)) as (r & before & look & _ & Hbody).
  destruct (Hbody b (with_screen (loaded b) w) eq_refl)
    as (d & -> & Hcontrols & Hlook).
  rewrite Hquiet in *.
  destruct r as [u|e]; cbv beta iota; cbn [fst snd].
  - match goal with
    | |- context [submitForApproval b env ?w1] =>
        rewrite (submit_valid_run b env w1 file Hvalid)
    end.
    match goal with
    | |- context [submit_body b env file ?w1] =>
        destruct (Hbody b w1 eq_refl) as (d2 & -> & Hcontrols2 & Hlook2)
    end.
    cbv beta iota. cbn [fst snd inputs screen log with_screen].
    destruct (Hlook u eq_refl) as (Hblock & Hclass & Hhtml & _).
    destruct (Hlook2 u eq_refl) as (Hblock2 & Hclass2 & Hhtml2 & _).
    destruct Hcontrols as (_ & Htext & _), Hcontrols2 as (_ & Htext2 & _).
    cbn [screen with_screen] in Htext, Htext2.
    split; [reflexivity|]. split.
    + apply display_ext; destruct b; cbn in *; congruence.
    + split; [reflexivity|]. eexists. split; reflexivity.
  - rewrite caught_log, showResult_run. cbn [snd inputs add_log with_screen].
    match goal with
    | |- context [submitForApproval b env ?w1] =>
        rewrite (submit_valid_run b env w1 file Hvalid)
    end.
    match goal with
    | |- context [submit_body b env file ?w1] =>
        destruct (Hbody b w1 eq_refl) as (d2 & -> & Hcontrols2 & _)
    end.
    cbv beta iota. cbn [fst snd].
    rewrite caught_log, showResult_run.
    cbn [fst snd inputs screen log add_log with_screen].
    destruct Hcontrols as (_ & Htext & _), Hcontrols2 as (_ & Htext2 & _).
    cbn [screen with_screen] in Htext, Htext2.
    split; [reflexivity|]. split.
    + apply display_ext; destruct b; cbn in *; congruence.
    + split; [reflexivity|].
      exists (before ++ [Call_console_error e;
                         Call_showResult ("Error: " ++ error_text e) "error"])%list.
      split; rewrite <- ?app_assoc; reflexivity.
Qed.

(** The handler reads its environment at two places only: what the user
    did to the form while the file was read, and the answer to the
    request. *)
Lemma submit_env_ext (b : build) (env env' : environment) (w : world) :
  user_edits env' (inputs w) = user_edits env (inputs w) ->
  (forall q, network env' q = network env q) ->
  submitForApproval b env' w = submitForApproval b env w.
Proof.
  intros Hedits Hnet.
  destruct (String.eqb (treatmentTypeInput_value (inputs w)) "") eqn:Htreatment.
  { unfold submitForApproval, bind, read_inputs. cbn [truthy].
    now rewrite Htreatment. }
  destruct (selectedFile (inputs w)) as [file|] eqn:Hfile.
  2:{ unfold submitForApproval, bind, read_inputs. cbn [truthy].
      now rewrite Htreatment, Hfile. }
  assert (Hvalid : valid (inputs w) file).
  { split; [now apply String.eqb_neq|exact Hfile]. }
  rewrite (submit_valid_run b env w file Hvalid),
    (submit_valid_run b env' w file Hvalid), !submit_body_run.
  cbv zeta. unfold edited, sent. cbn [inputs with_screen].
  rewrite Hedits.
  destruct (file_dataURL file) as [dataURL|]; [|reflexivity].
  now rewrite Hnet.
Qed.

(** X9: Submitting a second time repeats the first run, provided the
    form is left alone during both runs and the service answers the
    second time as it did the first (the same status and body for the
    same request): then the second run completes the same way, makes the
    same calls once more and leaves the same screen.  The handler
    remembers nothing of the first run; what differs between two
    submissions of one form comes from the answers. *)
Theorem resubmission (b : build) (env env' : environment) (w : world) :
  user_edits env (inputs w) = inputs w ->
  user_edits env' (inputs w) = inputs w ->
  (forall q, network env' q = network env q) ->
  let first := submitForApproval b env w in
  let second := submitForApproval b env' (snd first) in
  fst second = fst first /\
  screen (snd second) = screen (snd first) /\
  inputs (snd second) = inputs (snd first) /\
  exists new,
    log (snd first) = (log w ++ new)%list /\
    log (snd second) = (log (snd first) ++ new)%list.
Proof.
  intros Halone Halone' Hnet. cbv zeta.
  assert (Hinputs : inputs (snd (submitForApproval b env w)) = inputs w).
  { destruct (submit_inputs b env w) as [H | H]; rewrite H;
      [reflexivity | exact Halone]. }
  rewrite (submit_env_ext b env env' (snd (submitForApproval b env w)));
    [exact (resubmission_same b env w Halone) | | exact Hnet].
  now rewrite Hinputs, Halone, Halone'.
Qed.

(** X5: An exception raised by [displayResults] on a response with an ok
    status is caught by the handler's own catch clause: the run completes
    normally, [displayResults] is entered and never left, the exception is
    logged, and the page shows [Error: ] followed by the exception's
    message with the class of a denial, in place of whatever
    [displayResults] had drawn. *)
Theorem rendering_failure_shown (b : build) (env : environment) (w w0 : world)
  (file : File) (dataURL : string) (status : nat) (body : string)
  (data : jsval) (e : thrown) :
  valid (inputs w) file ->
  file_dataURL file = Some dataURL ->
  network env (sent env (inputs w) dataURL) = Response status body ->
  ok status = true ->
  JSON_parse body = Normal data ->
  fst (displayResults b data w0) = Throw e ->
  let run := submitForApproval b env w in
  fst run = Normal tt /\
  log (snd run) =
    (log w ++ [Call_readFileAsBase64 file;
               Call_fetch (sent env (inputs w) dataURL);
               Call_displayResults data;
               Call_console_error e;
               Call_showResult ("Error: " ++ error_text e) "error"])%list /\
  resultDiv_className (screen (snd run)) = class b "denied" /\
  resultDiv_innerHTML (screen (snd run)) =
    match b with
    | AppJs => "Error: " ++ error_text e
    | Inlined => "<h3>❌</h3><p>" ++ ("Error: " ++ error_text e) ++ "</p>"
    end.
Proof.
  intros Hvalid Hfile Hnet Hok Hparse Hthrows.
  destruct (displayResults_outcome data) as (r & look & Hrun).
  destruct (Hrun b w0) as (d0 & Hd0 & _).
  rewrite Hd0 in Hthrows. cbn [fst] in Hthrows. subst r.
  destruct (thrown_run b env w file e
              [Call_readFileAsBase64 file;
               Call_fetch (sent env (inputs w) dataURL);
               Call_displayResults data]
              Hvalid) as (Hr & Hlog & _ & Hclass & Hhtml).
  { rewrite submit_body_run, Hfile. cbv zeta. cbn [inputs with_screen].
    rewrite Hnet, Hparse, Hok.
    match goal with
    | |- context [displayResults b data ?w2] =>
        destruct (Hrun b w2) as (d & -> & _)
    end.
    lay_out. eexists. reflexivity. }
  cbv zeta. repeat split; assumption.
Qed.

(** *** The branches of [displayResults] *)

Ltac enter_decision Hanalysis Hdecision :=
  unfold displayResults, bind, lift, draw, emit, has_decision;
  cbn [inputs screen log]; rewrite Hanalysis; cbn [bindC];
  rewrite (analysis_truthy _ _ Hdecision) || idtac;
  cbn [bindC]; rewrite Hdecision; cbn [bindC truthy].

(** X10: For a decision that is a text, the class [displayResults] gives the
    result element depends on that text as follows, inside the
    pipeline's enumeration or not: processing for the empty text, approved
    for any text that contains [APPROVED] (so also for [DISAPPROVED] or
    [NOT APPROVED]), denied for every other text (so also for [PENDING]). *)
Theorem decision_text_branch (b : build) (data analysis : jsval)
  (decision : string) (w : world) :
  get data "ai_analysis" = Normal analysis ->
  get analysis "decision" = Normal (JStr decision) ->
  resultDiv_className (screen (snd (displayResults b data w))) =
    class b (if String.eqb decision "" then "processing"
             else if includes "APPROVED" decision then "approved"
             else "denied").
Proof.
  intros Hanalysis Hdecision.
  enter_decision Hanalysis Hdecision.
  destruct (String.eqb decision ""); cbn [negb].
  - destruct (processing_markup b data); reflexivity.
  - cbn [call_includes]. destruct (includes "APPROVED" decision).
    + destruct (approved_markup b data analysis); reflexivity.
    + destruct (denied_markup b data analysis); reflexivity.
Qed.

(** X11: A truthy decision that is neither a text nor an array (a number, a
    boolean, an object) has no [includes]: [displayResults] throws the
    engine's [TypeError] for calling what is no function, having made the
    result element visible and changed neither its class nor its
    markup. *)
Theorem decision_not_text (b : build) (data analysis decision : jsval)
  (w : world) :
  get data "ai_analysis" = Normal analysis ->
  get analysis "decision" = Normal decision ->
  truthy decision = true ->
  is_text decision = false ->
  (forall items, decision <> JArr items) ->
  let run := displayResults b data w in
  fst run =
    Throw (TypeError (message_not_a_function "analysis.decision.includes")) /\
  resultDiv_className (screen (snd run)) = resultDiv_className (screen w) /\
  resultDiv_innerHTML (screen (snd run)) = resultDiv_innerHTML (screen w) /\
  log (snd run) = (log w ++ [Call_displayResults data])%list.
Proof.
  intros Hanalysis Hdecision Htruthy Htext Harray. cbv zeta.
  assert (Hobject : truthy analysis = true).
  { destruct analysis; cbn in Hdecision; try discriminate; try reflexivity;
      repeat match type of Hdecision with
             | (if ?c then _ else _) = _ => destruct c
             end;
      injection Hdecision as <-; discriminate. }
  unfold displayResults, bind, lift, draw, emit, has_decision.
  cbn [inputs screen log]. rewrite Hanalysis. cbn [bindC].
  rewrite Hobject, Hdecision. rewrite Htruthy.
  destruct decision; try discriminate; cbn [call_includes];
    try (repeat split; reflexivity).
  now destruct (Harray items).
Qed.


(** A list that is [undefined] or [null] stops the template. *)
Lemma optional_list_nullish (analysis : jsval) (field : string)
  (render : string -> string) :
  get analysis field = Normal JUndefined \/ get analysis field = Normal JNull ->
  exists e, optional_list analysis field render = Throw e.
Proof.
  intros [H|H]; unfold optional_list; rewrite H; cbn [bindC get];
    eexists; reflexivity.
Qed.

Lemma markup_needs_list (b : build) (data analysis : jsval)
  (decision : string) :
  get analysis (list_field decision) = Normal JUndefined \/
  get analysis (list_field decision) = Normal JNull ->
  exists e,
    (if includes "APPROVED" decision then approved_markup b data analysis
     else denied_markup b data analysis) = Throw e.
Proof.
  intros Hlist. unfold list_field in Hlist.
  destruct (includes "APPROVED" decision).
  - unfold approved_markup.
    destruct (optional_list_nullish analysis "missing_documentation"
                (fun joined =>
                   line (margin b + 4) ("<div class=" ++ attr "notes" ++ ">")
                   ++ line (margin b + 8)
                        ("<p><strong>Note:</strong> " ++ joined ++ "</p>")
                   ++ line (margin b + 4) "</div>"
                   ++ line (margin b + 4) "") Hlist) as (e & He).
    cbv zeta. rewrite He.
    repeat match goal with
           | |- exists _, bindC ?c _ = _ =>
               destruct c; cbn [bindC]; [|eexists; reflexivity]
           end.
    eexists; reflexivity.
  - unfold denied_markup.
    destruct (optional_list_nullish analysis "alternative_treatments"
                (fun joined =>
                   line (margin b + 4)
                     ("<p><strong>Alternatives:</strong> " ++ joined ++ "</p>")
                   ++ line (margin b + 4) "") Hlist) as (e & He).
    cbv zeta. rewrite He.
    repeat match goal with
           | |- exists _, bindC ?c _ = _ =>
               destruct c; cbn [bindC]; [|eexists; reflexivity]
           end.
    eexists; reflexivity.
Qed.

(** X12: The branch for an approval reads [missing_documentation.length] and
    the branch for a denial [alternative_treatments.length] without a
    guard: when that member is missing or [null], [displayResults] throws
    after it has set the class of its branch and before it writes any
    markup. *)
Theorem list_field_required (b : build) (data analysis : jsval)
  (decision : string) (w : world) :
  get data "ai_analysis" = Normal analysis ->
  get analysis "decision" = Normal (JStr decision) ->
  decision <> "" ->
  get analysis (list_field decision) = Normal JUndefined \/
  get analysis (list_field decision) = Normal JNull ->
  let run := displayResults b data w in
  (exists e, fst run = Throw e) /\
  resultDiv_className (screen (snd run)) =
    class b (if includes "APPROVED" decision then "approved" else "denied") /\
  resultDiv_innerHTML (screen (snd run)) = resultDiv_innerHTML (screen w) /\
  log (snd run) = (log w ++ [Call_displayResults data])%list.
Proof.
  intros Hanalysis Hdecision Hne Hlist. cbv zeta.
  destruct (markup_needs_list b data analysis decision Hlist) as (e & He).
  enter_decision Hanalysis Hdecision.
  apply String.eqb_neq in Hne. rewrite Hne. cbn [negb call_includes].
  destruct (includes "APPROVED" decision); rewrite He;
    (split; [now exists e | repeat split]).
Qed.


(** X13: The fallback branch needs [next_steps].  Let the test
    [data.ai_analysis && data.ai_analysis.decision] complete without an
    exception and give a falsy value, let [data.approval_probability]
    convert to a number without an exception, and let [data.next_steps]
    be [undefined]: then [displayResults] throws the engine's [TypeError]
    for reading [map] of [undefined], with the class processing set and
    the markup untouched.  (Data that is [null], or a probability whose
    conversion throws, raise another exception earlier; the conditions
    exclude them.) *)
Theorem fallback_needs_next_steps (b : build) (data decided probability : jsval)
  (n : number) (w : world) :
  has_decision data = Normal decided ->
  truthy decided = false ->
  get data "approval_probability" = Normal probability ->
  ToNumber probability = Normal n ->
  get data "next_steps" = Normal JUndefined ->
  let run := displayResults b data w in
  fst run = Throw (TypeError (message_nullish_read "undefined" "map")) /\
  resultDiv_className (screen (snd run)) = class b "processing" /\
  resultDiv_innerHTML (screen (snd run)) = resultDiv_innerHTML (screen w) /\
  log (snd run) = (log w ++ [Call_displayResults data])%list.
Proof.
  intros Hdecided Hfalsy Hprobability Hnumber Hsteps. cbv zeta.
  unfold displayResults, bind, lift, draw, emit.
  cbn [inputs screen log]. rewrite Hdecided, Hfalsy.
  unfold processing_markup. rewrite Hprobability. cbn [bindC].
  rewrite Hnumber. cbn [bindC]. rewrite Hsteps. cbn [bindC call_map].
  repeat split.
Qed.

(** *** Responses that render *)

Lemma primitive_prints (v : jsval) :
  primitive v = true -> exists s, ToString v = Normal s.
Proof.
  destruct v as [| |[|]| | | |]; intros H; try discriminate;
    eexists; reflexivity.
Qed.

Lemma texts_join (sep : string) (items : list jsval) :
  forallb is_text items = true -> exists s, array_join sep items = Normal s.
Proof.
  induction items as [|x rest IH]; intros H; [now exists ""|].
  cbn [forallb] in H. apply andb_true_iff in H as [Hx Hrest].
  destruct (IH Hrest) as (t & Ht).
  destruct x; try discriminate.
  cbn [array_join ToString bindC]. destruct rest; [eexists; reflexivity|].
  rewrite Ht. eexists; reflexivity.
Qed.

Lemma member_prints (props : list (string * jsval)) (k : string) :
  (forall v, own k props = Some v -> primitive v = true) ->
  exists v s, get (JObj props) k = Normal v /\ ToString v = Normal s.
Proof.
  intros H. cbn [get]. destruct (own k props) as [v|].
  - destruct (primitive_prints v (H v eq_refl)) as (s & Hs). now exists v, s.
  - exists JUndefined, "undefined". now split.
Qed.

Lemma optional_list_texts (props : list (string * jsval)) (field : string)
  (render : string -> string) (v : jsval) :
  own field props = Some v -> texts v = true ->
  exists s, optional_list (JObj props) field render = Normal s.
Proof.
  intros Hown Htexts. unfold optional_list. cbn [get]. rewrite Hown.
  cbn [bindC]. destruct v; try discriminate. cbn [get String.eqb Ascii.eqb
    Bool.eqb bindC].
  destruct (truthy _); [|eexists; reflexivity].
  cbn [call_join]. destruct (texts_join ", " items Htexts) as (s & ->).
  eexists; reflexivity.
Qed.


Ltac print_member props k H :=
  let v := fresh "v" in let s := fresh "s" in
  let Hget := fresh "Hget" in let Hprint := fresh "Hprint" in
  destruct (member_prints props k H) as (v & s & Hget & Hprint);
  rewrite ?Hget; cbn [bindC]; rewrite ?Hprint; cbn [bindC].

Lemma record_markup (b : build) (dprops props : list (string * jsval))
  (decision : string) :
  (forall k v, In k ["confidence_score"; "reason"; "appeal_guidance"] ->
     own k props = Some v -> primitive v = true) ->
  (forall v, own "request_id" dprops = Some v -> primitive v = true) ->
  (exists v, own (list_field decision) props = Some v /\ texts v = true) ->
  exists markup,
    (if includes "APPROVED" decision
     then approved_markup b (JObj dprops) (JObj props)
     else denied_markup b (JObj dprops) (JObj props)) = Normal markup.
Proof.
  intros Hprops Hid (list & Hlist & Htexts). unfold list_field in Hlist.
  destruct (includes "APPROVED" decision).
  - unfold approved_markup. cbv zeta.
    print_member props "confidence_score"
      (fun v => Hprops "confidence_score" v (or_introl eq_refl)).
    print_member props "reason"
      (fun v => Hprops "reason" v (or_intror (or_introl eq_refl))).
    print_member dprops "request_id" Hid.
    match goal with
    | |- context [optional_list _ _ ?render] =>
        destruct (optional_list_texts props "missing_documentation" render
                    list Hlist Htexts) as (notes & ->)
    end.
    cbn [bindC]. eexists; reflexivity.
  - unfold denied_markup. cbv zeta.
    print_member props "confidence_score"
      (fun v => Hprops "confidence_score" v (or_introl eq_refl)).
    print_member props "reason"
      (fun v => Hprops "reason" v (or_intror (or_introl eq_refl))).
    match goal with
    | |- context [optional_list _ _ ?render] =>
        destruct (optional_list_texts props "alternative_treatments" render
                    list Hlist Htexts) as (alternatives & ->)
    end.
    cbn [bindC].
    print_member props "appeal_guidance"
      (fun v => Hprops "appeal_guidance" v
                  (or_intror (or_intror (or_introl eq_refl)))).
    destruct (truthy _); cbn [bindC]; rewrite ?Hget1, ?Hprint1; cbn [bindC];
      print_member dprops "request_id" Hid; eexists; reflexivity.
Qed.

(** X14: A response whose [ai_analysis] is an object with a non-empty text
    as its decision, with numbers, texts, booleans, [null] or nothing for
    the members the template prints, and with an array of texts for the
    list its branch joins, is rendered: [displayResults] returns, with the
    class of the branch. *)
Theorem record_renders (b : build) (dprops props : list (string * jsval))
  (decision : string) (w : world) :
  own "ai_analysis" dprops = Some (JObj props) ->
  own "decision" props = Some (JStr decision) ->
  decision <> "" ->
  (forall k v, In k ["confidence_score"; "reason"; "appeal_guidance"] ->
     own k props = Some v -> primitive v = true) ->
  (forall v, own "request_id" dprops = Some v -> primitive v = true) ->
  (exists v, own (list_field decision) props = Some v /\ texts v = true) ->
  let run := displayResults b (JObj dprops) w in
  fst run = Normal tt /\
  resultDiv_className (screen (snd run)) =
    class b (if includes "APPROVED" decision then "approved" else "denied") /\
  log (snd run) =
    (log w ++ [Call_displayResults (JObj dprops); Return_displayResults])%list.
Proof.
  intros Hanalysis Hdecision Hne Hprops Hid Hlist. cbv zeta.
  destruct (record_markup b dprops props decision Hprops Hid Hlist)
    as (markup & Hmarkup).
  assert (Ha : get (JObj dprops) "ai_analysis" = Normal (JObj props))
    by (cbn [get]; now rewrite Hanalysis).
  assert (Hd : get (JObj props) "decision" = Normal (JStr decision))
    by (cbn [get]; now rewrite Hdecision).
  enter_decision Ha Hd.
  apply String.eqb_neq in Hne. rewrite Hne. cbn [negb call_includes].
  destruct (includes "APPROVED" decision); rewrite Hmarkup;
    cbn [fst snd screen log]; rewrite <- app_assoc; repeat split.
Qed.



(** *** The file on its way into the request *)

Lemma split_without_comma (s : string) :
  includes "," s = false -> split "," s = [s].
Proof.
  induction s as [|c rest IH]; [reflexivity|].
  cbn [includes starts_with split]. intros H.
  apply orb_false_iff in H as [Hhead Hrest].
  rewrite (IH Hrest).
  destruct (Ascii.eqb c ",") eqn:Hc; [|reflexivity].
  apply Ascii.eqb_eq in Hc. subst c. discriminate.
Qed.

Lemma split_at_comma (prefix rest : string) :
  includes "," prefix = false ->
  split "," (prefix ++ String "," rest) = prefix :: split "," rest.
Proof.
  induction prefix as [|c prefix IH]; [reflexivity|].
  cbn [includes starts_with append split]. intros H.
  apply orb_false_iff in H as [Hhead Hrest].
  rewrite (IH Hrest).
  destruct (Ascii.eqb c ",") eqn:Hc; [|reflexivity].
  apply Ascii.eqb_eq in Hc. subst c. discriminate.
Qed.

(** X15: [readFileAsBase64] resolves with what stands behind the comma of
    the reader's data URL: for [prefix,payload] with no further comma, with
    [payload]. *)
Theorem base64_of_data_url (prefix payload : string) (file : File)
  (w : world) :
  includes "," prefix = false ->
  includes "," payload = false ->
  file_dataURL file = Some (prefix ++ "," ++ payload) ->
  readFileAsBase64 file w =
  (Normal (JStr payload), add_log [Call_readFileAsBase64 file] w).
Proof.
  intros Hprefix Hpayload Hfile.
  unfold readFileAsBase64, bind, emit, ret. rewrite Hfile.
  unfold after_first_comma. cbn [append].
  rewrite (split_at_comma prefix payload Hprefix),
    (split_without_comma payload Hpayload).
  reflexivity.
Qed.

(** A form that passed the checks and a file that could be read: the
    request is made. *)
Lemma request_is_made (b : build) (env : environment) (w : world)
  (file : File) (dataURL : string) :
  valid (inputs w) file ->
  file_dataURL file = Some dataURL ->
  In (Call_fetch (sent env (inputs w) dataURL))
     (log (snd (submitForApproval b env w))).
Proof.
  intros Hvalid Hfile.
  rewrite (submit_valid_run b env w file Hvalid).
  destruct (body_outcome env file (inputs w))
    as (r & before & look & Hfetch & Hbody).
  destruct (Hbody b (with_screen (loaded b) w) eq_refl) as (d & -> & _).
  rewrite Hfile in Hfetch.
  assert (Hin : In (Call_fetch (sent env (inputs w) dataURL)) before).
  { apply (proj1 (filter_In is_fetch _ before)). rewrite Hfetch. now left. }
  destruct r as [u|e]; cbv beta iota; cbn [snd].
  - cbn [log with_screen]. apply in_or_app. now right.
  - rewrite caught_log. cbn [log with_screen].
    apply in_or_app. left. apply in_or_app. now right.
Qed.

Lemma document_lookup (base64Data : jsval) (f : form) :
  Json.lookup "document"
    (map Json.string_member (body_members base64Data f)) =
  match base64Data with
  | JStr document => Some (Json.JString document)
  | _ => None
  end.
Proof.
  unfold body_members.
  destruct (String.eqb (patientNameInput_value f) ""), base64Data;
    reflexivity.
Qed.

(** X16: From the file to the wire: for a form that passes the checks and a
    file whose data URL is [prefix,payload], the run sends a request whose
    body is a JSON object with the member [document] equal to [payload],
    the base64 text without the [data:...;base64] prefix. *)
Theorem document_member (b : build) (env : environment) (w : world)
  (file : File) (prefix payload : string) :
  valid (inputs w) file ->
  includes "," prefix = false ->
  includes "," payload = false ->
  file_dataURL file = Some (prefix ++ "," ++ payload) ->
  exists q text members,
    In (Call_fetch q) (log (snd (submitForApproval b env w))) /\
    req_body q = Some text /\
    Json.parse text = Some (Json.JObject members) /\
    Json.lookup "document" members = Some (Json.JString payload).
Proof.
  intros Hvalid Hprefix Hpayload Hfile.
  exists (sent env (inputs w) (prefix ++ "," ++ payload)).
  eexists _, _.
  split; [exact (request_is_made b env w file _ Hvalid Hfile)|].
  split; [apply sent_body|]. split; [apply parse_print_flat|].
  rewrite document_lookup. unfold after_first_comma. cbn [append].
  rewrite (split_at_comma prefix payload Hprefix),
    (split_without_comma payload Hpayload).
  reflexivity.
Qed.

(** X17: A data URL without a comma makes [split(',')[1]] undefined, and
    [JSON.stringify] leaves an undefined member out: the request is sent
    all the same, with the treatment type and without any [document]
    member. *)
Theorem document_dropped (b : build) (env : environment) (w : world)
  (file : File) (dataURL : string) :
  valid (inputs w) file ->
  includes "," dataURL = false ->
  file_dataURL file = Some dataURL ->
  exists q text members,
    In (Call_fetch q) (log (snd (submitForApproval b env w))) /\
    req_body q = Some text /\
    Json.parse text = Some (Json.JObject members) /\
    Json.lookup "document" members = None /\
    Json.lookup "treatment_type" members =
      Some (Json.JString
              (treatmentTypeInput_value (user_edits env (inputs w)))).
Proof.
  intros Hvalid Hcomma Hfile.
  exists (sent env (inputs w) dataURL).
  eexists _, _.
  split; [exact (request_is_made b env w file _ Hvalid Hfile)|].
  split; [apply sent_body|]. split; [apply parse_print_flat|].
  assert (Hundefined : after_first_comma dataURL = JUndefined).
  { unfold after_first_comma. now rewrite (split_without_comma dataURL Hcomma). }
  rewrite document_lookup, Hundefined. split; [reflexivity|].
  apply (body_members_lookup JUndefined (user_edits env (inputs w))).
  now left.
Qed.

End RunFacts.

(** ** The file picker *)

Section PickerFacts.
Import Text Js Page Outcome Picker.
Context {E : Engine}.

Lemma submit_keeps_file (b : build) (env : environment) (w : world) :
  keeps_file env ->
  selectedFile (inputs (snd (submitForApproval b env w))) =
  selectedFile (inputs w).
Proof.
  intros Hkeeps. destruct (submit_inputs b env w) as [-> | ->];
    [reflexivity | apply Hkeeps].
Qed.

(** A property of the page that every listener keeps holds after every
    sequence of actions. *)
Lemma run_invariant (b : build) (env : environment) (P : page -> Prop) :
  (forall l e p, P p -> P (snd (call b env l (e, p)))) ->
  (forall files p, P p ->
     P (handleFileSelect b (set_fileInput_files files p))) ->
  forall actions p, P p -> P (run b env actions p).
Proof.
  intros Hcall Hchoose.
  assert (Hdispatch : forall ls e p, P p ->
            P (snd (fold_left (fun s l => call b env l s) ls (e, p)))).
  { induction ls as [|l ls IH]; intros e p Hp; [exact Hp|].
    cbn [fold_left].
    destruct (call b env l (e, p)) as [e1 p1] eqn:Hstep.
    apply IH. specialize (Hcall l e p Hp). now rewrite Hstep in Hcall. }
  induction actions as [|a actions IH]; intros p Hp; [exact Hp|].
  unfold run. cbn [fold_left]. apply IH.
  destruct a as [files | target e]; cbn [act].
  - apply (Hchoose files p Hp).
  - apply Hdispatch, Hp.
Qed.

Lemma drop_listeners :
  listeners DropZone "drop" = [PreventDefaults; HighlightDropZone; HandleDrop].
Proof. reflexivity. Qed.

Lemma click_listeners : listeners SubmitBtn "click" = [SubmitForApproval].
Proof. reflexivity. Qed.

Lemma change_listeners : listeners FileInput "change" = [HandleFileSelect].
Proof. reflexivity. Qed.

Lemma not_highlighted (s : string) :
  s = "dragleave" \/ s = "drop" ->
  String.eqb s "dragenter" || String.eqb s "dragover" = false.
Proof. now intros [-> | ->]. Qed.

(** X18: A [drop] on the drop zone reaches [preventDefaults],
    [highlightDropZone] and the drop listener, in this order: the
    browser's default action is prevented (for a cancelable event), the
    event does not propagate, and the zone gets its resting border colour.
    With at least one file, the first one becomes [selectedFile], the file
    input receives the whole list and the zone names the file; with no
    file, selection, file input and label stay as they were.  The result
    element and the record of calls are not touched. *)
Theorem drop_takes_files (b : build) (env : environment) (e : Event)
  (p : page) :
  type e = "drop" ->
  let e' := fst (dispatch b env DropZone e p) in
  let p' := snd (dispatch b env DropZone e p) in
  defaultPrevented e' = defaultPrevented e || cancelable e /\
  propagationStopped e' = true /\
  dropZone_style_borderColor p' = fst (resting b) /\
  screen (site p') = screen (site p) /\
  log (site p') = log (site p) /\
  treatmentTypeInput_value (inputs (site p')) =
    treatmentTypeInput_value (inputs (site p)) /\
  match dataTransfer_files e with
  | [] =>
      selectedFile (inputs (site p')) = selectedFile (inputs (site p)) /\
      fileInput_files p' = fileInput_files p /\
      dropZone_innerHTML p' = dropZone_innerHTML p
  | file :: rest =>
      selectedFile (inputs (site p')) = Some file /\
      fileInput_files p' = file :: rest /\
      dropZone_innerHTML p' = selected_markup b (file_name file)
  end.
Proof.
  intros Htype. unfold dispatch. rewrite Htype, drop_listeners.
  cbn [fold_left call]. unfold highlightDropZone, handle_drop.
  cbn [type preventDefaults]. rewrite Htype.
  change (String.eqb "drop" "dragenter" || String.eqb "drop" "dragover")
    with false. cbv iota.
  cbn [dataTransfer_files preventDefaults].
  destruct (dataTransfer_files e) as [|file rest]; cbn [length Nat.ltb Nat.leb];
    cbv beta iota zeta; cbn [fst snd]; unfold updateDropZoneUI;
    cbn; repeat split.
Qed.


Lemma quiet_listeners (type : string) :
  type <> "drop" -> forallb quiet (listeners DropZone type) = true.
Proof.
  intros Hdrop. apply String.eqb_neq in Hdrop.
  rewrite String.eqb_sym in Hdrop.
  unfold listeners, registrations.
  cbn -[String.eqb]. rewrite Hdrop.
  destruct (String.eqb "click" type), (String.eqb "dragenter" type),
    (String.eqb "dragover" type), (String.eqb "dragleave" type);
    reflexivity.
Qed.

Lemma quiet_calls (b : build) (env : environment) (ls : list listener) :
  forallb quiet ls = true ->
  forall e p,
    let p' := snd (fold_left (fun s l => call b env l s) ls (e, p)) in
    site p' = site p /\ fileInput_files p' = fileInput_files p /\
    dropZone_innerHTML p' = dropZone_innerHTML p.
Proof.
  induction ls as [|l ls IH]; intros Hquiet e p; [now repeat split|].
  cbn [forallb] in Hquiet. apply andb_true_iff in Hquiet as [Hl Hls].
  cbn [fold_left].
  destruct l; try discriminate Hl; cbn [call];
    match goal with
    | |- context [fold_left _ ls (?e1, ?p1)] =>
        destruct (IH Hls e1 p1) as (Hsite & Hfiles & Hlabel)
    end;
    cbv zeta in *; rewrite Hsite, Hfiles, Hlabel;
    unfold highlightDropZone;
    try destruct (String.eqb (type e) "dragenter" || String.eqb (type e) "dragover");
    repeat split.
Qed.

(** X19: No event on the drop zone other than a [drop] (a click, a
    [dragenter], a [dragover], a [dragleave], or any event nothing is
    registered for) changes the selected file, the files of the file
    input, the label of the zone, the form or the result element. *)
Theorem only_drop_selects (b : build) (env : environment) (e : Event)
  (p : page) :
  type e <> "drop" ->
  let p' := snd (dispatch b env DropZone e p) in
  site p' = site p /\
  fileInput_files p' = fileInput_files p /\
  dropZone_innerHTML p' = dropZone_innerHTML p.
Proof.
  intros Htype. unfold dispatch.
  apply quiet_calls, quiet_listeners, Htype.
Qed.

Lemma set_selectedFile_inputs (file : option File) (p : page) :
  selectedFile (inputs (site (set_selectedFile file p))) = file.
Proof. reflexivity. Qed.

Lemma updateDropZoneUI_keeps (b : build) (p : page) :
  site (updateDropZoneUI b p) = site p /\
  fileInput_files (updateDropZoneUI b p) = fileInput_files p.
Proof.
  unfold updateDropZoneUI.
  destruct (selectedFile (inputs (site p))); split; reflexivity.
Qed.

Lemma updateDropZoneUI_in_sync (b : build) (p : page) :
  in_sync p -> in_sync (updateDropZoneUI b p).
Proof.
  unfold in_sync. destruct (updateDropZoneUI_keeps b p) as [-> ->].
  exact (fun H => H).
Qed.

(** X20: The variable [selectedFile] and the file input stay in step: if
    [selectedFile] is the first file of [fileInput.files] (or both are
    missing), then it still is after any sequence of file choices and
    events on the file input, the drop zone and the button, as long as no
    file is picked while a submission is pending. *)
Theorem selection_in_sync (b : build) (env : environment)
  (actions : list action) (p : page) :
  keeps_file env ->
  in_sync p ->
  in_sync (run b env actions p).
Proof.
  intros Hkeeps. apply run_invariant.
  - intros l e q Hq. unfold in_sync in *.
    destruct l; cbn [call snd]; try exact Hq.
    + apply updateDropZoneUI_in_sync. reflexivity.
    + cbn [set_site site fileInput_files].
      now rewrite (submit_keeps_file b env (site q) Hkeeps).
    + unfold highlightDropZone.
      destruct (_ || _); exact Hq.
    + unfold handle_drop.
      destruct (0 <? length (dataTransfer_files e)); [|exact Hq].
      apply updateDropZoneUI_in_sync. reflexivity.
  - intros files q _. apply updateDropZoneUI_in_sync. reflexivity.
Qed.

Lemma updateDropZoneUI_labelled (b : build) (original : string) (p : page) :
  labelled b original (updateDropZoneUI b p).
Proof.
  unfold labelled, updateDropZoneUI.
  destruct (selectedFile (inputs (site p))) as [file|] eqn:Hfile;
    cbn [set_dropZone_innerHTML site dropZone_innerHTML]; rewrite Hfile;
    [reflexivity | now right].
Qed.

(** X21: Starting without a selection, after any sequence of file choices
    and events the drop zone shows the name of the selected file whenever
    one is selected; with none selected it shows what it showed at the
    start or the script's prompt.  As before, no file is picked while a submission is
    pending. *)
Theorem label_names_selection (b : build) (env : environment)
  (actions : list action) (p : page) :
  keeps_file env ->
  selectedFile (inputs (site p)) = None ->
  let p' := run b env actions p in
  match selectedFile (inputs (site p')) with
  | Some file => dropZone_innerHTML p' = selected_markup b (file_name file)
  | None =>
      dropZone_innerHTML p' = dropZone_innerHTML p \/
      dropZone_innerHTML p' = prompt_markup b
  end.
Proof.
  intros Hkeeps Hnone. cbv zeta.
  apply (run_invariant b env (labelled b (dropZone_innerHTML p))).
  - intros l e q Hq.
    destruct l; cbn [call snd]; try exact Hq.
    + apply updateDropZoneUI_labelled.
    + unfold labelled in *. cbn [set_site site dropZone_innerHTML].
      now rewrite (submit_keeps_file b env (site q) Hkeeps).
    + unfold highlightDropZone. destruct (_ || _); exact Hq.
    + unfold handle_drop.
      destruct (0 <? length (dataTransfer_files e)); [|exact Hq].
      apply updateDropZoneUI_labelled.
  - intros files q _. apply updateDropZoneUI_labelled.
  - unfold labelled. rewrite Hnone. now left.
Qed.

(** X22: From the drop to the request: after a drop of one or more files on
    a page with a treatment typed in, a click on the button reads the
    first dropped file and sends the request made of that file's data and
    the form, while the file input holds the dropped list and the zone
    names the file. *)
Theorem dropped_file_is_sent (b : build) (env : environment) (drop click : Event)
  (p : page) (file : File) (rest : list File) (dataURL : string) :
  type drop = "drop" ->
  type click = "click" ->
  dataTransfer_files drop = file :: rest ->
  file_dataURL file = Some dataURL ->
  treatmentTypeInput_value (inputs (site p)) <> "" ->
  let p1 := snd (dispatch b env DropZone drop p) in
  let p2 := snd (dispatch b env SubmitBtn click p1) in
  selectedFile (inputs (site p1)) = Some file /\
  log (site p1) = log (site p) /\
  In (Call_readFileAsBase64 file) (log (site p2)) /\
  In (Call_fetch (sent env (inputs (site p1)) dataURL)) (log (site p2)) /\
  fileInput_files p2 = file :: rest /\
  dropZone_innerHTML p2 = selected_markup b (file_name file).
Proof.
  intros Hdrop Hclick Hfiles Hurl Htreatment. cbv zeta.
  assert (Hp1 : exists p1, snd (dispatch b env DropZone drop p) = p1 /\
            selectedFile (inputs (site p1)) = Some file /\
            treatmentTypeInput_value (inputs (site p1)) =
              treatmentTypeInput_value (inputs (site p)) /\
            log (site p1) = log (site p) /\
            fileInput_files p1 = file :: rest /\
            dropZone_innerHTML p1 = selected_markup b (file_name file)).
  { eexists. split; [reflexivity|].
    unfold dispatch. rewrite Hdrop, drop_listeners.
    cbn [fold_left call]. unfold highlightDropZone, handle_drop.
    cbn [type preventDefaults dataTransfer_files]. rewrite Hdrop, Hfiles.
    change (String.eqb "drop" "dragenter" || String.eqb "drop" "dragover")
      with false. cbv iota.
    cbn [length Nat.ltb Nat.leb]. cbv beta iota zeta. cbn [fst snd].
    unfold updateDropZoneUI. cbn. repeat split. }
  destruct Hp1 as (p1 & -> & Hselected & Hsame & Hlog & Hinput & Hlabel).
  assert (Hvalid : valid (inputs (site p1)) file).
  { split; [now rewrite Hsame | exact Hselected]. }
  unfold dispatch at 1 2 3 4. rewrite Hclick, click_listeners.
  cbn [fold_left call snd set_site site fileInput_files dropZone_innerHTML].
  repeat split; try assumption.
  - rewrite (submit_valid_run b env (site p1) file Hvalid), submit_body_run.
    cbv zeta. rewrite Hurl.
    assert (Hin : forall (rest : list event) (w : world),
              In (Call_readFileAsBase64 file)
                 (log w ++ Call_readFileAsBase64 file :: rest)).
    { intros. apply in_or_app. right. now left. }
    destruct (network env _) as [message | status body].
    + cbv beta iota. cbn [snd]. rewrite caught_log.
      cbn [log with_screen add_log edited]. rewrite <- !app_assoc.
      apply Hin.
    + destruct (JSON_parse body) as [data|e].
      * destruct (ok status).
        -- destruct (displayResults_outcome data) as (r & look & Hdisplay).
           match goal with
           | |- context [displayResults b data ?w0] =>
               destruct (Hdisplay b w0) as (d & -> & _)
           end.
           destruct r as [u|e]; cbv beta iota; cbn [snd];
             rewrite ?caught_log; cbn [log with_screen add_log edited];
             rewrite <- ?app_assoc; apply Hin.
        -- destruct (rejection data) as [u|e]; cbv beta iota; cbn [snd];
             rewrite ?caught_log; cbn [log with_screen add_log edited];
             rewrite <- ?app_assoc; apply Hin.
      * cbv beta iota. cbn [snd]. rewrite caught_log.
        cbn [log with_screen add_log edited]. rewrite <- !app_assoc.
        apply Hin.
  - exact (request_is_made b env (site p1) file dataURL Hvalid Hurl).
Qed.

(** X23: A file dialog that closes with no file clears the selection,
    whatever was selected before, and puts the prompt back into the drop
    zone; a click on the button then ends at the second check with
    [Please select a medical document]. *)
Theorem empty_choice_clears (b : build) (env : environment) (click : Event)
  (p : page) :
  type click = "click" ->
  treatmentTypeInput_value (inputs (site p)) <> "" ->
  let p1 := act b env p (Choose []) in
  let p2 := act b env p1 (Fire SubmitBtn click) in
  selectedFile (inputs (site p1)) = None /\
  dropZone_innerHTML p1 = prompt_markup b /\
  log (site p2) =
    (log (site p) ++
       [Call_showResult "Please select a medical document" "error"])%list /\
  resultDiv_className (screen (site p2)) = class b "denied".
Proof.
  intros Hclick Htreatment. cbv zeta. cbn [act].
  unfold dispatch. cbn [type change]. rewrite Hclick.
  rewrite change_listeners, click_listeners.
  cbn [fold_left call snd].
  unfold handleFileSelect. cbn [set_fileInput_files fileInput_files nth_error].
  unfold updateDropZoneUI. rewrite set_selectedFile_inputs.
  split; [reflexivity|]. split; [reflexivity|].
  cbn [set_dropZone_innerHTML site set_site].
  rewrite no_file_run; [|exact Htreatment|reflexivity].
  rewrite showResult_run. split; reflexivity.
Qed.

End PickerFacts.

(** ** The properties at the sample data *)

Section RunExamples.
Import Text Js Page Outcome Picker Sample Scenario.
#[local] Existing Instance Sample.engine.

Lemma with_file_valid (file : File) : valid (inputs (with_file file)) file.
Proof. split; [discriminate | reflexivity]. Defined.

Lemma answering_keeps_file (status : nat) (body : string) :
  keeps_file (answering status body).
Proof. intros f. reflexivity. Defined.

Lemma submit_without_file_witness :
  treatmentTypeInput_value (inputs (world_of form_without_file)) <> "" /\
  selectedFile (inputs (world_of form_without_file)) = None /\
  log (snd (submitForApproval AppJs (answering 200 approval)
              (world_of form_without_file))) =
    [Call_showResult "Please select a medical document" "error"].
Proof.
  split; [discriminate|]. split; [reflexivity|].
  exact (proj1 (proj2 (submit_without_file AppJs (answering 200 approval)
                         (world_of form_without_file)
                         ltac:(discriminate) eq_refl))).
Defined.

Lemma reader_error_shown_witness :
  valid (inputs (with_file unreadable_file)) unreadable_file /\
  file_dataURL unreadable_file = None /\
  resultDiv_innerHTML
    (screen (snd (submitForApproval AppJs (answering 200 approval)
                    (with_file unreadable_file)))) = "Error: undefined".
Proof.
  split; [apply with_file_valid|]. split; [reflexivity|].
  exact (proj2 (proj2 (reader_error_shown AppJs (answering 200 approval)
                         (with_file unreadable_file) unreadable_file
                         (with_file_valid unreadable_file) eq_refl))).
Defined.

Lemma network_failure_shown_witness :
  valid (inputs sample_world) sample_file /\
  file_dataURL sample_file = Some sample_dataURL /\
  network offline (sent offline (inputs sample_world) sample_dataURL) =
    NetworkFailure "Failed to fetch" /\
  resultDiv_innerHTML
    (screen (snd (submitForApproval AppJs offline sample_world))) =
    "Error: Failed to fetch".
Proof.
  split; [exact sample_valid|]. do 2 (split; [reflexivity|]).
  exact (proj2 (proj2 (proj2
           (network_failure_shown AppJs offline sample_world sample_file
              sample_dataURL "Failed to fetch" sample_valid eq_refl
              eq_refl)))).
Defined.

Lemma error_member_is_markup_witness :
  valid (inputs sample_world) sample_file /\
  file_dataURL sample_file = Some sample_dataURL /\
  network (answering 400 scripted_refusal)
    (sent (answering 400 scripted_refusal) (inputs sample_world)
       sample_dataURL) = Response 400 scripted_refusal /\
  ok 400 = false /\
  JSON_parse scripted_refusal = Normal (JObj [("error", JStr scripted)]) /\
  own "error" [("error", JStr scripted)] = Some (JStr scripted) /\
  scripted <> "" /\
  resultDiv_innerHTML
    (screen (snd (submitForApproval AppJs (answering 400 scripted_refusal)
                    sample_world))) = "Error: <img src=x onerror=alert(1)>".
Proof.
  split; [exact sample_valid|]. do 5 (split; [reflexivity|]).
  split; [discriminate|].
  exact (error_member_is_markup AppJs (answering 400 scripted_refusal)
           sample_world sample_file sample_dataURL 400 scripted_refusal
           [("error", JStr scripted)] scripted sample_valid eq_refl eq_refl
           eq_refl eq_refl eq_refl ltac:(discriminate)).
Defined.

Lemma rendering_failure_shown_witness :
  valid (inputs sample_world) sample_file /\
  file_dataURL sample_file = Some sample_dataURL /\
  network (answering 200 bare_approval)
    (sent (answering 200 bare_approval) (inputs sample_world) sample_dataURL)
    = Response 200 bare_approval /\
  ok 200 = true /\
  JSON_parse bare_approval = Normal bare_data /\
  fst (displayResults AppJs bare_data sample_world) =
    Throw (TypeError (message_nullish_read "undefined" "length")) /\
  resultDiv_innerHTML
    (screen (snd (submitForApproval AppJs (answering 200 bare_approval)
                    sample_world))) =
    "Error: Cannot read properties of undefined (reading 'length')".
Proof.
  split; [exact sample_valid|]. do 5 (split; [reflexivity|]).
  exact (proj2 (proj2 (proj2
           (rendering_failure_shown AppJs (answering 200 bare_approval)
              sample_world sample_world sample_file sample_dataURL 200
              bare_approval bare_data
              (TypeError (message_nullish_read "undefined" "length"))
              sample_valid eq_refl eq_refl eq_refl eq_refl eq_refl)))).
Defined.

Lemma resubmission_witness :
  user_edits (answering 200 approval) (inputs sample_world) =
    inputs sample_world /\
  user_edits (answering 200 approval) (inputs sample_world) =
    inputs sample_world /\
  (forall q, network (answering 200 approval) q =
             network (answering 200 approval) q) /\
  screen (snd (submitForApproval AppJs (answering 200 approval)
                 (snd (submitForApproval AppJs (answering 200 approval)
                         sample_world)))) =
  screen (snd (submitForApproval AppJs (answering 200 approval)
                 sample_world)).
Proof.
  do 2 (split; [reflexivity|]). split; [reflexivity|].
  exact (proj1 (proj2 (resubmission AppJs (answering 200 approval)
                         (answering 200 approval) sample_world eq_refl
                         eq_refl (fun q => eq_refl)))).
Defined.

Lemma decision_text_branch_witness :
  get disapproved "ai_analysis" =
    Normal (JObj [("decision", JStr "DISAPPROVED")]) /\
  get (JObj [("decision", JStr "DISAPPROVED")]) "decision" =
    Normal (JStr "DISAPPROVED") /\
  resultDiv_className
    (screen (snd (displayResults AppJs disapproved sample_world))) =
    "approved".
Proof.
  do 2 (split; [reflexivity|]).
  exact (decision_text_branch AppJs disapproved
           (JObj [("decision", JStr "DISAPPROVED")]) "DISAPPROVED"
           sample_world eq_refl eq_refl).
Defined.

Lemma decision_not_text_witness :
  get flagged "ai_analysis" = Normal (JObj [("decision", JBool true)]) /\
  get (JObj [("decision", JBool true)]) "decision" = Normal (JBool true) /\
  truthy (JBool true) = true /\
  is_text (JBool true) = false /\
  (forall items, JBool true <> JArr items) /\
  fst (displayResults AppJs flagged sample_world) =
    Throw (TypeError "analysis.decision.includes is not a function").
Proof.
  do 4 (split; [reflexivity|]). split; [discriminate|].
  exact (proj1 (decision_not_text AppJs flagged
                  (JObj [("decision", JBool true)]) (JBool true) sample_world
                  eq_refl eq_refl eq_refl eq_refl
                  ltac:(discriminate))).
Defined.

Lemma list_field_required_witness :
  get bare_data "ai_analysis" = Normal (JObj bare_analysis) /\
  get (JObj bare_analysis) "decision" = Normal (JStr "APPROVED") /\
  "APPROVED" <> "" /\
  (get (JObj bare_analysis) (list_field "APPROVED") = Normal JUndefined \/
   get (JObj bare_analysis) (list_field "APPROVED") = Normal JNull) /\
  resultDiv_className
    (screen (snd (displayResults AppJs bare_data sample_world))) =
    "approved" /\
  resultDiv_innerHTML
    (screen (snd (displayResults AppJs bare_data sample_world))) = "".
Proof.
  do 2 (split; [reflexivity|]). split; [discriminate|].
  split; [left; reflexivity|].
  destruct (list_field_required AppJs bare_data (JObj bare_analysis)
              "APPROVED" sample_world eq_refl eq_refl ltac:(discriminate)
              (or_introl eq_refl))
    as (_ & Hclass & Hmarkup & _).
  split; [exact Hclass | exact Hmarkup].
Defined.

Lemma fallback_needs_next_steps_witness :
  has_decision receipt = Normal JUndefined /\
  truthy JUndefined = false /\
  get receipt "approval_probability" = Normal JUndefined /\
  ToNumber JUndefined = Normal number_nan /\
  get receipt "next_steps" = Normal JUndefined /\
  fst (displayResults AppJs receipt sample_world) =
    Throw (TypeError "Cannot read properties of undefined (reading 'map')").
Proof.
  do 5 (split; [reflexivity|]).
  exact (proj1 (fallback_needs_next_steps AppJs receipt JUndefined JUndefined
                  number_nan sample_world eq_refl eq_refl eq_refl eq_refl
                  eq_refl)).
Defined.

Lemma denial_prints :
  forall k v, In k ["confidence_score"; "reason"; "appeal_guidance"] ->
    own k denial_analysis = Some v -> primitive v = true.
Proof.
  intros k v [<- | [<- | [<- | []]]] Hown;
    try discriminate Hown; injection Hown as <-; reflexivity.
Defined.

Lemma record_renders_witness :
  own "ai_analysis" denial = Some (JObj denial_analysis) /\
  own "decision" denial_analysis = Some (JStr "DENIED") /\
  "DENIED" <> "" /\
  (forall k v, In k ["confidence_score"; "reason"; "appeal_guidance"] ->
     own k denial_analysis = Some v -> primitive v = true) /\
  (forall v, own "request_id" denial = Some v -> primitive v = true) /\
  (exists v, own (list_field "DENIED") denial_analysis = Some v /\
             texts v = true) /\
  fst (displayResults Inlined (JObj denial) sample_world) = Normal tt /\
  resultDiv_className
    (screen (snd (displayResults Inlined (JObj denial) sample_world))) =
    "result denied".
Proof.
  assert (Hid : forall v, own "request_id" denial = Some v ->
                          primitive v = true).
  { intros v Hown. injection Hown as <-. reflexivity. }
  assert (Hlist : exists v, own (list_field "DENIED") denial_analysis = Some v
                            /\ texts v = true).
  { eexists. split; reflexivity. }
  do 2 (split; [reflexivity|]). split; [discriminate|].
  split; [exact denial_prints|]. split; [exact Hid|]. split; [exact Hlist|].
  destruct (record_renders Inlined denial denial_analysis "DENIED"
              sample_world eq_refl eq_refl ltac:(discriminate)
              denial_prints Hid Hlist)
    as (Hreturns & Hclass & _).
  split; [exact Hreturns | exact Hclass].
Defined.

Lemma base64_of_data_url_witness :
  includes "," "data:application/pdf;base64" = false /\
  includes "," "JVBERi0xLjQ=" = false /\
  file_dataURL sample_file =
    Some ("data:application/pdf;base64" ++ "," ++ "JVBERi0xLjQ=") /\
  fst (readFileAsBase64 sample_file sample_world) =
    Normal (JStr "JVBERi0xLjQ=").
Proof.
  do 3 (split; [reflexivity|]).
  exact (f_equal fst
           (base64_of_data_url "data:application/pdf;base64" "JVBERi0xLjQ="
              sample_file sample_world eq_refl eq_refl eq_refl)).
Defined.

Lemma document_member_witness :
  valid (inputs sample_world) sample_file /\
  includes "," "data:application/pdf;base64" = false /\
  includes "," "JVBERi0xLjQ=" = false /\
  file_dataURL sample_file =
    Some ("data:application/pdf;base64" ++ "," ++ "JVBERi0xLjQ=") /\
  exists q text members,
    In (Call_fetch q)
       (log (snd (submitForApproval AppJs (answering 200 approval)
                    sample_world))) /\
    req_body q = Some text /\
    Json.parse text = Some (Json.JObject members) /\
    Json.lookup "document" members = Some (Json.JString "JVBERi0xLjQ=").
Proof.
  split; [exact sample_valid|]. do 3 (split; [reflexivity|]).
  exact (document_member AppJs (answering 200 approval) sample_world
           sample_file "data:application/pdf;base64" "JVBERi0xLjQ="
           sample_valid eq_refl eq_refl eq_refl).
Defined.

Lemma document_dropped_witness :
  valid (inputs (with_file empty_file)) empty_file /\
  includes "," "data:" = false /\
  file_dataURL empty_file = Some "data:" /\
  exists q text members,
    In (Call_fetch q)
       (log (snd (submitForApproval AppJs (answering 200 approval)
                    (with_file empty_file)))) /\
    req_body q = Some text /\
    Json.parse text = Some (Json.JObject members) /\
    Json.lookup "document" members = None /\
    Json.lookup "treatment_type" members = Some (Json.JString "MRI Knee").
Proof.
  split; [apply with_file_valid|]. do 2 (split; [reflexivity|]).
  exact (document_dropped AppJs (answering 200 approval)
           (with_file empty_file) empty_file "data:"
           (with_file_valid empty_file) eq_refl eq_refl).
Defined.

Lemma drop_takes_files_witness :
  type (drag "drop" [sample_file; empty_file]) = "drop" /\
  selectedFile
    (inputs (site (snd (dispatch Inlined (answering 200 approval) DropZone
                          (drag "drop" [sample_file; empty_file])
                          fresh_page)))) = Some sample_file /\
  defaultPrevented
    (fst (dispatch Inlined (answering 200 approval) DropZone
            (drag "drop" [sample_file; empty_file]) fresh_page)) = true.
Proof.
  split; [reflexivity|].
  destruct (drop_takes_files Inlined (answering 200 approval)
              (drag "drop" [sample_file; empty_file]) fresh_page eq_refl)
    as (Hprevented & _ & _ & _ & _ & _ & Hselected & _).
  split; [exact Hselected | exact Hprevented].
Defined.

Lemma only_drop_selects_witness :
  type (drag "dragover" [sample_file]) <> "drop" /\
  site (snd (dispatch AppJs (answering 200 approval) DropZone
               (drag "dragover" [sample_file]) fresh_page)) =
    site fresh_page.
Proof.
  split; [discriminate|].
  exact (proj1 (only_drop_selects AppJs (answering 200 approval)
                  (drag "dragover" [sample_file]) fresh_page
                  ltac:(discriminate))).
Defined.

Lemma selection_in_sync_witness :
  keeps_file (answering 200 approval) /\
  in_sync fresh_page /\
  in_sync (run AppJs (answering 200 approval) session fresh_page).
Proof.
  split; [apply answering_keeps_file|]. split; [reflexivity|].
  exact (selection_in_sync AppJs (answering 200 approval) session fresh_page
           (answering_keeps_file 200 approval) eq_refl).
Defined.

Lemma label_names_selection_witness :
  keeps_file (answering 200 approval) /\
  selectedFile (inputs (site fresh_page)) = None /\
  match
    selectedFile
      (inputs (site (run Inlined (answering 200 approval) session
                       fresh_page)))
  with
  | Some file =>
      dropZone_innerHTML
        (run Inlined (answering 200 approval) session fresh_page) =
      selected_markup Inlined (file_name file)
  | None =>
      dropZone_innerHTML
        (run Inlined (answering 200 approval) session fresh_page) =
      dropZone_innerHTML fresh_page \/
      dropZone_innerHTML
        (run Inlined (answering 200 approval) session fresh_page) =
      prompt_markup Inlined
  end.
Proof.
  split; [apply answering_keeps_file|]. split; [reflexivity|].
  exact (label_names_selection Inlined (answering 200 approval) session
           fresh_page (answering_keeps_file 200 approval) eq_refl).
Defined.

Lemma dropped_file_is_sent_witness :
  type (drag "drop" [sample_file; empty_file]) = "drop" /\
  type click = "click" /\
  dataTransfer_files (drag "drop" [sample_file; empty_file]) =
    sample_file :: [empty_file] /\
  file_dataURL sample_file = Some sample_dataURL /\
  treatmentTypeInput_value (inputs (site fresh_page)) <> "" /\
  In (Call_readFileAsBase64 sample_file)
     (log (site (snd (dispatch AppJs (answering 200 approval) SubmitBtn click
                        (snd (dispatch AppJs (answering 200 approval)
                                DropZone
                                (drag "drop" [sample_file; empty_file])
                                fresh_page)))))).
Proof.
  do 4 (split; [reflexivity|]). split; [discriminate|].
  exact (proj1 (proj2 (proj2
           (dropped_file_is_sent AppJs (answering 200 approval)
              (drag "drop" [sample_file; empty_file]) click fresh_page
              sample_file [empty_file] sample_dataURL eq_refl eq_refl
              eq_refl eq_refl ltac:(discriminate))))).
Defined.

Lemma empty_choice_clears_witness :
  type click = "click" /\
  treatmentTypeInput_value (inputs (site used_page)) <> "" /\
  selectedFile
    (inputs (site (act AppJs (answering 200 approval) used_page
                     (Choose [])))) = None /\
  log (site (act AppJs (answering 200 approval)
               (act AppJs (answering 200 approval) used_page (Choose []))
               (Fire SubmitBtn click))) =
    [Call_showResult "Please select a medical document" "error"].
Proof.
  split; [reflexivity|]. split; [discriminate|].
  destruct (empty_choice_clears AppJs (answering 200 approval) click
              used_page eq_refl ltac:(discriminate))
    as (Hcleared & _ & Hlog & _).
  split; [exact Hcleared | exact Hlog].
Defined.

End RunExamples.
